(** * OpenSimplexNoise: a shallow embedding of the noise generator

    The development follows the two headers of the repository:

    - the OSN header (namespace [OSN]: [NoiseBase], [Noise<2,T>],
      [Noise<3,T>], [Noise<4,T>]), in its C++11 configuration
      ([OSN_USE_LONG_LONG] defined, so the seeded constructors use the
      64-bit linear congruential generator), and
    - the earlier single-class header [OpenSimplexNoise.hh] (class
      [OpenSimplexNoise], 3D only).

    Integers ([int], [long], [long long], [OSN_BYTE]) are modelled as [Z];
    the places where the C++ value wraps are written out.  Lattice
    coordinates ([long]) are kept in [Z]: the code only ever uses their low
    eight bits, which wrap-around does not change ([land_wrap64]).
    Arrays are lists with checked reads and writes: an access outside the
    array yields [None].  The floating-point type [T] is an interface
    ([FloatOps]); its instance [Binary64.ops] is the IEEE double of the
    default template argument, its instance [Exact.ops] computes in the
    real numbers. *)

From Stdlib Require Import ZArith Lia Bool Floats Reals Lra.
From stdpp Require Import base option list list_numbers.

Local Open Scope Z_scope.

(** ** Machine integers *)

(** Two's complement wrap-around of a 64-bit signed value ([long long]). *)
Definition wrap64 (z : Z) : Z := (z + 2^63) mod 2^64 - 2^63.

(** Conversion to [unsigned int]. *)
Definition u32 (z : Z) : Z := z mod 2^32.

(** An integer used as a condition: [if (c & 0x01)]. *)
Definition truthy (z : Z) : bool := negb (z =? 0).

(** ** Arrays *)

(** [a[i]] as an rvalue. *)
Definition load {A} (a : list A) (i : Z) : option A :=
  if decide (0 ≤ i < Z.of_nat (length a)) then a !! Z.to_nat i else None.

(** [a[i] = v]. *)
Definition store {A} (a : list A) (i : Z) (v : A) : option (list A) :=
  if decide (0 ≤ i < Z.of_nat (length a)) then Some (<[Z.to_nat i := v]> a)
  else None.

(** ** The floating-point type [T] *)

(** The operations the evaluators use on [T]: conversion from an integer
    (integral literals and [int] operands), the four arithmetic operations,
    [std::sqrt], [std::floor], [std::pow] with an integer exponent, the
    comparisons [<] and [<=], and the cast [(long)]. *)
Class FloatOps (T : Type) := {
  of_int : Z -> T;
  fadd : T -> T -> T;
  fsub : T -> T -> T;
  fmul : T -> T -> T;
  fdiv : T -> T -> T;
  fsqrt : T -> T;
  ffloor : T -> T;
  fpow : T -> Z -> T;
  flt : T -> T -> bool;
  fle : T -> T -> bool;
  to_long : T -> Z
}.

Declare Scope fl_scope.
Delimit Scope fl_scope with fl.
Notation "# n" := (of_int n%Z) (at level 1, n at level 0, format "# n") : fl_scope.
Infix "+" := fadd : fl_scope.
Infix "-" := fsub : fl_scope.
Infix "*" := fmul : fl_scope.
Infix "/" := fdiv : fl_scope.
Notation "a >? b" := (flt b a) (only parsing) : fl_scope.
Notation "a >=? b" := (fle b a) (only parsing) : fl_scope.
Notation "a <? b" := (flt a b) : fl_scope.
Notation "a <=? b" := (fle a b) : fl_scope.

(** [std::max (a, b)], which is [(a < b) ? b : a]. *)
Definition fmax `{FloatOps T} (a b : T) : T := if flt a b then b else a.

Local Open Scope bool_scope.
Local Open Scope fl_scope.

(** ** NoiseBase *)

Module NoiseBase.

Definition MULTIPLIER : Z := 6364136223846793005.
Definition INCREMENT : Z := 1442695040888963407.

(** [LCG_STEP (long long & x)]: [x = ((x * MULTIPLIER) + INCREMENT)]. *)
Definition LCG_STEP (x : Z) : Z :=
  wrap64 (wrap64 (x * MULTIPLIER) + INCREMENT).

(** [int r = (int)((seed + 31) % (i + 1)); if (r < 0) r += (i + 1);]
    The C++ [%] truncates towards zero ([Z.rem]). *)
Definition draw (seed i : Z) : Z :=
  let r := Z.rem (wrap64 (seed + 31)) (i + 1) in
  if (r <? 0)%Z then (r + (i + 1))%Z else r.

(** The variables of the shuffle loop. *)
Record shuffle_state := ShuffleState {
  st_seed : Z;
  st_source : list Z;
  st_perm : list Z
}.

(** One iteration of [for (int i = 255; i >= 0; --i)]. *)
Definition shuffle_step (i : Z) (st : shuffle_state) : option shuffle_state :=
  let seed := LCG_STEP (st_seed st) in
  let r := draw seed i in
  v ← load (st_source st) r;
  perm ← store (st_perm st) i v;
  si ← load (st_source st) i;
  source ← store (st_source st) r si;
  Some (ShuffleState seed source perm).

(** The loop, for the [n] indices [n-1], ..., [0] that remain. *)
Fixpoint shuffle_loop (n : nat) (st : shuffle_state) : option shuffle_state :=
  match n with
  | O => Some st
  | S i => st' ← shuffle_step (Z.of_nat i) st; shuffle_loop i st'
  end.

(** [source[i] = i] for [i] in [0, 256). *)
Definition source_init : list Z := seqZ 0 256.

(** [NoiseBase (long long seed)].  [perm0] is the content of the member
    array [perm] before the constructor runs: the array is not
    initialised. *)
Definition of_seed (seed : Z) (perm0 : list Z) : option (list Z) :=
  let seed := LCG_STEP seed in
  let seed := LCG_STEP seed in
  let seed := LCG_STEP seed in
  st ← shuffle_loop 256 (ShuffleState seed source_init perm0);
  Some (st_perm st).

(** Without [OSN_USE_LONG_LONG] the generator is the platform's:
    [NoiseBase (long seed)] calls [srand(seed)] and draws with [rand()].
    [rs_rand] holds the values that the coming calls of [rand()] return. *)
Record rand_state := RandState {
  rs_rand : list Z;
  rs_source : list Z;
  rs_perm : list Z
}.

(** One iteration: [int r = (int)(rand() % (i + 1)); perm[i] = source[r];
    source[r] = source[i];]. *)
Definition rand_step (i : Z) (st : rand_state) : option rand_state :=
  match rs_rand st with
  | [] => None
  | x :: rand =>
      let r := Z.rem x (i + 1) in
      v ← load (rs_source st) r;
      perm ← store (rs_perm st) i v;
      si ← load (rs_source st) i;
      source ← store (rs_source st) r si;
      Some (RandState rand source perm)
  end.

Fixpoint rand_loop (n : nat) (st : rand_state) : option rand_state :=
  match n with
  | O => Some st
  | S i => st' ← rand_step (Z.of_nat i) st; rand_loop i st'
  end.

(** [NoiseBase (long seed)], given the stream [rand] that the platform
    produces for the seed. *)
Definition of_rand (rand : list Z) (perm0 : list Z) : option (list Z) :=
  st ← rand_loop 256 (RandState rand source_init perm0);
  Some (rs_perm st).

(** The loop [for (int i = 0; i < 256; ++i) perm[i] = p[i];], for the [n]
    indices from [i] on. *)
Fixpoint copy_loop (n : nat) (i : Z) (p perm : list Z) : option (list Z) :=
  match n with
  | O => Some perm
  | S n' =>
      v ← load p i;
      perm ← store perm i v;
      copy_loop n' (i + 1)%Z p perm
  end.

(** [NoiseBase (const int * p)]. *)
Definition of_table (p : list Z) (perm0 : list Z) : option (list Z) :=
  copy_loop 256 0 p perm0.

End NoiseBase.

(** ** Noise<2, T> *)

Module Noise2.

(** [Noise (long long seed)] and [Noise (const int * p)] only call the
    constructors of [NoiseBase]. *)
Definition of_seed := NoiseBase.of_seed.
Definition of_table := NoiseBase.of_table.

(** Gradient set 2014-10-06. *)
Definition gradients : list Z :=
  [  5; 2;    2; 5;   -5; 2;   -2; 5;
     5;-2;    2;-5;   -5;-2;   -2;-5 ].

Section Eval.
Context {T : Type} {F : FloatOps T}.

(** [extrapolate (long xsb, long ysb, T dx, T dy)]. *)
Definition extrapolate (perm : list Z) (xsb ysb : Z) (dx dy : T) : option T :=
  h ← load perm (Z.land xsb 0xFF);
  h ← load perm (Z.land (h + ysb) 0xFF);
  let index := u32 (Z.land h 0x0E) in
  g0 ← load gradients index;
  g1 ← load gradients (u32 (index + 1));
  Some (#g0 * dx + #g1 * dy).

Definition STRETCH_CONSTANT : T := (#1 / fsqrt (#2 + #1) - #1) * (#1 / #2).
Definition SQUISH_CONSTANT : T := (fsqrt (#2 + #1) - #1) * (#1 / #2).
Definition NORM_CONSTANT : T := #47.

(** Stretch, floor and squish: the cell of the query point
    (lines 169-190 of the OSN header). *)
Definition place (x y : T) :
    Z * Z * T * T * T * T :=
  let stretchOffset := (x + y) * STRETCH_CONSTANT in
  let xs := x + stretchOffset in
  let ys := y + stretchOffset in
  let xsbd := ffloor xs in
  let ysbd := ffloor ys in
  let xsb := (to_long xsbd) in
  let ysb := (to_long ysbd) in
  let squishOffset := (xsbd + ysbd) * SQUISH_CONSTANT in
  let xb := xsbd + squishOffset in
  let yb := ysbd + squishOffset in
  let dx0 := x - xb in
  let dy0 := y - yb in
  let xins := xs - xsbd in
  let yins := ys - ysbd in
  (xsb, ysb, dx0, dy0, xins, yins).

(** The triangle of the point and its extra vertex
    (lines 211-261 of the OSN header). *)
Definition region (xsb ysb : Z) (dx0 dy0 xins yins : T) :
    Z * Z * T * T * Z * Z * T * T :=
  let '(xsv_ext, ysv_ext, dx_ext, dy_ext, xsb, ysb, dx0, dy0) :=
    if xins + yins <=? #1 then
      let zins := #1 - (xins + yins) in
      let '(xsv_ext, ysv_ext, dx_ext, dy_ext) :=
        if (zins >? xins) || (zins >? yins) then
          let '(xsv_ext, ysv_ext, dx_ext, dy_ext) :=
            if xins >? yins then
              let xsv_ext := (xsb + 1)%Z in
              let ysv_ext := (ysb - 1)%Z in
              let dx_ext := dx0 - #1 in
              let dy_ext := dy0 + #1 in
              (xsv_ext, ysv_ext, dx_ext, dy_ext)
            else
              let xsv_ext := (xsb - 1)%Z in
              let ysv_ext := (ysb + 1)%Z in
              let dx_ext := dx0 + #1 in
              let dy_ext := dy0 - #1 in
              (xsv_ext, ysv_ext, dx_ext, dy_ext) in
          (xsv_ext, ysv_ext, dx_ext, dy_ext)
        else
          let xsv_ext := (xsb + 1)%Z in
          let ysv_ext := (ysb + 1)%Z in
          let dx_ext := dx0 - #1 - SQUISH_CONSTANT * #2 in
          let dy_ext := dy0 - #1 - SQUISH_CONSTANT * #2 in
          (xsv_ext, ysv_ext, dx_ext, dy_ext) in
      (xsv_ext, ysv_ext, dx_ext, dy_ext, xsb, ysb, dx0, dy0)
    else
      let zins := #2 - (xins + yins) in
      let '(xsv_ext, ysv_ext, dx_ext, dy_ext) :=
        if (zins <? xins) || (zins <? yins) then
          let '(xsv_ext, ysv_ext, dx_ext, dy_ext) :=
            if xins >? yins then
              let xsv_ext := (xsb + 2)%Z in
              let ysv_ext := ysb in
              let dx_ext := dx0 - #2 - SQUISH_CONSTANT * #2 in
              let dy_ext := dy0 - SQUISH_CONSTANT * #2 in
              (xsv_ext, ysv_ext, dx_ext, dy_ext)
            else
              let xsv_ext := xsb in
              let ysv_ext := (ysb + 2)%Z in
              let dx_ext := dx0 - SQUISH_CONSTANT * #2 in
              let dy_ext := dy0 - #2 - SQUISH_CONSTANT * #2 in
              (xsv_ext, ysv_ext, dx_ext, dy_ext) in
          (xsv_ext, ysv_ext, dx_ext, dy_ext)
        else
          let xsv_ext := xsb in
          let ysv_ext := ysb in
          let dx_ext := dx0 in
          let dy_ext := dy0 in
          (xsv_ext, ysv_ext, dx_ext, dy_ext) in
      let xsb := (xsb + 1)%Z in
      let ysb := (ysb + 1)%Z in
      let dx0 := dx0 - #1 - SQUISH_CONSTANT * #2 in
      let dy0 := dy0 - #1 - SQUISH_CONSTANT * #2 in
      (xsv_ext, ysv_ext, dx_ext, dy_ext, xsb, ysb, dx0, dy0) in
  (xsb, ysb, dx0, dy0, xsv_ext, ysv_ext, dx_ext, dy_ext).

(** The loop [for (int i=0; i<4; ++i) value += std::pow(std::max((T)2.0 -
    contr_m[i], (T)0.0), 4) * contr_ext[i];] over the two arrays. *)
Fixpoint sum_loop (contr_m contr_ext : list T) (value : T) : T :=
  match contr_m, contr_ext with
  | m :: contr_m, e :: contr_ext =>
      sum_loop contr_m contr_ext (value + fpow (fmax (#2 - m) #0) 4 * e)
  | _, _ => value
  end.

(** [T eval (T x, T y) const]. *)
Definition eval (perm : list Z) (x y : T) : option T :=
  let '(xsb, ysb, dx0, dy0, xins, yins) := place x y in
  (* Contribution (1,0). *)
  let dx1 := dx0 - #1 - SQUISH_CONSTANT in
  let dy1 := dy0 - SQUISH_CONSTANT in
  let attn1 := dx1 * dx1 + dy1 * dy1 in
  let contr_m0 := attn1 in
  contr_ext0 ← extrapolate perm (xsb + 1) ysb dx1 dy1;
  (* Contribution (0,1). *)
  let dx2 := dx0 - SQUISH_CONSTANT in
  let dy2 := dy0 - #1 - SQUISH_CONSTANT in
  let attn2 := dx2 * dx2 + dy2 * dy2 in
  let contr_m1 := attn2 in
  contr_ext1 ← extrapolate perm xsb (ysb + 1) dx2 dy2;
  let '(xsb, ysb, dx0, dy0, xsv_ext, ysv_ext, dx_ext, dy_ext) :=
    region xsb ysb dx0 dy0 xins yins in
  (* Contribution (0,0) or (1,1). *)
  let attn0 := dx0 * dx0 + dy0 * dy0 in
  let contr_m2 := attn0 in
  contr_ext2 ← extrapolate perm xsb ysb dx0 dy0;
  (* Extra vertex. *)
  let attn_ext := dx_ext * dx_ext + dy_ext * dy_ext in
  let contr_m3 := attn_ext in
  contr_ext3 ← extrapolate perm xsv_ext ysv_ext dx_ext dy_ext;
  let value := #0 in
  let value :=
    sum_loop [contr_m0; contr_m1; contr_m2; contr_m3]
             [contr_ext0; contr_ext1; contr_ext2; contr_ext3] value in
  Some (value / NORM_CONSTANT).

End Eval.

End Noise2.

(** ** Noise<3, T> *)

Module Noise3.

(** Gradient set 2014-10-06. *)
Definition gradients : list Z :=
  [ -11; 4; 4;   -4; 11; 4;   -4; 4; 11;    11; 4; 4;    4; 11; 4;    4; 4; 11;
    -11;-4; 4;   -4;-11; 4;   -4;-4; 11;    11;-4; 4;    4;-11; 4;    4;-4; 11;
    -11; 4;-4;   -4; 11;-4;   -4; 4;-11;    11; 4;-4;    4; 11;-4;    4; 4;-11;
    -11;-4;-4;   -4;-11;-4;   -4;-4;-11;    11;-4;-4;    4;-11;-4;    4;-4;-11 ].

(** The two member arrays [perm] and [permGradIndex]. *)
Record noise := Noise {
  perm : list Z;
  permGradIndex : list Z
}.

(** [(int)((perm[i] % (72 / 3)) * 3)]; [%] and [/] truncate. *)
Definition grad_index (p : Z) : Z := Z.rem p (Z.quot 72 3) * 3.

(** The variables of the shuffle loop of [Noise (long long seed)]. *)
Record shuffle_state := ShuffleState {
  st_seed : Z;
  st_source : list Z;
  st_noise : noise
}.

(** One iteration of [for (int i = 255; i >= 0; --i)]. *)
Definition shuffle_step (i : Z) (st : shuffle_state) : option shuffle_state :=
  let seed := NoiseBase.LCG_STEP (st_seed st) in
  let r := NoiseBase.draw seed i in
  v ← load (st_source st) r;
  perm ← store (perm (st_noise st)) i v;
  pi ← load perm i;
  permGradIndex ← store (permGradIndex (st_noise st)) i (grad_index pi);
  si ← load (st_source st) i;
  source ← store (st_source st) r si;
  Some (ShuffleState seed source (Noise perm permGradIndex)).

Fixpoint shuffle_loop (n : nat) (st : shuffle_state) : option shuffle_state :=
  match n with
  | O => Some st
  | S i => st' ← shuffle_step (Z.of_nat i) st; shuffle_loop i st'
  end.

(** [Noise (long long seed)]; [n0] holds the two arrays as they are before
    the constructor runs (not initialised). *)
Definition of_seed (seed : Z) (n0 : noise) : option noise :=
  let seed := NoiseBase.LCG_STEP seed in
  let seed := NoiseBase.LCG_STEP seed in
  let seed := NoiseBase.LCG_STEP seed in
  st ← shuffle_loop 256 (ShuffleState seed NoiseBase.source_init n0);
  Some (st_noise st).

(** The loop of [Noise (const int * p)]: [perm[i] = p[i]; permGradIndex[i] =
    (int)((perm[i] % (72 / 3)) * 3);], for the [k] indices from [i] on. *)
Fixpoint copy_loop (k : nat) (i : Z) (p : list Z) (n : noise) : option noise :=
  match k with
  | O => Some n
  | S k' =>
      v ← load p i;
      perm ← store (perm n) i v;
      pi ← load perm i;
      permGradIndex ← store (permGradIndex n) i (grad_index pi);
      copy_loop k' (i + 1)%Z p (Noise perm permGradIndex)
  end.

(** [Noise (const int * p)]. *)
Definition of_table (p : list Z) (n0 : noise) : option noise :=
  copy_loop 256 0 p n0.

Section Eval.
Context {T : Type} {F : FloatOps T}.

(** [extrapolate (long xsb, long ysb, long zsb, T dx, T dy, T dz)]. *)
Definition extrapolate (n : noise) (xsb ysb zsb : Z) (dx dy dz : T) : option T :=
  h ← load (perm n) (Z.land xsb 0xFF);
  h ← load (perm n) (Z.land (h + ysb) 0xFF);
  i ← load (permGradIndex n) (Z.land (h + zsb) 0xFF);
  let index := u32 i in
  g0 ← load gradients index;
  g1 ← load gradients (u32 (index + 1));
  g2 ← load gradients (u32 (index + 2));
  Some (#g0 * dx + #g1 * dy + #g2 * dz).

Definition STRETCH_CONSTANT : T := #(-1) / #6.
Definition SQUISH_CONSTANT : T := #1 / #3.
Definition NORM_CONSTANT : T := #103.

(** Stretch, floor and squish: the cell of the query point
    (lines 393-421 of the OSN header). *)
Definition place (x y z : T) :
    Z * Z * Z * T * T * T * T * T * T :=
  let stretchOffset := (x + y + z) * STRETCH_CONSTANT in
  let xs := x + stretchOffset in
  let ys := y + stretchOffset in
  let zs := z + stretchOffset in
  let xsbd := ffloor xs in
  let ysbd := ffloor ys in
  let zsbd := ffloor zs in
  let xsb := (to_long xsbd) in
  let ysb := (to_long ysbd) in
  let zsb := (to_long zsbd) in
  let squishOffset := (xsbd + ysbd + zsbd) * SQUISH_CONSTANT in
  let xb := xsbd + squishOffset in
  let yb := ysbd + squishOffset in
  let zb := zsbd + squishOffset in
  let dx0 := x - xb in
  let dy0 := y - yb in
  let dz0 := z - zb in
  let xins := xs - xsbd in
  let yins := ys - ysbd in
  let zins := zs - zsbd in
  (xsb, ysb, zsb, dx0, dy0, dz0, xins, yins, zins).

(** Octahedron: the two closest points (lines 446-494 of the OSN header). *)
Definition octa_closest (xins yins zins : T) :
    Z * bool * Z * bool :=
  let p1 := xins + yins in
  let '(aScore, aPoint, aIsFurtherSide) :=
    if p1 <=? #1 then
      let aScore := #1 - p1 in
      let aPoint := 4%Z in
      let aIsFurtherSide := false in
      (aScore, aPoint, aIsFurtherSide)
    else
      let aScore := p1 - #1 in
      let aPoint := 3%Z in
      let aIsFurtherSide := true in
      (aScore, aPoint, aIsFurtherSide) in
  let p2 := xins + zins in
  let '(bScore, bPoint, bIsFurtherSide) :=
    if p2 <=? #1 then
      let bScore := #1 - p2 in
      let bPoint := 2%Z in
      let bIsFurtherSide := false in
      (bScore, bPoint, bIsFurtherSide)
    else
      let bScore := p2 - #1 in
      let bPoint := 5%Z in
      let bIsFurtherSide := true in
      (bScore, bPoint, bIsFurtherSide) in
  let p3 := yins + zins in
  let '(bPoint, bIsFurtherSide, aPoint, aIsFurtherSide) :=
    if p3 >? #1 then
      let score := p3 - #1 in
      let '(bPoint, bIsFurtherSide, aPoint, aIsFurtherSide) :=
        if (aScore >? bScore) && (bScore <? score) then
          let bScore := score in
          let bPoint := 6%Z in
          let bIsFurtherSide := true in
          (bPoint, bIsFurtherSide, aPoint, aIsFurtherSide)
        else if (aScore <=? bScore) && (aScore <? score) then
          let aScore := score in
          let aPoint := 6%Z in
          let aIsFurtherSide := true in
          (bPoint, bIsFurtherSide, aPoint, aIsFurtherSide)
        else (bPoint, bIsFurtherSide, aPoint, aIsFurtherSide) in
      (bPoint, bIsFurtherSide, aPoint, aIsFurtherSide)
    else
      let score := #1 - p3 in
      let '(bPoint, bIsFurtherSide, aPoint, aIsFurtherSide) :=
        if (aScore >? bScore) && (bScore <? score) then
          let bScore := score in
          let bPoint := 1%Z in
          let bIsFurtherSide := false in
          (bPoint, bIsFurtherSide, aPoint, aIsFurtherSide)
        else if (aScore <=? bScore) && (aScore <? score) then
          let aScore := score in
          let aPoint := 1%Z in
          let aIsFurtherSide := false in
          (bPoint, bIsFurtherSide, aPoint, aIsFurtherSide)
        else (bPoint, bIsFurtherSide, aPoint, aIsFurtherSide) in
      (bPoint, bIsFurtherSide, aPoint, aIsFurtherSide) in
  (aPoint, aIsFurtherSide, bPoint, bIsFurtherSide).

(** Octahedron: the two extra vertices (lines 498-629 of the OSN header). *)
Definition octa_ext (xsb ysb zsb : Z) (dx0 dy0 dz0 : T) (aPoint : Z)
    (aIsFurtherSide : bool) (bPoint : Z) (bIsFurtherSide : bool) :
    Z * Z * Z * Z * Z * Z * T * T * T * T * T * T :=
  let '(xsv_ext0, ysv_ext0, zsv_ext0, dx_ext0, dy_ext0, dz_ext0, xsv_ext1, ysv_ext1,
        zsv_ext1, dx_ext1, dy_ext1, dz_ext1) :=
    if Bool.eqb aIsFurtherSide bIsFurtherSide then
      let '(xsv_ext0, ysv_ext0, zsv_ext0, dx_ext0, dy_ext0, dz_ext0, xsv_ext1,
            ysv_ext1, zsv_ext1, dx_ext1, dy_ext1, dz_ext1) :=
        if aIsFurtherSide then
          let xsv_ext0 := (xsb + 1)%Z in
          let ysv_ext0 := (ysb + 1)%Z in
          let zsv_ext0 := (zsb + 1)%Z in
          let dx_ext0 := dx0 - #1 - SQUISH_CONSTANT * #3 in
          let dy_ext0 := dy0 - #1 - SQUISH_CONSTANT * #3 in
          let dz_ext0 := dz0 - #1 - SQUISH_CONSTANT * #3 in
          let c := (Z.land aPoint bPoint) in
          let '(xsv_ext1, ysv_ext1, zsv_ext1, dx_ext1, dy_ext1, dz_ext1) :=
            if truthy (Z.land c 1) then
              let xsv_ext1 := (xsb + 2)%Z in
              let ysv_ext1 := ysb in
              let zsv_ext1 := zsb in
              let dx_ext1 := dx0 - #2 - SQUISH_CONSTANT * #2 in
              let dy_ext1 := dy0 - SQUISH_CONSTANT * #2 in
              let dz_ext1 := dz0 - SQUISH_CONSTANT * #2 in
              (xsv_ext1, ysv_ext1, zsv_ext1, dx_ext1, dy_ext1, dz_ext1)
            else if truthy (Z.land c 2) then
              let xsv_ext1 := xsb in
              let ysv_ext1 := (ysb + 2)%Z in
              let zsv_ext1 := zsb in
              let dx_ext1 := dx0 - SQUISH_CONSTANT * #2 in
              let dy_ext1 := dy0 - #2 - SQUISH_CONSTANT * #2 in
              let dz_ext1 := dz0 - SQUISH_CONSTANT * #2 in
              (xsv_ext1, ysv_ext1, zsv_ext1, dx_ext1, dy_ext1, dz_ext1)
            else
              let xsv_ext1 := xsb in
              let ysv_ext1 := ysb in
              let zsv_ext1 := (zsb + 2)%Z in
              let dx_ext1 := dx0 - SQUISH_CONSTANT * #2 in
              let dy_ext1 := dy0 - SQUISH_CONSTANT * #2 in
              let dz_ext1 := dz0 - #2 - SQUISH_CONSTANT * #2 in
              (xsv_ext1, ysv_ext1, zsv_ext1, dx_ext1, dy_ext1, dz_ext1) in
          (xsv_ext0, ysv_ext0, zsv_ext0, dx_ext0, dy_ext0, dz_ext0, xsv_ext1,
           ysv_ext1, zsv_ext1, dx_ext1, dy_ext1, dz_ext1)
        else
          let xsv_ext0 := xsb in
          let ysv_ext0 := ysb in
          let zsv_ext0 := zsb in
          let dx_ext0 := dx0 in
          let dy_ext0 := dy0 in
          let dz_ext0 := dz0 in
          let c := (Z.lor aPoint bPoint) in
          let '(xsv_ext1, ysv_ext1, zsv_ext1, dx_ext1, dy_ext1, dz_ext1) :=
            if ((Z.land c 1) =? 0)%Z then
              let xsv_ext1 := (xsb - 1)%Z in
              let ysv_ext1 := (ysb + 1)%Z in
              let zsv_ext1 := (zsb + 1)%Z in
              let dx_ext1 := dx0 + #1 - SQUISH_CONSTANT in
              let dy_ext1 := dy0 - #1 - SQUISH_CONSTANT in
              let dz_ext1 := dz0 - #1 - SQUISH_CONSTANT in
              (xsv_ext1, ysv_ext1, zsv_ext1, dx_ext1, dy_ext1, dz_ext1)
            else if ((Z.land c 2) =? 0)%Z then
              let xsv_ext1 := (xsb + 1)%Z in
              let ysv_ext1 := (ysb - 1)%Z in
              let zsv_ext1 := (zsb + 1)%Z in
              let dx_ext1 := dx0 - #1 - SQUISH_CONSTANT in
              let dy_ext1 := dy0 + #1 - SQUISH_CONSTANT in
              let dz_ext1 := dz0 - #1 - SQUISH_CONSTANT in
              (xsv_ext1, ysv_ext1, zsv_ext1, dx_ext1, dy_ext1, dz_ext1)
            else
              let xsv_ext1 := (xsb + 1)%Z in
              let ysv_ext1 := (ysb + 1)%Z in
              let zsv_ext1 := (zsb - 1)%Z in
              let dx_ext1 := dx0 - #1 - SQUISH_CONSTANT in
              let dy_ext1 := dy0 - #1 - SQUISH_CONSTANT in
              let dz_ext1 := dz0 + #1 - SQUISH_CONSTANT in
              (xsv_ext1, ysv_ext1, zsv_ext1, dx_ext1, dy_ext1, dz_ext1) in
          (xsv_ext0, ysv_ext0, zsv_ext0, dx_ext0, dy_ext0, dz_ext0, xsv_ext1,
           ysv_ext1, zsv_ext1, dx_ext1, dy_ext1, dz_ext1) in
      (xsv_ext0, ysv_ext0, zsv_ext0, dx_ext0, dy_ext0, dz_ext0, xsv_ext1, ysv_ext1,
       zsv_ext1, dx_ext1, dy_ext1, dz_ext1)
    else
      let '(c1, c2) :=
        if aIsFurtherSide then
          let c1 := aPoint in
          let c2 := bPoint in
          (c1, c2)
        else
          let c1 := bPoint in
          let c2 := aPoint in
          (c1, c2) in
      let '(xsv_ext0, ysv_ext0, zsv_ext0, dx_ext0, dy_ext0, dz_ext0) :=
        if ((Z.land c1 1) =? 0)%Z then
          let xsv_ext0 := (xsb - 1)%Z in
          let ysv_ext0 := (ysb + 1)%Z in
          let zsv_ext0 := (zsb + 1)%Z in
          let dx_ext0 := dx0 + #1 - SQUISH_CONSTANT in
          let dy_ext0 := dy0 - #1 - SQUISH_CONSTANT in
          let dz_ext0 := dz0 - #1 - SQUISH_CONSTANT in
          (xsv_ext0, ysv_ext0, zsv_ext0, dx_ext0, dy_ext0, dz_ext0)
        else if ((Z.land c1 2) =? 0)%Z then
          let xsv_ext0 := (xsb + 1)%Z in
          let ysv_ext0 := (ysb - 1)%Z in
          let zsv_ext0 := (zsb + 1)%Z in
          let dx_ext0 := dx0 - #1 - SQUISH_CONSTANT in
          let dy_ext0 := dy0 + #1 - SQUISH_CONSTANT in
          let dz_ext0 := dz0 - #1 - SQUISH_CONSTANT in
          (xsv_ext0, ysv_ext0, zsv_ext0, dx_ext0, dy_ext0, dz_ext0)
        else
          let xsv_ext0 := (xsb + 1)%Z in
          let ysv_ext0 := (ysb + 1)%Z in
          let zsv_ext0 := (zsb - 1)%Z in
          let dx_ext0 := dx0 - #1 - SQUISH_CONSTANT in
          let dy_ext0 := dy0 - #1 - SQUISH_CONSTANT in
          let dz_ext0 := dz0 + #1 - SQUISH_CONSTANT in
          (xsv_ext0, ysv_ext0, zsv_ext0, dx_ext0, dy_ext0, dz_ext0) in
      let '(xsv_ext1, ysv_ext1, zsv_ext1, dx_ext1, dy_ext1, dz_ext1) :=
        if truthy (Z.land c2 1) then
          let xsv_ext1 := (xsb + 2)%Z in
          let ysv_ext1 := ysb in
          let zsv_ext1 := zsb in
          let dx_ext1 := dx0 - #2 - SQUISH_CONSTANT * #2 in
          let dy_ext1 := dy0 - SQUISH_CONSTANT * #2 in
          let dz_ext1 := dz0 - SQUISH_CONSTANT * #2 in
          (xsv_ext1, ysv_ext1, zsv_ext1, dx_ext1, dy_ext1, dz_ext1)
        else if truthy (Z.land c2 2) then
          let xsv_ext1 := xsb in
          let ysv_ext1 := (ysb + 2)%Z in
          let zsv_ext1 := zsb in
          let dx_ext1 := dx0 - SQUISH_CONSTANT * #2 in
          let dy_ext1 := dy0 - #2 - SQUISH_CONSTANT * #2 in
          let dz_ext1 := dz0 - SQUISH_CONSTANT * #2 in
          (xsv_ext1, ysv_ext1, zsv_ext1, dx_ext1, dy_ext1, dz_ext1)
        else
          let xsv_ext1 := xsb in
          let ysv_ext1 := ysb in
          let zsv_ext1 := (zsb + 2)%Z in
          let dx_ext1 := dx0 - SQUISH_CONSTANT * #2 in
          let dy_ext1 := dy0 - SQUISH_CONSTANT * #2 in
          let dz_ext1 := dz0 - #2 - SQUISH_CONSTANT * #2 in
          (xsv_ext1, ysv_ext1, zsv_ext1, dx_ext1, dy_ext1, dz_ext1) in
      (xsv_ext0, ysv_ext0, zsv_ext0, dx_ext0, dy_ext0, dz_ext0, xsv_ext1, ysv_ext1,
       zsv_ext1, dx_ext1, dy_ext1, dz_ext1) in
  (xsv_ext0, ysv_ext0, zsv_ext0, xsv_ext1, ysv_ext1, zsv_ext1, dx_ext0, dy_ext0,
   dz_ext0, dx_ext1, dy_ext1, dz_ext1).

(** Octahedron: the six contributions (lines 632-671 of the OSN header). *)
Definition octa_contrib (n : noise) (xsb ysb zsb : Z) (dx0 dy0 dz0 : T) :
    option T :=
  let dx1 := dx0 - #1 - SQUISH_CONSTANT in
  let dy1 := dy0 - SQUISH_CONSTANT in
  let dz1 := dz0 - SQUISH_CONSTANT in
  let attn1 := dx1 * dx1 + dy1 * dy1 + dz1 * dz1 in
  e ← extrapolate n (xsb + 1) ysb zsb dx1 dy1 dz1;
  let value := fpow (fmax (#2 - attn1) #0) 4 * e in
  let dx2 := dx0 - SQUISH_CONSTANT in
  let dy2 := dy0 - #1 - SQUISH_CONSTANT in
  let dz2 := dz1 in
  let attn2 := dx2 * dx2 + dy2 * dy2 + dz2 * dz2 in
  e ← extrapolate n xsb (ysb + 1) zsb dx2 dy2 dz2;
  let value := value + fpow (fmax (#2 - attn2) #0) 4 * e in
  let dx3 := dx2 in
  let dy3 := dy1 in
  let dz3 := dz0 - #1 - SQUISH_CONSTANT in
  let attn3 := dx3 * dx3 + dy3 * dy3 + dz3 * dz3 in
  e ← extrapolate n xsb ysb (zsb + 1) dx3 dy3 dz3;
  let value := value + fpow (fmax (#2 - attn3) #0) 4 * e in
  let dx4 := dx0 - #1 - SQUISH_CONSTANT * #2 in
  let dy4 := dy0 - #1 - SQUISH_CONSTANT * #2 in
  let dz4 := dz0 - SQUISH_CONSTANT * #2 in
  let attn4 := dx4 * dx4 + dy4 * dy4 + dz4 * dz4 in
  e ← extrapolate n (xsb + 1) (ysb + 1) (zsb + 0) dx4 dy4 dz4;
  let value := value + fpow (fmax (#2 - attn4) #0) 4 * e in
  let dx5 := dx4 in
  let dy5 := dy0 - SQUISH_CONSTANT * #2 in
  let dz5 := dz0 - #1 - SQUISH_CONSTANT * #2 in
  let attn5 := dx5 * dx5 + dy5 * dy5 + dz5 * dz5 in
  e ← extrapolate n (xsb + 1) ysb (zsb + 1) dx5 dy5 dz5;
  let value := value + fpow (fmax (#2 - attn5) #0) 4 * e in
  let dx6 := dx0 - SQUISH_CONSTANT * #2 in
  let dy6 := dy4 in
  let dz6 := dz5 in
  let attn6 := dx6 * dx6 + dy6 * dy6 + dz6 * dz6 in
  e ← extrapolate n xsb (ysb + 1) (zsb + 1) dx6 dy6 dz6;
  let value := value + fpow (fmax (#2 - attn6) #0) 4 * e in
  Some value.

(** Tetrahedron at (0,0,0): the two closest points
    (lines 677-687 of the OSN header). *)
Definition tetra0_closest (xins yins zins : T) :
    Z * T * Z * T :=
  let aPoint := 1%Z in
  let aScore := xins in
  let bPoint := 2%Z in
  let bScore := yins in
  let '(aScore, aPoint, bScore, bPoint) :=
    if (aScore <? bScore) && (zins >? aScore) then
      let aScore := zins in
      let aPoint := 4%Z in
      (aScore, aPoint, bScore, bPoint)
    else if (aScore >=? bScore) && (zins >? bScore) then
      let bScore := zins in
      let bPoint := 4%Z in
      (aScore, aPoint, bScore, bPoint)
    else (aScore, aPoint, bScore, bPoint) in
  (aPoint, aScore, bPoint, bScore).

(** Tetrahedron at (0,0,0): the two extra vertices
    (lines 691-770 of the OSN header). *)
Definition tetra0_ext (xsb ysb zsb : Z) (dx0 dy0 dz0 inSum : T)
    (aPoint : Z) (aScore : T) (bPoint : Z) (bScore : T) :
    Z * Z * Z * Z * Z * Z * T * T * T * T * T * T :=
  let wins := #1 - inSum in
  let '(xsv_ext0, xsv_ext1, dx_ext0, dx_ext1, ysv_ext0, ysv_ext1, dy_ext0, dy_ext1,
        zsv_ext0, zsv_ext1, dz_ext0, dz_ext1) :=
    if (wins >? aScore) || (wins >? bScore) then
      let c := (if (bScore >? aScore) then bPoint else aPoint) in
      let '(xsv_ext0, xsv_ext1, dx_ext0, dx_ext1) :=
        if negb (c =? 1)%Z then
          let xsv_ext0 := (xsb - 1)%Z in
          let xsv_ext1 := xsb in
          let dx_ext0 := dx0 + #1 in
          let dx_ext1 := dx0 in
          (xsv_ext0, xsv_ext1, dx_ext0, dx_ext1)
        else
          let xsv_ext1 := (xsb + 1)%Z in
          let xsv_ext0 := xsv_ext1 in
          let dx_ext1 := dx0 - #1 in
          let dx_ext0 := dx_ext1 in
          (xsv_ext0, xsv_ext1, dx_ext0, dx_ext1) in
      let '(ysv_ext0, ysv_ext1, dy_ext0, dy_ext1) :=
        if negb (c =? 2)%Z then
          let ysv_ext1 := ysb in
          let ysv_ext0 := ysv_ext1 in
          let dy_ext1 := dy0 in
          let dy_ext0 := dy_ext1 in
          let '(ysv_ext0, dy_ext0, ysv_ext1, dy_ext1) :=
            if (c =? 1)%Z then
              let ysv_ext0 := (ysv_ext0 - 1)%Z in
              let dy_ext0 := dy_ext0 + #1 in
              (ysv_ext0, dy_ext0, ysv_ext1, dy_ext1)
            else
              let ysv_ext1 := (ysv_ext1 - 1)%Z in
              let dy_ext1 := dy_ext1 + #1 in
              (ysv_ext0, dy_ext0, ysv_ext1, dy_ext1) in
          (ysv_ext0, ysv_ext1, dy_ext0, dy_ext1)
        else
          let ysv_ext1 := (ysb + 1)%Z in
          let ysv_ext0 := ysv_ext1 in
          let dy_ext1 := dy0 - #1 in
          let dy_ext0 := dy_ext1 in
          (ysv_ext0, ysv_ext1, dy_ext0, dy_ext1) in
      let '(zsv_ext0, zsv_ext1, dz_ext0, dz_ext1) :=
        if negb (c =? 4)%Z then
          let zsv_ext0 := zsb in
          let zsv_ext1 := (zsb - 1)%Z in
          let dz_ext0 := dz0 in
          let dz_ext1 := dz0 + #1 in
          (zsv_ext0, zsv_ext1, dz_ext0, dz_ext1)
        else
          let zsv_ext1 := (zsb + 1)%Z in
          let zsv_ext0 := zsv_ext1 in
          let dz_ext1 := dz0 - #1 in
          let dz_ext0 := dz_ext1 in
          (zsv_ext0, zsv_ext1, dz_ext0, dz_ext1) in
      (xsv_ext0, xsv_ext1, dx_ext0, dx_ext1, ysv_ext0, ysv_ext1, dy_ext0, dy_ext1,
       zsv_ext0, zsv_ext1, dz_ext0, dz_ext1)
    else
      let c := (Z.lor aPoint bPoint) in
      let '(xsv_ext0, xsv_ext1, dx_ext0, dx_ext1) :=
        if truthy (Z.land c 1) then
          let xsv_ext1 := (xsb + 1)%Z in
          let xsv_ext0 := xsv_ext1 in
          let dx_ext0 := dx0 - #1 - SQUISH_CONSTANT * #2 in
          let dx_ext1 := dx0 - #1 - SQUISH_CONSTANT in
          (xsv_ext0, xsv_ext1, dx_ext0, dx_ext1)
        else
          let xsv_ext0 := xsb in
          let xsv_ext1 := (xsb - 1)%Z in
          let dx_ext0 := dx0 - SQUISH_CONSTANT * #2 in
          let dx_ext1 := dx0 + #1 - SQUISH_CONSTANT in
          (xsv_ext0, xsv_ext1, dx_ext0, dx_ext1) in
      let '(ysv_ext0, ysv_ext1, dy_ext0, dy_ext1) :=
        if truthy (Z.land c 2) then
          let ysv_ext1 := (ysb + 1)%Z in
          let ysv_ext0 := ysv_ext1 in
          let dy_ext0 := dy0 - #1 - SQUISH_CONSTANT * #2 in
          let dy_ext1 := dy0 - #1 - SQUISH_CONSTANT in
          (ysv_ext0, ysv_ext1, dy_ext0, dy_ext1)
        else
          let ysv_ext0 := ysb in
          let ysv_ext1 := (ysb - 1)%Z in
          let dy_ext0 := dy0 - SQUISH_CONSTANT * #2 in
          let dy_ext1 := dy0 + #1 - SQUISH_CONSTANT in
          (ysv_ext0, ysv_ext1, dy_ext0, dy_ext1) in
      let '(zsv_ext0, zsv_ext1, dz_ext0, dz_ext1) :=
        if truthy (Z.land c 4) then
          let zsv_ext1 := (zsb + 1)%Z in
          let zsv_ext0 := zsv_ext1 in
          let dz_ext0 := dz0 - #1 - SQUISH_CONSTANT * #2 in
          let dz_ext1 := dz0 - #1 - SQUISH_CONSTANT in
          (zsv_ext0, zsv_ext1, dz_ext0, dz_ext1)
        else
          let zsv_ext0 := zsb in
          let zsv_ext1 := (zsb - 1)%Z in
          let dz_ext0 := dz0 - SQUISH_CONSTANT * #2 in
          let dz_ext1 := dz0 + #1 - SQUISH_CONSTANT in
          (zsv_ext0, zsv_ext1, dz_ext0, dz_ext1) in
      (xsv_ext0, xsv_ext1, dx_ext0, dx_ext1, ysv_ext0, ysv_ext1, dy_ext0, dy_ext1,
       zsv_ext0, zsv_ext1, dz_ext0, dz_ext1) in
  (xsv_ext0, ysv_ext0, zsv_ext0, xsv_ext1, ysv_ext1, zsv_ext1, dx_ext0, dy_ext0,
   dz_ext0, dx_ext1, dy_ext1, dz_ext1).

(** Tetrahedron at (0,0,0): the four contributions
    (lines 773-795 of the OSN header). *)
Definition tetra0_contrib (n : noise) (xsb ysb zsb : Z) (dx0 dy0 dz0 : T) :
    option T :=
  let attn0 := dx0 * dx0 + dy0 * dy0 + dz0 * dz0 in
  e ← extrapolate n xsb ysb zsb dx0 dy0 dz0;
  let value := fpow (fmax (#2 - attn0) #0) 4 * e in
  let dx1 := dx0 - #1 - SQUISH_CONSTANT in
  let dy1 := dy0 - SQUISH_CONSTANT in
  let dz1 := dz0 - SQUISH_CONSTANT in
  let attn1 := dx1 * dx1 + dy1 * dy1 + dz1 * dz1 in
  e ← extrapolate n (xsb + 1) ysb zsb dx1 dy1 dz1;
  let value := value + fpow (fmax (#2 - attn1) #0) 4 * e in
  let dx2 := dx0 - SQUISH_CONSTANT in
  let dy2 := dy0 - #1 - SQUISH_CONSTANT in
  let dz2 := dz1 in
  let attn2 := dx2 * dx2 + dy2 * dy2 + dz2 * dz2 in
  e ← extrapolate n xsb (ysb + 1) zsb dx2 dy2 dz2;
  let value := value + fpow (fmax (#2 - attn2) #0) 4 * e in
  let dx3 := dx2 in
  let dy3 := dy1 in
  let dz3 := dz0 - #1 - SQUISH_CONSTANT in
  let attn3 := dx3 * dx3 + dy3 * dy3 + dz3 * dz3 in
  e ← extrapolate n xsb ysb (zsb + 1) dx3 dy3 dz3;
  let value := value + fpow (fmax (#2 - attn3) #0) 4 * e in
  Some value.

(** Tetrahedron at (1,1,1): the two closest points
    (lines 802-812 of the OSN header). *)
Definition tetra1_closest (xins yins zins : T) :
    Z * T * Z * T :=
  let aPoint := 6%Z in
  let aScore := xins in
  let bPoint := 5%Z in
  let bScore := yins in
  let '(bScore, bPoint, aScore, aPoint) :=
    if (aScore <=? bScore) && (zins <? bScore) then
      let bScore := zins in
      let bPoint := 3%Z in
      (bScore, bPoint, aScore, aPoint)
    else if (aScore >? bScore) && (zins <? aScore) then
      let aScore := zins in
      let aPoint := 3%Z in
      (bScore, bPoint, aScore, aPoint)
    else (bScore, bPoint, aScore, aPoint) in
  (aPoint, aScore, bPoint, bScore).

(** Tetrahedron at (1,1,1): the two extra vertices
    (lines 816-895 of the OSN header). *)
Definition tetra1_ext (xsb ysb zsb : Z) (dx0 dy0 dz0 inSum : T)
    (aPoint : Z) (aScore : T) (bPoint : Z) (bScore : T) :
    Z * Z * Z * Z * Z * Z * T * T * T * T * T * T :=
  let wins := #3 - inSum in
  let '(xsv_ext0, xsv_ext1, dx_ext0, dx_ext1, ysv_ext0, ysv_ext1, dy_ext0, dy_ext1,
        zsv_ext0, zsv_ext1, dz_ext0, dz_ext1) :=
    if (wins <? aScore) || (wins <? bScore) then
      let c := (if (bScore <? aScore) then bPoint else aPoint) in
      let '(xsv_ext0, xsv_ext1, dx_ext0, dx_ext1) :=
        if truthy (Z.land c 1) then
          let xsv_ext0 := (xsb + 2)%Z in
          let xsv_ext1 := (xsb + 1)%Z in
          let dx_ext0 := dx0 - #2 - SQUISH_CONSTANT * #3 in
          let dx_ext1 := dx0 - #1 - SQUISH_CONSTANT * #3 in
          (xsv_ext0, xsv_ext1, dx_ext0, dx_ext1)
        else
          let xsv_ext1 := xsb in
          let xsv_ext0 := xsv_ext1 in
          let dx_ext1 := dx0 - SQUISH_CONSTANT * #3 in
          let dx_ext0 := dx_ext1 in
          (xsv_ext0, xsv_ext1, dx_ext0, dx_ext1) in
      let '(ysv_ext0, ysv_ext1, dy_ext0, dy_ext1) :=
        if truthy (Z.land c 2) then
          let ysv_ext1 := (ysb + 1)%Z in
          let ysv_ext0 := ysv_ext1 in
          let dy_ext1 := dy0 - #1 - SQUISH_CONSTANT * #3 in
          let dy_ext0 := dy_ext1 in
          let '(ysv_ext1, dy_ext1, ysv_ext0, dy_ext0) :=
            if truthy (Z.land c 1) then
              let ysv_ext1 := (ysv_ext1 + 1)%Z in
              let dy_ext1 := dy_ext1 - #1 in
              (ysv_ext1, dy_ext1, ysv_ext0, dy_ext0)
            else
              let ysv_ext0 := (ysv_ext0 + 1)%Z in
              let dy_ext0 := dy_ext0 - #1 in
              (ysv_ext1, dy_ext1, ysv_ext0, dy_ext0) in
          (ysv_ext0, ysv_ext1, dy_ext0, dy_ext1)
        else
          let ysv_ext1 := ysb in
          let ysv_ext0 := ysv_ext1 in
          let dy_ext1 := dy0 - SQUISH_CONSTANT * #3 in
          let dy_ext0 := dy_ext1 in
          (ysv_ext0, ysv_ext1, dy_ext0, dy_ext1) in
      let '(zsv_ext0, zsv_ext1, dz_ext0, dz_ext1) :=
        if truthy (Z.land c 4) then
          let zsv_ext0 := (zsb + 1)%Z in
          let zsv_ext1 := (zsb + 2)%Z in
          let dz_ext0 := dz0 - #1 - SQUISH_CONSTANT * #3 in
          let dz_ext1 := dz0 - #2 - SQUISH_CONSTANT * #3 in
          (zsv_ext0, zsv_ext1, dz_ext0, dz_ext1)
        else
          let zsv_ext1 := zsb in
          let zsv_ext0 := zsv_ext1 in
          let dz_ext1 := dz0 - SQUISH_CONSTANT * #3 in
          let dz_ext0 := dz_ext1 in
          (zsv_ext0, zsv_ext1, dz_ext0, dz_ext1) in
      (xsv_ext0, xsv_ext1, dx_ext0, dx_ext1, ysv_ext0, ysv_ext1, dy_ext0, dy_ext1,
       zsv_ext0, zsv_ext1, dz_ext0, dz_ext1)
    else
      let c := (Z.land aPoint bPoint) in
      let '(xsv_ext0, xsv_ext1, dx_ext0, dx_ext1) :=
        if truthy (Z.land c 1) then
          let xsv_ext0 := (xsb + 1)%Z in
          let xsv_ext1 := (xsb + 2)%Z in
          let dx_ext0 := dx0 - #1 - SQUISH_CONSTANT in
          let dx_ext1 := dx0 - #2 - SQUISH_CONSTANT * #2 in
          (xsv_ext0, xsv_ext1, dx_ext0, dx_ext1)
        else
          let xsv_ext1 := xsb in
          let xsv_ext0 := xsv_ext1 in
          let dx_ext0 := dx0 - SQUISH_CONSTANT in
          let dx_ext1 := dx0 - SQUISH_CONSTANT * #2 in
          (xsv_ext0, xsv_ext1, dx_ext0, dx_ext1) in
      let '(ysv_ext0, ysv_ext1, dy_ext0, dy_ext1) :=
        if truthy (Z.land c 2) then
          let ysv_ext0 := (ysb + 1)%Z in
          let ysv_ext1 := (ysb + 2)%Z in
          let dy_ext0 := dy0 - #1 - SQUISH_CONSTANT in
          let dy_ext1 := dy0 - #2 - SQUISH_CONSTANT * #2 in
          (ysv_ext0, ysv_ext1, dy_ext0, dy_ext1)
        else
          let ysv_ext1 := ysb in
          let ysv_ext0 := ysv_ext1 in
          let dy_ext0 := dy0 - SQUISH_CONSTANT in
          let dy_ext1 := dy0 - SQUISH_CONSTANT * #2 in
          (ysv_ext0, ysv_ext1, dy_ext0, dy_ext1) in
      let '(zsv_ext0, zsv_ext1, dz_ext0, dz_ext1) :=
        if truthy (Z.land c 4) then
          let zsv_ext0 := (zsb + 1)%Z in
          let zsv_ext1 := (zsb + 2)%Z in
          let dz_ext0 := dz0 - #1 - SQUISH_CONSTANT in
          let dz_ext1 := dz0 - #2 - SQUISH_CONSTANT * #2 in
          (zsv_ext0, zsv_ext1, dz_ext0, dz_ext1)
        else
          let zsv_ext1 := zsb in
          let zsv_ext0 := zsv_ext1 in
          let dz_ext0 := dz0 - SQUISH_CONSTANT in
          let dz_ext1 := dz0 - SQUISH_CONSTANT * #2 in
          (zsv_ext0, zsv_ext1, dz_ext0, dz_ext1) in
      (xsv_ext0, xsv_ext1, dx_ext0, dx_ext1, ysv_ext0, ysv_ext1, dy_ext0, dy_ext1,
       zsv_ext0, zsv_ext1, dz_ext0, dz_ext1) in
  (xsv_ext0, ysv_ext0, zsv_ext0, xsv_ext1, ysv_ext1, zsv_ext1, dx_ext0, dy_ext0,
   dz_ext0, dx_ext1, dy_ext1, dz_ext1).

(** Tetrahedron at (1,1,1): the four contributions
    (lines 898-923 of the OSN header). *)
Definition tetra1_contrib (n : noise) (xsb ysb zsb : Z) (dx0 dy0 dz0 : T) :
    option T :=
  let dx3 := dx0 - #1 - SQUISH_CONSTANT * #2 in
  let dy3 := dy0 - #1 - SQUISH_CONSTANT * #2 in
  let dz3 := dz0 - SQUISH_CONSTANT * #2 in
  let attn3 := dx3 * dx3 + dy3 * dy3 + dz3 * dz3 in
  e ← extrapolate n (xsb + 1) (ysb + 1) zsb dx3 dy3 dz3;
  let value := fpow (fmax (#2 - attn3) #0) 4 * e in
  let dx2 := dx3 in
  let dy2 := dy0 - SQUISH_CONSTANT * #2 in
  let dz2 := dz0 - #1 - SQUISH_CONSTANT * #2 in
  let attn2 := dx2 * dx2 + dy2 * dy2 + dz2 * dz2 in
  e ← extrapolate n (xsb + 1) ysb (zsb + 1) dx2 dy2 dz2;
  let value := value + fpow (fmax (#2 - attn2) #0) 4 * e in
  let dx1 := dx0 - SQUISH_CONSTANT * #2 in
  let dy1 := dy3 in
  let dz1 := dz2 in
  let attn1 := dx1 * dx1 + dy1 * dy1 + dz1 * dz1 in
  e ← extrapolate n xsb (ysb + 1) (zsb + 1) dx1 dy1 dz1;
  let value := value + fpow (fmax (#2 - attn1) #0) 4 * e in
  let dx0 := dx0 - #1 - SQUISH_CONSTANT * #3 in
  let dy0 := dy0 - #1 - SQUISH_CONSTANT * #3 in
  let dz0 := dz0 - #1 - SQUISH_CONSTANT * #3 in
  let attn0 := dx0 * dx0 + dy0 * dy0 + dz0 * dz0 in
  e ← extrapolate n (xsb + 1) (ysb + 1) (zsb + 1) dx0 dy0 dz0;
  let value := value + fpow (fmax (#2 - attn0) #0) 4 * e in
  Some value.

(** The contributions of the two extra vertices
    (lines 927-936 of the OSN header). *)
Definition extra (n : noise) (value : T)
    (xsv_ext0 ysv_ext0 zsv_ext0 xsv_ext1 ysv_ext1 zsv_ext1 : Z)
    (dx_ext0 dy_ext0 dz_ext0 dx_ext1 dy_ext1 dz_ext1 : T) :
    option T :=
  let attn_ext0 := dx_ext0 * dx_ext0 + dy_ext0 * dy_ext0 + dz_ext0 * dz_ext0 in
  e ← extrapolate n xsv_ext0 ysv_ext0 zsv_ext0 dx_ext0 dy_ext0 dz_ext0;
  let value := value + fpow (fmax (#2 - attn_ext0) #0) 4 * e in
  let attn_ext1 := dx_ext1 * dx_ext1 + dy_ext1 * dy_ext1 + dz_ext1 * dz_ext1 in
  e ← extrapolate n xsv_ext1 ysv_ext1 zsv_ext1 dx_ext1 dy_ext1 dz_ext1;
  let value := value + fpow (fmax (#2 - attn_ext1) #0) 4 * e in
  Some value.

(** [T eval (T x, T y, T z) const]. *)
Definition eval (n : noise) (x y z : T) : option T :=
  let '(xsb, ysb, zsb, dx0, dy0, dz0, xins, yins, zins) := place x y z in
  let value := #0 in
  let inSum := xins + yins + zins in
  '(value, ext) ←
    (if (inSum >? #1) && (inSum <? #2) then
       let '(aPoint, aIsFurtherSide, bPoint, bIsFurtherSide) :=
         octa_closest xins yins zins in
       let ext :=
         octa_ext xsb ysb zsb dx0 dy0 dz0
                  aPoint aIsFurtherSide bPoint bIsFurtherSide in
       value ← octa_contrib n xsb ysb zsb dx0 dy0 dz0;
       Some (value, ext)
     else if inSum <=? #1 then
       let '(aPoint, aScore, bPoint, bScore) := tetra0_closest xins yins zins in
       let ext :=
         tetra0_ext xsb ysb zsb dx0 dy0 dz0 inSum aPoint aScore bPoint bScore in
       value ← tetra0_contrib n xsb ysb zsb dx0 dy0 dz0;
       Some (value, ext)
     else
       let '(aPoint, aScore, bPoint, bScore) := tetra1_closest xins yins zins in
       let ext :=
         tetra1_ext xsb ysb zsb dx0 dy0 dz0 inSum aPoint aScore bPoint bScore in
       value ← tetra1_contrib n xsb ysb zsb dx0 dy0 dz0;
       Some (value, ext));
  let '(xsv_ext0, ysv_ext0, zsv_ext0, xsv_ext1, ysv_ext1, zsv_ext1,
        dx_ext0, dy_ext0, dz_ext0, dx_ext1, dy_ext1, dz_ext1) := ext in
  value ← extra n value xsv_ext0 ysv_ext0 zsv_ext0 xsv_ext1 ysv_ext1 zsv_ext1
                 dx_ext0 dy_ext0 dz_ext0 dx_ext1 dy_ext1 dz_ext1;
  Some (value / NORM_CONSTANT).

End Eval.

End Noise3.

(** ** Noise<4, T> *)

Module Noise4.

(** [Noise (long long seed)] and [Noise (const int * p)] only call the
    constructors of [NoiseBase]. *)
Definition of_seed := NoiseBase.of_seed.
Definition of_table := NoiseBase.of_table.

(** Gradient set 2014-10-06. *)
Definition gradients : list Z :=
  [
     3;  1;  1;  1;  1;  3;  1;  1;  1;  1;  3;  1;  1;  1;  1;  3;
    -3;  1;  1;  1; -1;  3;  1;  1; -1;  1;  3;  1; -1;  1;  1;  3;
     3; -1;  1;  1;  1; -3;  1;  1;  1; -1;  3;  1;  1; -1;  1;  3;
    -3; -1;  1;  1; -1; -3;  1;  1; -1; -1;  3;  1; -1; -1;  1;  3;
     3;  1; -1;  1;  1;  3; -1;  1;  1;  1; -3;  1;  1;  1; -1;  3;
    -3;  1; -1;  1; -1;  3; -1;  1; -1;  1; -3;  1; -1;  1; -1;  3;
     3; -1; -1;  1;  1; -3; -1;  1;  1; -1; -3;  1;  1; -1; -1;  3;
    -3; -1; -1;  1; -1; -3; -1;  1; -1; -1; -3;  1; -1; -1; -1;  3;
     3;  1;  1; -1;  1;  3;  1; -1;  1;  1;  3; -1;  1;  1;  1; -3;
    -3;  1;  1; -1; -1;  3;  1; -1; -1;  1;  3; -1; -1;  1;  1; -3;
     3; -1;  1; -1;  1; -3;  1; -1;  1; -1;  3; -1;  1; -1;  1; -3;
    -3; -1;  1; -1; -1; -3;  1; -1; -1; -1;  3; -1; -1; -1;  1; -3;
     3;  1; -1; -1;  1;  3; -1; -1;  1;  1; -3; -1;  1;  1; -1; -3;
    -3;  1; -1; -1; -1;  3; -1; -1; -1;  1; -3; -1; -1;  1; -1; -3;
     3; -1; -1; -1;  1; -3; -1; -1;  1; -1; -3; -1;  1; -1; -1; -3;
    -3; -1; -1; -1; -1; -3; -1; -1; -1; -1; -3; -1; -1; -1; -1; -3 ].

Section Eval.
Context {T : Type} {F : FloatOps T}.

(** [extrapolate (long xsb, long ysb, long zsb, long wsb, T dx, T dy, T dz,
    T dw)]. *)
Definition extrapolate (perm : list Z) (xsb ysb zsb wsb : Z) (dx dy dz dw : T) :
    option T :=
  h ← load perm (Z.land xsb 0xFF);
  h ← load perm (Z.land (h + ysb) 0xFF);
  h ← load perm (Z.land (h + zsb) 0xFF);
  h ← load perm (Z.land (h + wsb) 0xFF);
  let index := u32 (Z.land h 0xFC) in
  g0 ← load gradients index;
  g1 ← load gradients (u32 (index + 1));
  g2 ← load gradients (u32 (index + 2));
  g3 ← load gradients (u32 (index + 3));
  Some (#g0 * dx + #g1 * dy + #g2 * dz + #g3 * dw).

Definition STRETCH_CONSTANT : T := (#1 / fsqrt (#4 + #1) - #1) * (#1 / #4).
Definition SQUISH_CONSTANT : T := (fsqrt (#4 + #1) - #1) * (#1 / #4).
Definition NORM_CONSTANT : T := #30.

(** Stretch, floor and squish: the cell of the query point
    (lines 1007-1040 of the OSN header). *)
Definition place (x y z w : T) :
    Z * Z * Z * Z * T * T * T * T * T * T * T * T :=
  let stretchOffset := (x + y + z + w) * STRETCH_CONSTANT in
  let xs := x + stretchOffset in
  let ys := y + stretchOffset in
  let zs := z + stretchOffset in
  let ws := w + stretchOffset in
  let xsbd := ffloor xs in
  let ysbd := ffloor ys in
  let zsbd := ffloor zs in
  let wsbd := ffloor ws in
  let xsb := (to_long xsbd) in
  let ysb := (to_long ysbd) in
  let zsb := (to_long zsbd) in
  let wsb := (to_long wsbd) in
  let squishOffset := (xsbd + ysbd + zsbd + wsbd) * SQUISH_CONSTANT in
  let xb := xsbd + squishOffset in
  let yb := ysbd + squishOffset in
  let zb := zsbd + squishOffset in
  let wb := wsbd + squishOffset in
  let dx0 := x - xb in
  let dy0 := y - yb in
  let dz0 := z - zb in
  let dw0 := w - wb in
  let xins := xs - xsbd in
  let yins := ys - ysbd in
  let zins := zs - zsbd in
  let wins := ws - wsbd in
  (xsb, ysb, zsb, wsb, dx0, dy0, dz0, dw0, xins, yins, zins, wins).

(** Pentachoron at (0,0,0,0): the two closest points
    (lines 1060-1075 of the OSN header). *)
Definition penta0_closest (xins yins zins wins : T) :
    Z * T * Z * T :=
  let aPoint := 1%Z in
  let bPoint := 2%Z in
  let aScore := xins in
  let bScore := yins in
  let '(bPoint, bScore, aPoint, aScore) :=
    if (aScore >=? bScore) && (zins >? bScore) then
      let bPoint := 4%Z in
      let bScore := zins in
      (bPoint, bScore, aPoint, aScore)
    else if (aScore <? bScore) && (zins >? aScore) then
      let aPoint := 4%Z in
      let aScore := zins in
      (bPoint, bScore, aPoint, aScore)
    else (bPoint, bScore, aPoint, aScore) in
  let '(bPoint, bScore, aPoint, aScore) :=
    if (aScore >=? bScore) && (wins >? bScore) then
      let bPoint := 8%Z in
      let bScore := wins in
      (bPoint, bScore, aPoint, aScore)
    else if (aScore <? bScore) && (wins >? aScore) then
      let aPoint := 8%Z in
      let aScore := wins in
      (bPoint, bScore, aPoint, aScore)
    else (bPoint, bScore, aPoint, aScore) in
  (aPoint, aScore, bPoint, bScore).

(** Pentachoron at (0,0,0,0): the three extra vertices
    (lines 1080-1199 of the OSN header). *)
Definition penta0_ext (xsb ysb zsb wsb : Z) (dx0 dy0 dz0 dw0 inSum : T)
    (aPoint : Z) (aScore : T) (bPoint : Z) (bScore : T) :
    Z * Z * Z * Z * Z * Z * Z * Z * Z * Z * Z * Z * T * T * T * T * T * T * T * T *
    T * T * T * T :=
  let uins := #1 - inSum in
  let '(xsv_ext0, xsv_ext1, xsv_ext2, dx_ext0, dx_ext1, dx_ext2, ysv_ext0, ysv_ext1,
        ysv_ext2, dy_ext0, dy_ext1, dy_ext2, zsv_ext0, zsv_ext1, zsv_ext2, dz_ext0,
        dz_ext1, dz_ext2, wsv_ext0, wsv_ext1, wsv_ext2, dw_ext0, dw_ext1, dw_ext2) :=
    if (uins >? aScore) || (uins >? bScore) then
      let c := (if (bScore >? aScore) then bPoint else aPoint) in
      let '(xsv_ext0, xsv_ext1, xsv_ext2, dx_ext0, dx_ext1, dx_ext2) :=
        if negb (c =? 1)%Z then
          let xsv_ext0 := (xsb - 1)%Z in
          let xsv_ext2 := xsb in
          let xsv_ext1 := xsv_ext2 in
          let dx_ext0 := dx0 + #1 in
          let dx_ext2 := dx0 in
          let dx_ext1 := dx_ext2 in
          (xsv_ext0, xsv_ext1, xsv_ext2, dx_ext0, dx_ext1, dx_ext2)
        else
          let xsv_ext2 := (xsb + 1)%Z in
          let xsv_ext1 := xsv_ext2 in
          let xsv_ext0 := xsv_ext1 in
          let dx_ext2 := dx0 - #1 in
          let dx_ext1 := dx_ext2 in
          let dx_ext0 := dx_ext1 in
          (xsv_ext0, xsv_ext1, xsv_ext2, dx_ext0, dx_ext1, dx_ext2) in
      let '(ysv_ext0, ysv_ext1, ysv_ext2, dy_ext0, dy_ext1, dy_ext2) :=
        if negb (c =? 2)%Z then
          let ysv_ext2 := ysb in
          let ysv_ext1 := ysv_ext2 in
          let ysv_ext0 := ysv_ext1 in
          let dy_ext2 := dy0 in
          let dy_ext1 := dy_ext2 in
          let dy_ext0 := dy_ext1 in
          let '(ysv_ext1, dy_ext1, ysv_ext0, dy_ext0) :=
            if negb (c =? 1)%Z then
              let ysv_ext1 := (ysv_ext1 - 1)%Z in
              let dy_ext1 := dy_ext1 + #1 in
              (ysv_ext1, dy_ext1, ysv_ext0, dy_ext0)
            else
              let ysv_ext0 := (ysv_ext0 - 1)%Z in
              let dy_ext0 := dy_ext0 + #1 in
              (ysv_ext1, dy_ext1, ysv_ext0, dy_ext0) in
          (ysv_ext0, ysv_ext1, ysv_ext2, dy_ext0, dy_ext1, dy_ext2)
        else
          let ysv_ext2 := (ysb + 1)%Z in
          let ysv_ext1 := ysv_ext2 in
          let ysv_ext0 := ysv_ext1 in
          let dy_ext2 := dy0 - #1 in
          let dy_ext1 := dy_ext2 in
          let dy_ext0 := dy_ext1 in
          (ysv_ext0, ysv_ext1, ysv_ext2, dy_ext0, dy_ext1, dy_ext2) in
      let '(zsv_ext0, zsv_ext1, zsv_ext2, dz_ext0, dz_ext1, dz_ext2) :=
        if negb (c =? 4)%Z then
          let zsv_ext2 := zsb in
          let zsv_ext1 := zsv_ext2 in
          let zsv_ext0 := zsv_ext1 in
          let dz_ext2 := dz0 in
          let dz_ext1 := dz_ext2 in
          let dz_ext0 := dz_ext1 in
          let '(zsv_ext1, dz_ext1, zsv_ext2, dz_ext2) :=
            if truthy (Z.land c 3) then
              let zsv_ext1 := (zsv_ext1 - 1)%Z in
              let dz_ext1 := dz_ext1 + #1 in
              (zsv_ext1, dz_ext1, zsv_ext2, dz_ext2)
            else
              let zsv_ext2 := (zsv_ext2 - 1)%Z in
              let dz_ext2 := dz_ext2 + #1 in
              (zsv_ext1, dz_ext1, zsv_ext2, dz_ext2) in
          (zsv_ext0, zsv_ext1, zsv_ext2, dz_ext0, dz_ext1, dz_ext2)
        else
          let zsv_ext2 := (zsb + 1)%Z in
          let zsv_ext1 := zsv_ext2 in
          let zsv_ext0 := zsv_ext1 in
          let dz_ext2 := dz0 - #1 in
          let dz_ext1 := dz_ext2 in
          let dz_ext0 := dz_ext1 in
          (zsv_ext0, zsv_ext1, zsv_ext2, dz_ext0, dz_ext1, dz_ext2) in
      let '(wsv_ext0, wsv_ext1, wsv_ext2, dw_ext0, dw_ext1, dw_ext2) :=
        if negb (c =? 8)%Z then
          let wsv_ext1 := wsb in
          let wsv_ext0 := wsv_ext1 in
          let wsv_ext2 := (wsb - 1)%Z in
          let dw_ext1 := dw0 in
          let dw_ext0 := dw_ext1 in
          let dw_ext2 := dw0 + #1 in
          (wsv_ext0, wsv_ext1, wsv_ext2, dw_ext0, dw_ext1, dw_ext2)
        else
          let wsv_ext2 := (wsb + 1)%Z in
          let wsv_ext1 := wsv_ext2 in
          let wsv_ext0 := wsv_ext1 in
          let dw_ext2 := dw0 - #1 in
          let dw_ext1 := dw_ext2 in
          let dw_ext0 := dw_ext1 in
          (wsv_ext0, wsv_ext1, wsv_ext2, dw_ext0, dw_ext1, dw_ext2) in
      (xsv_ext0, xsv_ext1, xsv_ext2, dx_ext0, dx_ext1, dx_ext2, ysv_ext0, ysv_ext1,
       ysv_ext2, dy_ext0, dy_ext1, dy_ext2, zsv_ext0, zsv_ext1, zsv_ext2, dz_ext0,
       dz_ext1, dz_ext2, wsv_ext0, wsv_ext1, wsv_ext2, dw_ext0, dw_ext1, dw_ext2)
    else
      let c := (Z.lor aPoint bPoint) in
      let '(xsv_ext0, xsv_ext2, xsv_ext1, dx_ext0, dx_ext1, dx_ext2) :=
        if negb (truthy (Z.land c 1)) then
          let xsv_ext2 := xsb in
          let xsv_ext0 := xsv_ext2 in
          let xsv_ext1 := (xsb - 1)%Z in
          let dx_ext0 := dx0 - SQUISH_CONSTANT * #2 in
          let dx_ext1 := dx0 + #1 - SQUISH_CONSTANT in
          let dx_ext2 := dx0 - SQUISH_CONSTANT in
          (xsv_ext0, xsv_ext2, xsv_ext1, dx_ext0, dx_ext1, dx_ext2)
        else
          let xsv_ext2 := (xsb + 1)%Z in
          let xsv_ext1 := xsv_ext2 in
          let xsv_ext0 := xsv_ext1 in
          let dx_ext0 := dx0 - #1 - SQUISH_CONSTANT * #2 in
          let dx_ext2 := dx0 - #1 - SQUISH_CONSTANT in
          let dx_ext1 := dx_ext2 in
          (xsv_ext0, xsv_ext2, xsv_ext1, dx_ext0, dx_ext1, dx_ext2) in
      let '(ysv_ext0, ysv_ext1, ysv_ext2, dy_ext0, dy_ext1, dy_ext2) :=
        if negb (truthy (Z.land c 2)) then
          let ysv_ext2 := ysb in
          let ysv_ext1 := ysv_ext2 in
          let ysv_ext0 := ysv_ext1 in
          let dy_ext0 := dy0 - SQUISH_CONSTANT * #2 in
          let dy_ext2 := dy0 - SQUISH_CONSTANT in
          let dy_ext1 := dy_ext2 in
          let '(ysv_ext1, dy_ext1, ysv_ext2, dy_ext2) :=
            if truthy (Z.land c 1) then
              let ysv_ext1 := (ysv_ext1 - 1)%Z in
              let dy_ext1 := dy_ext1 + #1 in
              (ysv_ext1, dy_ext1, ysv_ext2, dy_ext2)
            else
              let ysv_ext2 := (ysv_ext2 - 1)%Z in
              let dy_ext2 := dy_ext2 + #1 in
              (ysv_ext1, dy_ext1, ysv_ext2, dy_ext2) in
          (ysv_ext0, ysv_ext1, ysv_ext2, dy_ext0, dy_ext1, dy_ext2)
        else
          let ysv_ext2 := (ysb + 1)%Z in
          let ysv_ext1 := ysv_ext2 in
          let ysv_ext0 := ysv_ext1 in
          let dy_ext0 := dy0 - #1 - SQUISH_CONSTANT * #2 in
          let dy_ext2 := dy0 - #1 - SQUISH_CONSTANT in
          let dy_ext1 := dy_ext2 in
          (ysv_ext0, ysv_ext1, ysv_ext2, dy_ext0, dy_ext1, dy_ext2) in
      let '(zsv_ext0, zsv_ext1, zsv_ext2, dz_ext0, dz_ext1, dz_ext2) :=
        if negb (truthy (Z.land c 4)) then
          let zsv_ext2 := zsb in
          let zsv_ext1 := zsv_ext2 in
          let zsv_ext0 := zsv_ext1 in
          let dz_ext0 := dz0 - SQUISH_CONSTANT * #2 in
          let dz_ext2 := dz0 - SQUISH_CONSTANT in
          let dz_ext1 := dz_ext2 in
          let '(zsv_ext1, dz_ext1, zsv_ext2, dz_ext2) :=
            if truthy (Z.land c 3) then
              let zsv_ext1 := (zsv_ext1 - 1)%Z in
              let dz_ext1 := dz_ext1 + #1 in
              (zsv_ext1, dz_ext1, zsv_ext2, dz_ext2)
            else
              let zsv_ext2 := (zsv_ext2 - 1)%Z in
              let dz_ext2 := dz_ext2 + #1 in
              (zsv_ext1, dz_ext1, zsv_ext2, dz_ext2) in
          (zsv_ext0, zsv_ext1, zsv_ext2, dz_ext0, dz_ext1, dz_ext2)
        else
          let zsv_ext2 := (zsb + 1)%Z in
          let zsv_ext1 := zsv_ext2 in
          let zsv_ext0 := zsv_ext1 in
          let dz_ext0 := dz0 - #1 - SQUISH_CONSTANT * #2 in
          let dz_ext2 := dz0 - #1 - SQUISH_CONSTANT in
          let dz_ext1 := dz_ext2 in
          (zsv_ext0, zsv_ext1, zsv_ext2, dz_ext0, dz_ext1, dz_ext2) in
      let '(wsv_ext0, wsv_ext1, wsv_ext2, dw_ext0, dw_ext1, dw_ext2) :=
        if negb (truthy (Z.land c 8)) then
          let wsv_ext1 := wsb in
          let wsv_ext0 := wsv_ext1 in
          let wsv_ext2 := (wsb - 1)%Z in
          let dw_ext0 := dw0 - SQUISH_CONSTANT * #2 in
          let dw_ext1 := dw0 - SQUISH_CONSTANT in
          let dw_ext2 := dw0 + #1 - SQUISH_CONSTANT in
          (wsv_ext0, wsv_ext1, wsv_ext2, dw_ext0, dw_ext1, dw_ext2)
        else
          let wsv_ext2 := (wsb + 1)%Z in
          let wsv_ext1 := wsv_ext2 in
          let wsv_ext0 := wsv_ext1 in
          let dw_ext0 := dw0 - #1 - SQUISH_CONSTANT * #2 in
          let dw_ext2 := dw0 - #1 - SQUISH_CONSTANT in
          let dw_ext1 := dw_ext2 in
          (wsv_ext0, wsv_ext1, wsv_ext2, dw_ext0, dw_ext1, dw_ext2) in
      (xsv_ext0, xsv_ext1, xsv_ext2, dx_ext0, dx_ext1, dx_ext2, ysv_ext0, ysv_ext1,
       ysv_ext2, dy_ext0, dy_ext1, dy_ext2, zsv_ext0, zsv_ext1, zsv_ext2, dz_ext0,
       dz_ext1, dz_ext2, wsv_ext0, wsv_ext1, wsv_ext2, dw_ext0, dw_ext1, dw_ext2) in
  (xsv_ext0, ysv_ext0, zsv_ext0, wsv_ext0, xsv_ext1, ysv_ext1, zsv_ext1, wsv_ext1,
   xsv_ext2, ysv_ext2, zsv_ext2, wsv_ext2, dx_ext0, dy_ext0, dz_ext0, dw_ext0,
   dx_ext1, dy_ext1, dz_ext1, dw_ext1, dx_ext2, dy_ext2, dz_ext2, dw_ext2).

(** Pentachoron at (0,0,0,0): the five contributions
    (lines 1202-1235 of the OSN header). *)
Definition penta0_contrib (perm : list Z) (xsb ysb zsb wsb : Z)
    (dx0 dy0 dz0 dw0 : T) :
    option T :=
  let attn0 := dx0 * dx0 + dy0 * dy0 + dz0 * dz0 + dw0 * dw0 in
  e ← extrapolate perm xsb ysb zsb wsb dx0 dy0 dz0 dw0;
  let value := fpow (fmax (#2 - attn0) #0) 4 * e in
  let dx1 := dx0 - #1 - SQUISH_CONSTANT in
  let dy1 := dy0 - SQUISH_CONSTANT in
  let dz1 := dz0 - SQUISH_CONSTANT in
  let dw1 := dw0 - SQUISH_CONSTANT in
  let attn1 := dx1 * dx1 + dy1 * dy1 + dz1 * dz1 + dw1 * dw1 in
  e ← extrapolate perm (xsb + 1) ysb zsb wsb dx1 dy1 dz1 dw1;
  let value := value + fpow (fmax (#2 - attn1) #0) 4 * e in
  let dx2 := dx0 - SQUISH_CONSTANT in
  let dy2 := dy0 - #1 - SQUISH_CONSTANT in
  let dz2 := dz1 in
  let dw2 := dw1 in
  let attn2 := dx2 * dx2 + dy2 * dy2 + dz2 * dz2 + dw2 * dw2 in
  e ← extrapolate perm xsb (ysb + 1) zsb wsb dx2 dy2 dz2 dw2;
  let value := value + fpow (fmax (#2 - attn2) #0) 4 * e in
  let dx3 := dx2 in
  let dy3 := dy1 in
  let dz3 := dz0 - #1 - SQUISH_CONSTANT in
  let dw3 := dw1 in
  let attn3 := dx3 * dx3 + dy3 * dy3 + dz3 * dz3 + dw3 * dw3 in
  e ← extrapolate perm xsb ysb (zsb + 1) wsb dx3 dy3 dz3 dw3;
  let value := value + fpow (fmax (#2 - attn3) #0) 4 * e in
  let dx4 := dx2 in
  let dy4 := dy1 in
  let dz4 := dz1 in
  let dw4 := dw0 - #1 - SQUISH_CONSTANT in
  let attn4 := dx4 * dx4 + dy4 * dy4 + dz4 * dz4 + dw4 * dw4 in
  e ← extrapolate perm xsb ysb zsb (wsb + 1) dx4 dy4 dz4 dw4;
  let value := value + fpow (fmax (#2 - attn4) #0) 4 * e in
  Some value.

(** Pentachoron at (1,1,1,1): the two closest points
    (lines 1241-1258 of the OSN header). *)
Definition penta1_closest (xins yins zins wins : T) :
    Z * T * Z * T :=
  let aPoint := 14%Z in
  let aScore := xins in
  let bPoint := 13%Z in
  let bScore := yins in
  let '(bPoint, bScore, aPoint, aScore) :=
    if (aScore <=? bScore) && (zins <? bScore) then
      let bPoint := 11%Z in
      let bScore := zins in
      (bPoint, bScore, aPoint, aScore)
    else if (aScore >? bScore) && (zins <? aScore) then
      let aPoint := 11%Z in
      let aScore := zins in
      (bPoint, bScore, aPoint, aScore)
    else (bPoint, bScore, aPoint, aScore) in
  let '(bPoint, bScore, aPoint, aScore) :=
    if (aScore <=? bScore) && (wins <? bScore) then
      let bPoint := 7%Z in
      let bScore := wins in
      (bPoint, bScore, aPoint, aScore)
    else if (aScore >? bScore) && (wins <? aScore) then
      let aPoint := 7%Z in
      let aScore := wins in
      (bPoint, bScore, aPoint, aScore)
    else (bPoint, bScore, aPoint, aScore) in
  (aPoint, aScore, bPoint, bScore).

(** Pentachoron at (1,1,1,1): the three extra vertices
    (lines 1262-1383 of the OSN header). *)
Definition penta1_ext (xsb ysb zsb wsb : Z) (dx0 dy0 dz0 dw0 inSum : T)
    (aPoint : Z) (aScore : T) (bPoint : Z) (bScore : T) :
    Z * Z * Z * Z * Z * Z * Z * Z * Z * Z * Z * Z * T * T * T * T * T * T * T * T *
    T * T * T * T :=
  let uins := #4 - inSum in
  let '(xsv_ext0, xsv_ext1, xsv_ext2, dx_ext0, dx_ext1, dx_ext2, ysv_ext0, ysv_ext1,
        ysv_ext2, dy_ext0, dy_ext1, dy_ext2, zsv_ext0, zsv_ext1, zsv_ext2, dz_ext0,
        dz_ext1, dz_ext2, wsv_ext0, wsv_ext1, wsv_ext2, dw_ext0, dw_ext1, dw_ext2) :=
    if (uins <? aScore) || (uins <? bScore) then
      let c := (if (bScore <? aScore) then bPoint else aPoint) in
      let '(xsv_ext0, xsv_ext1, xsv_ext2, dx_ext0, dx_ext1, dx_ext2) :=
        if truthy (Z.land c 1) then
          let xsv_ext0 := (xsb + 2)%Z in
          let xsv_ext2 := (xsb + 1)%Z in
          let xsv_ext1 := xsv_ext2 in
          let dx_ext0 := dx0 - #2 - SQUISH_CONSTANT * #4 in
          let dx_ext2 := dx0 - #1 - SQUISH_CONSTANT * #4 in
          let dx_ext1 := dx_ext2 in
          (xsv_ext0, xsv_ext1, xsv_ext2, dx_ext0, dx_ext1, dx_ext2)
        else
          let xsv_ext2 := xsb in
          let xsv_ext1 := xsv_ext2 in
          let xsv_ext0 := xsv_ext1 in
          let dx_ext2 := dx0 - SQUISH_CONSTANT * #4 in
          let dx_ext1 := dx_ext2 in
          let dx_ext0 := dx_ext1 in
          (xsv_ext0, xsv_ext1, xsv_ext2, dx_ext0, dx_ext1, dx_ext2) in
      let '(ysv_ext0, ysv_ext1, ysv_ext2, dy_ext0, dy_ext1, dy_ext2) :=
        if truthy (Z.land c 2) then
          let ysv_ext2 := (ysb + 1)%Z in
          let ysv_ext1 := ysv_ext2 in
          let ysv_ext0 := ysv_ext1 in
          let dy_ext2 := dy0 - #1 - SQUISH_CONSTANT * #4 in
          let dy_ext1 := dy_ext2 in
          let dy_ext0 := dy_ext1 in
          let '(ysv_ext1, dy_ext1, ysv_ext0, dy_ext0) :=
            if truthy (Z.land c 1) then
              let ysv_ext1 := (ysv_ext1 + 1)%Z in
              let dy_ext1 := dy_ext1 - #1 in
              (ysv_ext1, dy_ext1, ysv_ext0, dy_ext0)
            else
              let ysv_ext0 := (ysv_ext0 + 1)%Z in
              let dy_ext0 := dy_ext0 - #1 in
              (ysv_ext1, dy_ext1, ysv_ext0, dy_ext0) in
          (ysv_ext0, ysv_ext1, ysv_ext2, dy_ext0, dy_ext1, dy_ext2)
        else
          let ysv_ext2 := ysb in
          let ysv_ext1 := ysv_ext2 in
          let ysv_ext0 := ysv_ext1 in
          let dy_ext2 := dy0 - SQUISH_CONSTANT * #4 in
          let dy_ext1 := dy_ext2 in
          let dy_ext0 := dy_ext1 in
          (ysv_ext0, ysv_ext1, ysv_ext2, dy_ext0, dy_ext1, dy_ext2) in
      let '(zsv_ext0, zsv_ext1, zsv_ext2, dz_ext0, dz_ext1, dz_ext2) :=
        if truthy (Z.land c 4) then
          let zsv_ext2 := (zsb + 1)%Z in
          let zsv_ext1 := zsv_ext2 in
          let zsv_ext0 := zsv_ext1 in
          let dz_ext2 := dz0 - #1 - SQUISH_CONSTANT * #4 in
          let dz_ext1 := dz_ext2 in
          let dz_ext0 := dz_ext1 in
          let '(zsv_ext0, dz_ext0, zsv_ext1, dz_ext1, zsv_ext2, dz_ext2) :=
            if negb ((Z.land c 3) =? 3)%Z then
              let '(zsv_ext0, dz_ext0, zsv_ext1, dz_ext1) :=
                if negb (truthy (Z.land c 3)) then
                  let zsv_ext0 := (zsv_ext0 + 1)%Z in
                  let dz_ext0 := dz_ext0 - #1 in
                  (zsv_ext0, dz_ext0, zsv_ext1, dz_ext1)
                else
                  let zsv_ext1 := (zsv_ext1 + 1)%Z in
                  let dz_ext1 := dz_ext1 - #1 in
                  (zsv_ext0, dz_ext0, zsv_ext1, dz_ext1) in
              (zsv_ext0, dz_ext0, zsv_ext1, dz_ext1, zsv_ext2, dz_ext2)
            else
              let zsv_ext2 := (zsv_ext2 + 1)%Z in
              let dz_ext2 := dz_ext2 - #1 in
              (zsv_ext0, dz_ext0, zsv_ext1, dz_ext1, zsv_ext2, dz_ext2) in
          (zsv_ext0, zsv_ext1, zsv_ext2, dz_ext0, dz_ext1, dz_ext2)
        else
          let zsv_ext2 := zsb in
          let zsv_ext1 := zsv_ext2 in
          let zsv_ext0 := zsv_ext1 in
          let dz_ext2 := dz0 - SQUISH_CONSTANT * #4 in
          let dz_ext1 := dz_ext2 in
          let dz_ext0 := dz_ext1 in
          (zsv_ext0, zsv_ext1, zsv_ext2, dz_ext0, dz_ext1, dz_ext2) in
      let '(wsv_ext0, wsv_ext1, wsv_ext2, dw_ext0, dw_ext1, dw_ext2) :=
        if truthy (Z.land c 8) then
          let wsv_ext1 := (wsb + 1)%Z in
          let wsv_ext0 := wsv_ext1 in
          let wsv_ext2 := (wsb + 2)%Z in
          let dw_ext1 := dw0 - #1 - SQUISH_CONSTANT * #4 in
          let dw_ext0 := dw_ext1 in
          let dw_ext2 := dw0 - #2 - SQUISH_CONSTANT * #4 in
          (wsv_ext0, wsv_ext1, wsv_ext2, dw_ext0, dw_ext1, dw_ext2)
        else
          let wsv_ext2 := wsb in
          let wsv_ext1 := wsv_ext2 in
          let wsv_ext0 := wsv_ext1 in
          let dw_ext2 := dw0 - SQUISH_CONSTANT * #4 in
          let dw_ext1 := dw_ext2 in
          let dw_ext0 := dw_ext1 in
          (wsv_ext0, wsv_ext1, wsv_ext2, dw_ext0, dw_ext1, dw_ext2) in
      (xsv_ext0, xsv_ext1, xsv_ext2, dx_ext0, dx_ext1, dx_ext2, ysv_ext0, ysv_ext1,
       ysv_ext2, dy_ext0, dy_ext1, dy_ext2, zsv_ext0, zsv_ext1, zsv_ext2, dz_ext0,
       dz_ext1, dz_ext2, wsv_ext0, wsv_ext1, wsv_ext2, dw_ext0, dw_ext1, dw_ext2)
    else
      let c := (Z.land aPoint bPoint) in
      let '(xsv_ext0, xsv_ext2, xsv_ext1, dx_ext0, dx_ext1, dx_ext2) :=
        if truthy (Z.land c 1) then
          let xsv_ext2 := (xsb + 1)%Z in
          let xsv_ext0 := xsv_ext2 in
          let xsv_ext1 := (xsb + 2)%Z in
          let dx_ext0 := dx0 - #1 - SQUISH_CONSTANT * #2 in
          let dx_ext1 := dx0 - #2 - SQUISH_CONSTANT * #3 in
          let dx_ext2 := dx0 - #1 - SQUISH_CONSTANT * #3 in
          (xsv_ext0, xsv_ext2, xsv_ext1, dx_ext0, dx_ext1, dx_ext2)
        else
          let xsv_ext2 := xsb in
          let xsv_ext1 := xsv_ext2 in
          let xsv_ext0 := xsv_ext1 in
          let dx_ext0 := dx0 - SQUISH_CONSTANT * #2 in
          let dx_ext2 := dx0 - SQUISH_CONSTANT * #3 in
          let dx_ext1 := dx_ext2 in
          (xsv_ext0, xsv_ext2, xsv_ext1, dx_ext0, dx_ext1, dx_ext2) in
      let '(ysv_ext0, ysv_ext1, ysv_ext2, dy_ext0, dy_ext1, dy_ext2) :=
        if truthy (Z.land c 2) then
          let ysv_ext2 := (ysb + 1)%Z in
          let ysv_ext1 := ysv_ext2 in
          let ysv_ext0 := ysv_ext1 in
          let dy_ext0 := dy0 - #1 - SQUISH_CONSTANT * #2 in
          let dy_ext2 := dy0 - #1 - SQUISH_CONSTANT * #3 in
          let dy_ext1 := dy_ext2 in
          let '(ysv_ext2, dy_ext2, ysv_ext1, dy_ext1) :=
            if truthy (Z.land c 1) then
              let ysv_ext2 := (ysv_ext2 + 1)%Z in
              let dy_ext2 := dy_ext2 - #1 in
              (ysv_ext2, dy_ext2, ysv_ext1, dy_ext1)
            else
              let ysv_ext1 := (ysv_ext1 + 1)%Z in
              let dy_ext1 := dy_ext1 - #1 in
              (ysv_ext2, dy_ext2, ysv_ext1, dy_ext1) in
          (ysv_ext0, ysv_ext1, ysv_ext2, dy_ext0, dy_ext1, dy_ext2)
        else
          let ysv_ext2 := ysb in
          let ysv_ext1 := ysv_ext2 in
          let ysv_ext0 := ysv_ext1 in
          let dy_ext0 := dy0 - SQUISH_CONSTANT * #2 in
          let dy_ext2 := dy0 - SQUISH_CONSTANT * #3 in
          let dy_ext1 := dy_ext2 in
          (ysv_ext0, ysv_ext1, ysv_ext2, dy_ext0, dy_ext1, dy_ext2) in
      let '(zsv_ext0, zsv_ext1, zsv_ext2, dz_ext0, dz_ext1, dz_ext2) :=
        if truthy (Z.land c 4) then
          let zsv_ext2 := (zsb + 1)%Z in
          let zsv_ext1 := zsv_ext2 in
          let zsv_ext0 := zsv_ext1 in
          let dz_ext0 := dz0 - #1 - SQUISH_CONSTANT * #2 in
          let dz_ext2 := dz0 - #1 - SQUISH_CONSTANT * #3 in
          let dz_ext1 := dz_ext2 in
          let '(zsv_ext2, dz_ext2, zsv_ext1, dz_ext1) :=
            if truthy (Z.land c 3) then
              let zsv_ext2 := (zsv_ext2 + 1)%Z in
              let dz_ext2 := dz_ext2 - #1 in
              (zsv_ext2, dz_ext2, zsv_ext1, dz_ext1)
            else
              let zsv_ext1 := (zsv_ext1 + 1)%Z in
              let dz_ext1 := dz_ext1 - #1 in
              (zsv_ext2, dz_ext2, zsv_ext1, dz_ext1) in
          (zsv_ext0, zsv_ext1, zsv_ext2, dz_ext0, dz_ext1, dz_ext2)
        else
          let zsv_ext2 := zsb in
          let zsv_ext1 := zsv_ext2 in
          let zsv_ext0 := zsv_ext1 in
          let dz_ext0 := dz0 - SQUISH_CONSTANT * #2 in
          let dz_ext2 := dz0 - SQUISH_CONSTANT * #3 in
          let dz_ext1 := dz_ext2 in
          (zsv_ext0, zsv_ext1, zsv_ext2, dz_ext0, dz_ext1, dz_ext2) in
      let '(wsv_ext0, wsv_ext1, wsv_ext2, dw_ext0, dw_ext1, dw_ext2) :=
        if truthy (Z.land c 8) then
          let wsv_ext1 := (wsb + 1)%Z in
          let wsv_ext0 := wsv_ext1 in
          let wsv_ext2 := (wsb + 2)%Z in
          let dw_ext0 := dw0 - #1 - SQUISH_CONSTANT * #2 in
          let dw_ext1 := dw0 - #1 - SQUISH_CONSTANT * #3 in
          let dw_ext2 := dw0 - #2 - SQUISH_CONSTANT * #3 in
          (wsv_ext0, wsv_ext1, wsv_ext2, dw_ext0, dw_ext1, dw_ext2)
        else
          let wsv_ext2 := wsb in
          let wsv_ext1 := wsv_ext2 in
          let wsv_ext0 := wsv_ext1 in
          let dw_ext0 := dw0 - SQUISH_CONSTANT * #2 in
          let dw_ext2 := dw0 - SQUISH_CONSTANT * #3 in
          let dw_ext1 := dw_ext2 in
          (wsv_ext0, wsv_ext1, wsv_ext2, dw_ext0, dw_ext1, dw_ext2) in
      (xsv_ext0, xsv_ext1, xsv_ext2, dx_ext0, dx_ext1, dx_ext2, ysv_ext0, ysv_ext1,
       ysv_ext2, dy_ext0, dy_ext1, dy_ext2, zsv_ext0, zsv_ext1, zsv_ext2, dz_ext0,
       dz_ext1, dz_ext2, wsv_ext0, wsv_ext1, wsv_ext2, dw_ext0, dw_ext1, dw_ext2) in
  (xsv_ext0, ysv_ext0, zsv_ext0, wsv_ext0, xsv_ext1, ysv_ext1, zsv_ext1, wsv_ext1,
   xsv_ext2, ysv_ext2, zsv_ext2, wsv_ext2, dx_ext0, dy_ext0, dz_ext0, dw_ext0,
   dx_ext1, dy_ext1, dz_ext1, dw_ext1, dx_ext2, dy_ext2, dz_ext2, dw_ext2).

(** Pentachoron at (1,1,1,1): the five contributions
    (lines 1386-1423 of the OSN header). *)
Definition penta1_contrib (perm : list Z) (xsb ysb zsb wsb : Z)
    (dx0 dy0 dz0 dw0 : T) :
    option T :=
  let dx4 := dx0 - #1 - SQUISH_CONSTANT * #3 in
  let dy4 := dy0 - #1 - SQUISH_CONSTANT * #3 in
  let dz4 := dz0 - #1 - SQUISH_CONSTANT * #3 in
  let dw4 := dw0 - SQUISH_CONSTANT * #3 in
  let attn4 := dx4 * dx4 + dy4 * dy4 + dz4 * dz4 + dw4 * dw4 in
  e ← extrapolate perm (xsb + 1) (ysb + 1) (zsb + 1) wsb dx4 dy4 dz4 dw4;
  let value := fpow (fmax (#2 - attn4) #0) 4 * e in
  let dx3 := dx4 in
  let dy3 := dy4 in
  let dz3 := dz0 - SQUISH_CONSTANT * #3 in
  let dw3 := dw0 - #1 - SQUISH_CONSTANT * #3 in
  let attn3 := dx3 * dx3 + dy3 * dy3 + dz3 * dz3 + dw3 * dw3 in
  e ← extrapolate perm (xsb + 1) (ysb + 1) zsb (wsb + 1) dx3 dy3 dz3 dw3;
  let value := value + fpow (fmax (#2 - attn3) #0) 4 * e in
  let dx2 := dx4 in
  let dy2 := dy0 - SQUISH_CONSTANT * #3 in
  let dz2 := dz4 in
  let dw2 := dw3 in
  let attn2 := dx2 * dx2 + dy2 * dy2 + dz2 * dz2 + dw2 * dw2 in
  e ← extrapolate perm (xsb + 1) ysb (zsb + 1) (wsb + 1) dx2 dy2 dz2 dw2;
  let value := value + fpow (fmax (#2 - attn2) #0) 4 * e in
  let dx1 := dx0 - SQUISH_CONSTANT * #3 in
  let dy1 := dy4 in
  let dz1 := dz4 in
  let dw1 := dw3 in
  let attn1 := dx1 * dx1 + dy1 * dy1 + dz1 * dz1 + dw1 * dw1 in
  e ← extrapolate perm xsb (ysb + 1) (zsb + 1) (wsb + 1) dx1 dy1 dz1 dw1;
  let value := value + fpow (fmax (#2 - attn1) #0) 4 * e in
  let dx0 := dx0 - #1 - SQUISH_CONSTANT * #4 in
  let dy0 := dy0 - #1 - SQUISH_CONSTANT * #4 in
  let dz0 := dz0 - #1 - SQUISH_CONSTANT * #4 in
  let dw0 := dw0 - #1 - SQUISH_CONSTANT * #4 in
  let attn0 := dx0 * dx0 + dy0 * dy0 + dz0 * dz0 + dw0 * dw0 in
  e ← extrapolate perm (xsb + 1) (ysb + 1) (zsb + 1) (wsb + 1) dx0 dy0 dz0 dw0;
  let value := value + fpow (fmax (#2 - attn0) #0) 4 * e in
  Some value.

(** First dispentachoron: the two closest points
    (lines 1428-1520 of the OSN header). *)
Definition dispenta0_closest (xins yins zins wins inSum : T) :
    Z * bool * Z * bool :=
  let aIsBiggerSide := true in
  let bIsBiggerSide := true in
  let '(aPoint, aScore) :=
    if xins + yins >? zins + wins then
      let aPoint := 3%Z in
      let aScore := xins + yins in
      (aPoint, aScore)
    else
      let aPoint := 12%Z in
      let aScore := zins + wins in
      (aPoint, aScore) in
  let '(bPoint, bScore) :=
    if xins + zins >? yins + wins then
      let bPoint := 5%Z in
      let bScore := xins + zins in
      (bPoint, bScore)
    else
      let bPoint := 10%Z in
      let bScore := yins + wins in
      (bPoint, bScore) in
  let '(bPoint, bScore, aPoint, aScore) :=
    if xins + wins >? yins + zins then
      let score := xins + wins in
      let '(bPoint, bScore, aPoint, aScore) :=
        if (aScore >=? bScore) && (score >? bScore) then
          let bPoint := 9%Z in
          let bScore := score in
          (bPoint, bScore, aPoint, aScore)
        else if (aScore <? bScore) && (score >? aScore) then
          let aPoint := 9%Z in
          let aScore := score in
          (bPoint, bScore, aPoint, aScore)
        else (bPoint, bScore, aPoint, aScore) in
      (bPoint, bScore, aPoint, aScore)
    else
      let score := yins + zins in
      let '(bPoint, bScore, aPoint, aScore) :=
        if (aScore >=? bScore) && (score >? bScore) then
          let bPoint := 6%Z in
          let bScore := score in
          (bPoint, bScore, aPoint, aScore)
        else if (aScore <? bScore) && (score >? aScore) then
          let aPoint := 6%Z in
          let aScore := score in
          (bPoint, bScore, aPoint, aScore)
        else (bPoint, bScore, aPoint, aScore) in
      (bPoint, bScore, aPoint, aScore) in
  let p1 := #2 - inSum + xins in
  let '(bPoint, bScore, bIsBiggerSide, aPoint, aScore, aIsBiggerSide) :=
    if (aScore >=? bScore) && (p1 >? bScore) then
      let bPoint := 1%Z in
      let bScore := p1 in
      let bIsBiggerSide := false in
      (bPoint, bScore, bIsBiggerSide, aPoint, aScore, aIsBiggerSide)
    else if (aScore <? bScore) && (p1 >? aScore) then
      let aPoint := 1%Z in
      let aScore := p1 in
      let aIsBiggerSide := false in
      (bPoint, bScore, bIsBiggerSide, aPoint, aScore, aIsBiggerSide)
    else (bPoint, bScore, bIsBiggerSide, aPoint, aScore, aIsBiggerSide) in
  let p2 := #2 - inSum + yins in
  let '(bPoint, bScore, bIsBiggerSide, aPoint, aScore, aIsBiggerSide) :=
    if (aScore >=? bScore) && (p2 >? bScore) then
      let bPoint := 2%Z in
      let bScore := p2 in
      let bIsBiggerSide := false in
      (bPoint, bScore, bIsBiggerSide, aPoint, aScore, aIsBiggerSide)
    else if (aScore <? bScore) && (p2 >? aScore) then
      let aPoint := 2%Z in
      let aScore := p2 in
      let aIsBiggerSide := false in
      (bPoint, bScore, bIsBiggerSide, aPoint, aScore, aIsBiggerSide)
    else (bPoint, bScore, bIsBiggerSide, aPoint, aScore, aIsBiggerSide) in
  let p3 := #2 - inSum + zins in
  let '(bPoint, bScore, bIsBiggerSide, aPoint, aScore, aIsBiggerSide) :=
    if (aScore >=? bScore) && (p3 >? bScore) then
      let bPoint := 4%Z in
      let bScore := p3 in
      let bIsBiggerSide := false in
      (bPoint, bScore, bIsBiggerSide, aPoint, aScore, aIsBiggerSide)
    else if (aScore <? bScore) && (p3 >? aScore) then
      let aPoint := 4%Z in
      let aScore := p3 in
      let aIsBiggerSide := false in
      (bPoint, bScore, bIsBiggerSide, aPoint, aScore, aIsBiggerSide)
    else (bPoint, bScore, bIsBiggerSide, aPoint, aScore, aIsBiggerSide) in
  let p4 := #2 - inSum + wins in
  let '(bPoint, bIsBiggerSide, aPoint, aIsBiggerSide) :=
    if (aScore >=? bScore) && (p4 >? bScore) then
      let bPoint := 8%Z in
      let bScore := p4 in
      let bIsBiggerSide := false in
      (bPoint, bIsBiggerSide, aPoint, aIsBiggerSide)
    else if (aScore <? bScore) && (p4 >? aScore) then
      let aPoint := 8%Z in
      let aScore := p4 in
      let aIsBiggerSide := false in
      (bPoint, bIsBiggerSide, aPoint, aIsBiggerSide)
    else (bPoint, bIsBiggerSide, aPoint, aIsBiggerSide) in
  (aPoint, aIsBiggerSide, bPoint, bIsBiggerSide).

(** First dispentachoron: the three extra vertices
    (lines 1523-1746 of the OSN header). *)
Definition dispenta0_ext (xsb ysb zsb wsb : Z) (dx0 dy0 dz0 dw0 : T)
    (aPoint : Z) (aIsBiggerSide : bool) (bPoint : Z) (bIsBiggerSide : bool) :
    Z * Z * Z * Z * Z * Z * Z * Z * Z * Z * Z * Z * T * T * T * T * T * T * T * T *
    T * T * T * T :=
  let '(xsv_ext0, xsv_ext1, dx_ext0, dx_ext1, ysv_ext0, ysv_ext1, dy_ext0, dy_ext1,
        zsv_ext0, zsv_ext1, dz_ext0, dz_ext1, wsv_ext0, wsv_ext1, dw_ext0, dw_ext1,
        xsv_ext2, ysv_ext2, zsv_ext2, wsv_ext2, dx_ext2, dy_ext2, dz_ext2, dw_ext2) :=
    if Bool.eqb aIsBiggerSide bIsBiggerSide then
      let '(xsv_ext0, xsv_ext1, dx_ext0, dx_ext1, ysv_ext0, ysv_ext1, dy_ext0,
            dy_ext1, zsv_ext0, zsv_ext1, dz_ext0, dz_ext1, wsv_ext0, wsv_ext1,
            dw_ext0, dw_ext1, xsv_ext2, ysv_ext2, zsv_ext2, wsv_ext2, dx_ext2,
            dy_ext2, dz_ext2, dw_ext2) :=
        if aIsBiggerSide then
          let c1 := (Z.lor aPoint bPoint) in
          let c2 := (Z.land aPoint bPoint) in
          let '(xsv_ext0, xsv_ext1, dx_ext0, dx_ext1) :=
            if negb (truthy (Z.land c1 1)) then
              let xsv_ext0 := xsb in
              let xsv_ext1 := (xsb - 1)%Z in
              let dx_ext0 := dx0 - SQUISH_CONSTANT * #3 in
              let dx_ext1 := dx0 + #1 - SQUISH_CONSTANT * #2 in
              (xsv_ext0, xsv_ext1, dx_ext0, dx_ext1)
            else
              let xsv_ext1 := (xsb + 1)%Z in
              let xsv_ext0 := xsv_ext1 in
              let dx_ext0 := dx0 - #1 - SQUISH_CONSTANT * #3 in
              let dx_ext1 := dx0 - #1 - SQUISH_CONSTANT * #2 in
              (xsv_ext0, xsv_ext1, dx_ext0, dx_ext1) in
          let '(ysv_ext0, ysv_ext1, dy_ext0, dy_ext1) :=
            if negb (truthy (Z.land c1 2)) then
              let ysv_ext0 := ysb in
              let ysv_ext1 := (ysb - 1)%Z in
              let dy_ext0 := dy0 - SQUISH_CONSTANT * #3 in
              let dy_ext1 := dy0 + #1 - SQUISH_CONSTANT * #2 in
              (ysv_ext0, ysv_ext1, dy_ext0, dy_ext1)
            else
              let ysv_ext1 := (ysb + 1)%Z in
              let ysv_ext0 := ysv_ext1 in
              let dy_ext0 := dy0 - #1 - SQUISH_CONSTANT * #3 in
              let dy_ext1 := dy0 - #1 - SQUISH_CONSTANT * #2 in
              (ysv_ext0, ysv_ext1, dy_ext0, dy_ext1) in
          let '(zsv_ext0, zsv_ext1, dz_ext0, dz_ext1) :=
            if negb (truthy (Z.land c1 4)) then
              let zsv_ext0 := zsb in
              let zsv_ext1 := (zsb - 1)%Z in
              let dz_ext0 := dz0 - SQUISH_CONSTANT * #3 in
              let dz_ext1 := dz0 + #1 - SQUISH_CONSTANT * #2 in
              (zsv_ext0, zsv_ext1, dz_ext0, dz_ext1)
            else
              let zsv_ext1 := (zsb + 1)%Z in
              let zsv_ext0 := zsv_ext1 in
              let dz_ext0 := dz0 - #1 - SQUISH_CONSTANT * #3 in
              let dz_ext1 := dz0 - #1 - SQUISH_CONSTANT * #2 in
              (zsv_ext0, zsv_ext1, dz_ext0, dz_ext1) in
          let '(wsv_ext0, wsv_ext1, dw_ext0, dw_ext1) :=
            if negb (truthy (Z.land c1 8)) then
              let wsv_ext0 := wsb in
              let wsv_ext1 := (wsb - 1)%Z in
              let dw_ext0 := dw0 - SQUISH_CONSTANT * #3 in
              let dw_ext1 := dw0 + #1 - SQUISH_CONSTANT * #2 in
              (wsv_ext0, wsv_ext1, dw_ext0, dw_ext1)
            else
              let wsv_ext1 := (wsb + 1)%Z in
              let wsv_ext0 := wsv_ext1 in
              let dw_ext0 := dw0 - #1 - SQUISH_CONSTANT * #3 in
              let dw_ext1 := dw0 - #1 - SQUISH_CONSTANT * #2 in
              (wsv_ext0, wsv_ext1, dw_ext0, dw_ext1) in
          let xsv_ext2 := xsb in
          let ysv_ext2 := ysb in
          let zsv_ext2 := zsb in
          let wsv_ext2 := wsb in
          let dx_ext2 := dx0 - SQUISH_CONSTANT * #2 in
          let dy_ext2 := dy0 - SQUISH_CONSTANT * #2 in
          let dz_ext2 := dz0 - SQUISH_CONSTANT * #2 in
          let dw_ext2 := dw0 - SQUISH_CONSTANT * #2 in
          let '(xsv_ext2, dx_ext2, ysv_ext2, dy_ext2, zsv_ext2, dz_ext2, wsv_ext2,
                dw_ext2) :=
            if truthy (Z.land c2 1) then
              let xsv_ext2 := (xsv_ext2 + 2)%Z in
              let dx_ext2 := dx_ext2 - #2 in
              (xsv_ext2, dx_ext2, ysv_ext2, dy_ext2, zsv_ext2, dz_ext2, wsv_ext2,
               dw_ext2)
            else if truthy (Z.land c2 2) then
              let ysv_ext2 := (ysv_ext2 + 2)%Z in
              let dy_ext2 := dy_ext2 - #2 in
              (xsv_ext2, dx_ext2, ysv_ext2, dy_ext2, zsv_ext2, dz_ext2, wsv_ext2,
               dw_ext2)
            else if truthy (Z.land c2 4) then
              let zsv_ext2 := (zsv_ext2 + 2)%Z in
              let dz_ext2 := dz_ext2 - #2 in
              (xsv_ext2, dx_ext2, ysv_ext2, dy_ext2, zsv_ext2, dz_ext2, wsv_ext2,
               dw_ext2)
            else
              let wsv_ext2 := (wsv_ext2 + 2)%Z in
              let dw_ext2 := dw_ext2 - #2 in
              (xsv_ext2, dx_ext2, ysv_ext2, dy_ext2, zsv_ext2, dz_ext2, wsv_ext2,
               dw_ext2) in
          (xsv_ext0, xsv_ext1, dx_ext0, dx_ext1, ysv_ext0, ysv_ext1, dy_ext0, dy_ext1,
           zsv_ext0, zsv_ext1, dz_ext0, dz_ext1, wsv_ext0, wsv_ext1, dw_ext0, dw_ext1,
           xsv_ext2, ysv_ext2, zsv_ext2, wsv_ext2, dx_ext2, dy_ext2, dz_ext2, dw_ext2)
        else
          let xsv_ext2 := xsb in
          let ysv_ext2 := ysb in
          let zsv_ext2 := zsb in
          let wsv_ext2 := wsb in
          let dx_ext2 := dx0 in
          let dy_ext2 := dy0 in
          let dz_ext2 := dz0 in
          let dw_ext2 := dw0 in
          let c := (Z.lor aPoint bPoint) in
          let '(xsv_ext0, xsv_ext1, dx_ext0, dx_ext1) :=
            if negb (truthy (Z.land c 1)) then
              let xsv_ext0 := (xsb - 1)%Z in
              let xsv_ext1 := xsb in
              let dx_ext0 := dx0 + #1 - SQUISH_CONSTANT in
              let dx_ext1 := dx0 - SQUISH_CONSTANT in
              (xsv_ext0, xsv_ext1, dx_ext0, dx_ext1)
            else
              let xsv_ext1 := (xsb + 1)%Z in
              let xsv_ext0 := xsv_ext1 in
              let dx_ext1 := dx0 - #1 - SQUISH_CONSTANT in
              let dx_ext0 := dx_ext1 in
              (xsv_ext0, xsv_ext1, dx_ext0, dx_ext1) in
          let '(ysv_ext0, ysv_ext1, dy_ext0, dy_ext1) :=
            if negb (truthy (Z.land c 2)) then
              let ysv_ext1 := ysb in
              let ysv_ext0 := ysv_ext1 in
              let dy_ext1 := dy0 - SQUISH_CONSTANT in
              let dy_ext0 := dy_ext1 in
              let '(ysv_ext0, dy_ext0, ysv_ext1, dy_ext1) :=
                if truthy (Z.land c 1) then
                  let ysv_ext0 := (ysv_ext0 - 1)%Z in
                  let dy_ext0 := dy_ext0 + #1 in
                  (ysv_ext0, dy_ext0, ysv_ext1, dy_ext1)
                else
                  let ysv_ext1 := (ysv_ext1 - 1)%Z in
                  let dy_ext1 := dy_ext1 + #1 in
                  (ysv_ext0, dy_ext0, ysv_ext1, dy_ext1) in
              (ysv_ext0, ysv_ext1, dy_ext0, dy_ext1)
            else
              let ysv_ext1 := (ysb + 1)%Z in
              let ysv_ext0 := ysv_ext1 in
              let dy_ext1 := dy0 - #1 - SQUISH_CONSTANT in
              let dy_ext0 := dy_ext1 in
              (ysv_ext0, ysv_ext1, dy_ext0, dy_ext1) in
          let '(zsv_ext0, zsv_ext1, dz_ext0, dz_ext1) :=
            if negb (truthy (Z.land c 4)) then
              let zsv_ext1 := zsb in
              let zsv_ext0 := zsv_ext1 in
              let dz_ext1 := dz0 - SQUISH_CONSTANT in
              let dz_ext0 := dz_ext1 in
              let '(zsv_ext0, dz_ext0, zsv_ext1, dz_ext1) :=
                if ((Z.land c 3) =? 3)%Z then
                  let zsv_ext0 := (zsv_ext0 - 1)%Z in
                  let dz_ext0 := dz_ext0 + #1 in
                  (zsv_ext0, dz_ext0, zsv_ext1, dz_ext1)
                else
                  let zsv_ext1 := (zsv_ext1 - 1)%Z in
                  let dz_ext1 := dz_ext1 + #1 in
                  (zsv_ext0, dz_ext0, zsv_ext1, dz_ext1) in
              (zsv_ext0, zsv_ext1, dz_ext0, dz_ext1)
            else
              let zsv_ext1 := (zsb + 1)%Z in
              let zsv_ext0 := zsv_ext1 in
              let dz_ext1 := dz0 - #1 - SQUISH_CONSTANT in
              let dz_ext0 := dz_ext1 in
              (zsv_ext0, zsv_ext1, dz_ext0, dz_ext1) in
          let '(wsv_ext0, wsv_ext1, dw_ext0, dw_ext1) :=
            if negb (truthy (Z.land c 8)) then
              let wsv_ext0 := wsb in
              let wsv_ext1 := (wsb - 1)%Z in
              let dw_ext0 := dw0 - SQUISH_CONSTANT in
              let dw_ext1 := dw0 + #1 - SQUISH_CONSTANT in
              (wsv_ext0, wsv_ext1, dw_ext0, dw_ext1)
            else
              let wsv_ext1 := (wsb + 1)%Z in
              let wsv_ext0 := wsv_ext1 in
              let dw_ext1 := dw0 - #1 - SQUISH_CONSTANT in
              let dw_ext0 := dw_ext1 in
              (wsv_ext0, wsv_ext1, dw_ext0, dw_ext1) in
          (xsv_ext0, xsv_ext1, dx_ext0, dx_ext1, ysv_ext0, ysv_ext1, dy_ext0, dy_ext1,
           zsv_ext0, zsv_ext1, dz_ext0, dz_ext1, wsv_ext0, wsv_ext1, dw_ext0, dw_ext1,
           xsv_ext2, ysv_ext2, zsv_ext2, wsv_ext2, dx_ext2, dy_ext2, dz_ext2,
           dw_ext2) in
      (xsv_ext0, xsv_ext1, dx_ext0, dx_ext1, ysv_ext0, ysv_ext1, dy_ext0, dy_ext1,
       zsv_ext0, zsv_ext1, dz_ext0, dz_ext1, wsv_ext0, wsv_ext1, dw_ext0, dw_ext1,
       xsv_ext2, ysv_ext2, zsv_ext2, wsv_ext2, dx_ext2, dy_ext2, dz_ext2, dw_ext2)
    else
      let '(c1, c2) :=
        if aIsBiggerSide then
          let c1 := aPoint in
          let c2 := bPoint in
          (c1, c2)
        else
          let c1 := bPoint in
          let c2 := aPoint in
          (c1, c2) in
      let '(xsv_ext0, xsv_ext1, dx_ext0, dx_ext1) :=
        if negb (truthy (Z.land c1 1)) then
          let xsv_ext0 := (xsb - 1)%Z in
          let xsv_ext1 := xsb in
          let dx_ext0 := dx0 + #1 - SQUISH_CONSTANT in
          let dx_ext1 := dx0 - SQUISH_CONSTANT in
          (xsv_ext0, xsv_ext1, dx_ext0, dx_ext1)
        else
          let xsv_ext1 := (xsb + 1)%Z in
          let xsv_ext0 := xsv_ext1 in
          let dx_ext1 := dx0 - #1 - SQUISH_CONSTANT in
          let dx_ext0 := dx_ext1 in
          (xsv_ext0, xsv_ext1, dx_ext0, dx_ext1) in
      let '(ysv_ext0, ysv_ext1, dy_ext0, dy_ext1) :=
        if negb (truthy (Z.land c1 2)) then
          let ysv_ext1 := ysb in
          let ysv_ext0 := ysv_ext1 in
          let dy_ext1 := dy0 - SQUISH_CONSTANT in
          let dy_ext0 := dy_ext1 in
          let '(ysv_ext0, dy_ext0, ysv_ext1, dy_ext1) :=
            if ((Z.land c1 1) =? 1)%Z then
              let ysv_ext0 := (ysv_ext0 - 1)%Z in
              let dy_ext0 := dy_ext0 + #1 in
              (ysv_ext0, dy_ext0, ysv_ext1, dy_ext1)
            else
              let ysv_ext1 := (ysv_ext1 - 1)%Z in
              let dy_ext1 := dy_ext1 + #1 in
              (ysv_ext0, dy_ext0, ysv_ext1, dy_ext1) in
          (ysv_ext0, ysv_ext1, dy_ext0, dy_ext1)
        else
          let ysv_ext1 := (ysb + 1)%Z in
          let ysv_ext0 := ysv_ext1 in
          let dy_ext1 := dy0 - #1 - SQUISH_CONSTANT in
          let dy_ext0 := dy_ext1 in
          (ysv_ext0, ysv_ext1, dy_ext0, dy_ext1) in
      let '(zsv_ext0, zsv_ext1, dz_ext0, dz_ext1) :=
        if negb (truthy (Z.land c1 4)) then
          let zsv_ext1 := zsb in
          let zsv_ext0 := zsv_ext1 in
          let dz_ext1 := dz0 - SQUISH_CONSTANT in
          let dz_ext0 := dz_ext1 in
          let '(zsv_ext0, dz_ext0, zsv_ext1, dz_ext1) :=
            if ((Z.land c1 3) =? 3)%Z then
              let zsv_ext0 := (zsv_ext0 - 1)%Z in
              let dz_ext0 := dz_ext0 + #1 in
              (zsv_ext0, dz_ext0, zsv_ext1, dz_ext1)
            else
              let zsv_ext1 := (zsv_ext1 - 1)%Z in
              let dz_ext1 := dz_ext1 + #1 in
              (zsv_ext0, dz_ext0, zsv_ext1, dz_ext1) in
          (zsv_ext0, zsv_ext1, dz_ext0, dz_ext1)
        else
          let zsv_ext1 := (zsb + 1)%Z in
          let zsv_ext0 := zsv_ext1 in
          let dz_ext1 := dz0 - #1 - SQUISH_CONSTANT in
          let dz_ext0 := dz_ext1 in
          (zsv_ext0, zsv_ext1, dz_ext0, dz_ext1) in
      let '(wsv_ext0, wsv_ext1, dw_ext0, dw_ext1) :=
        if negb (truthy (Z.land c1 8)) then
          let wsv_ext0 := wsb in
          let wsv_ext1 := (wsb - 1)%Z in
          let dw_ext0 := dw0 - SQUISH_CONSTANT in
          let dw_ext1 := dw0 + #1 - SQUISH_CONSTANT in
          (wsv_ext0, wsv_ext1, dw_ext0, dw_ext1)
        else
          let wsv_ext1 := (wsb + 1)%Z in
          let wsv_ext0 := wsv_ext1 in
          let dw_ext1 := dw0 - #1 - SQUISH_CONSTANT in
          let dw_ext0 := dw_ext1 in
          (wsv_ext0, wsv_ext1, dw_ext0, dw_ext1) in
      let xsv_ext2 := xsb in
      let ysv_ext2 := ysb in
      let zsv_ext2 := zsb in
      let wsv_ext2 := wsb in
      let dx_ext2 := dx0 - SQUISH_CONSTANT * #2 in
      let dy_ext2 := dy0 - SQUISH_CONSTANT * #2 in
      let dz_ext2 := dz0 - SQUISH_CONSTANT * #2 in
      let dw_ext2 := dw0 - SQUISH_CONSTANT * #2 in
      let '(xsv_ext2, dx_ext2, ysv_ext2, dy_ext2, zsv_ext2, dz_ext2, wsv_ext2,
            dw_ext2) :=
        if negb ((Z.land c2 1) =? 0)%Z then
          let xsv_ext2 := (xsv_ext2 + 2)%Z in
          let dx_ext2 := dx_ext2 - #2 in
          (xsv_ext2, dx_ext2, ysv_ext2, dy_ext2, zsv_ext2, dz_ext2, wsv_ext2, dw_ext2)
        else if negb ((Z.land c2 2) =? 0)%Z then
          let ysv_ext2 := (ysv_ext2 + 2)%Z in
          let dy_ext2 := dy_ext2 - #2 in
          (xsv_ext2, dx_ext2, ysv_ext2, dy_ext2, zsv_ext2, dz_ext2, wsv_ext2, dw_ext2)
        else if negb ((Z.land c2 4) =? 0)%Z then
          let zsv_ext2 := (zsv_ext2 + 2)%Z in
          let dz_ext2 := dz_ext2 - #2 in
          (xsv_ext2, dx_ext2, ysv_ext2, dy_ext2, zsv_ext2, dz_ext2, wsv_ext2, dw_ext2)
        else
          let wsv_ext2 := (wsv_ext2 + 2)%Z in
          let dw_ext2 := dw_ext2 - #2 in
          (xsv_ext2, dx_ext2, ysv_ext2, dy_ext2, zsv_ext2, dz_ext2, wsv_ext2,
           dw_ext2) in
      (xsv_ext0, xsv_ext1, dx_ext0, dx_ext1, ysv_ext0, ysv_ext1, dy_ext0, dy_ext1,
       zsv_ext0, zsv_ext1, dz_ext0, dz_ext1, wsv_ext0, wsv_ext1, dw_ext0, dw_ext1,
       xsv_ext2, ysv_ext2, zsv_ext2, wsv_ext2, dx_ext2, dy_ext2, dz_ext2, dw_ext2) in
  (xsv_ext0, ysv_ext0, zsv_ext0, wsv_ext0, xsv_ext1, ysv_ext1, zsv_ext1, wsv_ext1,
   xsv_ext2, ysv_ext2, zsv_ext2, wsv_ext2, dx_ext0, dy_ext0, dz_ext0, dw_ext0,
   dx_ext1, dy_ext1, dz_ext1, dw_ext1, dx_ext2, dy_ext2, dz_ext2, dw_ext2).

(** First dispentachoron: the ten contributions
    (lines 1749-1826 of the OSN header). *)
Definition dispenta0_contrib (perm : list Z) (value : T) (xsb ysb zsb wsb : Z)
    (dx0 dy0 dz0 dw0 : T) :
    option T :=
  let dx1 := dx0 - #1 - SQUISH_CONSTANT in
  let dy1 := dy0 - SQUISH_CONSTANT in
  let dz1 := dz0 - SQUISH_CONSTANT in
  let dw1 := dw0 - SQUISH_CONSTANT in
  let attn1 := dx1 * dx1 + dy1 * dy1 + dz1 * dz1 + dw1 * dw1 in
  e ← extrapolate perm (xsb + 1) ysb zsb wsb dx1 dy1 dz1 dw1;
  let value := value + fpow (fmax (#2 - attn1) #0) 4 * e in
  let dx2 := dx0 - SQUISH_CONSTANT in
  let dy2 := dy0 - #1 - SQUISH_CONSTANT in
  let dz2 := dz1 in
  let dw2 := dw1 in
  let attn2 := dx2 * dx2 + dy2 * dy2 + dz2 * dz2 + dw2 * dw2 in
  e ← extrapolate perm xsb (ysb + 1) zsb wsb dx2 dy2 dz2 dw2;
  let value := value + fpow (fmax (#2 - attn2) #0) 4 * e in
  let dx3 := dx2 in
  let dy3 := dy1 in
  let dz3 := dz0 - #1 - SQUISH_CONSTANT in
  let dw3 := dw1 in
  let attn3 := dx3 * dx3 + dy3 * dy3 + dz3 * dz3 + dw3 * dw3 in
  e ← extrapolate perm xsb ysb (zsb + 1) wsb dx3 dy3 dz3 dw3;
  let value := value + fpow (fmax (#2 - attn3) #0) 4 * e in
  let dx4 := dx2 in
  let dy4 := dy1 in
  let dz4 := dz1 in
  let dw4 := dw0 - #1 - SQUISH_CONSTANT in
  let attn4 := dx4 * dx4 + dy4 * dy4 + dz4 * dz4 + dw4 * dw4 in
  e ← extrapolate perm xsb ysb zsb (wsb + 1) dx4 dy4 dz4 dw4;
  let value := value + fpow (fmax (#2 - attn4) #0) 4 * e in
  let dx5 := dx0 - #1 - SQUISH_CONSTANT * #2 in
  let dy5 := dy0 - #1 - SQUISH_CONSTANT * #2 in
  let dz5 := dz0 - SQUISH_CONSTANT * #2 in
  let dw5 := dw0 - SQUISH_CONSTANT * #2 in
  let attn5 := dx5 * dx5 + dy5 * dy5 + dz5 * dz5 + dw5 * dw5 in
  e ← extrapolate perm (xsb + 1) (ysb + 1) zsb wsb dx5 dy5 dz5 dw5;
  let value := value + fpow (fmax (#2 - attn5) #0) 4 * e in
  let dx6 := dx0 - #1 - SQUISH_CONSTANT * #2 in
  let dy6 := dy0 - SQUISH_CONSTANT * #2 in
  let dz6 := dz0 - #1 - SQUISH_CONSTANT * #2 in
  let dw6 := dw0 - SQUISH_CONSTANT * #2 in
  let attn6 := dx6 * dx6 + dy6 * dy6 + dz6 * dz6 + dw6 * dw6 in
  e ← extrapolate perm (xsb + 1) ysb (zsb + 1) wsb dx6 dy6 dz6 dw6;
  let value := value + fpow (fmax (#2 - attn6) #0) 4 * e in
  let dx7 := dx0 - #1 - SQUISH_CONSTANT * #2 in
  let dy7 := dy0 - SQUISH_CONSTANT * #2 in
  let dz7 := dz0 - SQUISH_CONSTANT * #2 in
  let dw7 := dw0 - #1 - SQUISH_CONSTANT * #2 in
  let attn7 := dx7 * dx7 + dy7 * dy7 + dz7 * dz7 + dw7 * dw7 in
  e ← extrapolate perm (xsb + 1) ysb zsb (wsb + 1) dx7 dy7 dz7 dw7;
  let value := value + fpow (fmax (#2 - attn7) #0) 4 * e in
  let dx8 := dx0 - SQUISH_CONSTANT * #2 in
  let dy8 := dy0 - #1 - SQUISH_CONSTANT * #2 in
  let dz8 := dz0 - #1 - SQUISH_CONSTANT * #2 in
  let dw8 := dw0 - SQUISH_CONSTANT * #2 in
  let attn8 := dx8 * dx8 + dy8 * dy8 + dz8 * dz8 + dw8 * dw8 in
  e ← extrapolate perm xsb (ysb + 1) (zsb + 1) wsb dx8 dy8 dz8 dw8;
  let value := value + fpow (fmax (#2 - attn8) #0) 4 * e in
  let dx9 := dx0 - SQUISH_CONSTANT * #2 in
  let dy9 := dy0 - #1 - SQUISH_CONSTANT * #2 in
  let dz9 := dz0 - SQUISH_CONSTANT * #2 in
  let dw9 := dw0 - #1 - SQUISH_CONSTANT * #2 in
  let attn9 := dx9 * dx9 + dy9 * dy9 + dz9 * dz9 + dw9 * dw9 in
  e ← extrapolate perm xsb (ysb + 1) zsb (wsb + 1) dx9 dy9 dz9 dw9;
  let value := value + fpow (fmax (#2 - attn9) #0) 4 * e in
  let dx10 := dx0 - #2 * SQUISH_CONSTANT in
  let dy10 := dy0 - #2 * SQUISH_CONSTANT in
  let dz10 := dz0 - #1 - SQUISH_CONSTANT * #2 in
  let dw10 := dw0 - #1 - SQUISH_CONSTANT * #2 in
  let attn10 := dx10 * dx10 + dy10 * dy10 + dz10 * dz10 + dw10 * dw10 in
  e ← extrapolate perm xsb ysb (zsb + 1) (wsb + 1) dx10 dy10 dz10 dw10;
  let value := value + fpow (fmax (#2 - attn10) #0) 4 * e in
  Some value.

(** Second dispentachoron: the two closest points
    (lines 1831-1928 of the OSN header). *)
Definition dispenta1_closest (xins yins zins wins inSum : T) :
    Z * bool * Z * bool :=
  let aIsBiggerSide := true in
  let bIsBiggerSide := true in
  let '(aPoint, aScore) :=
    if xins + yins <? zins + wins then
      let aPoint := 12%Z in
      let aScore := xins + yins in
      (aPoint, aScore)
    else
      let aPoint := 3%Z in
      let aScore := zins + wins in
      (aPoint, aScore) in
  let '(bPoint, bScore) :=
    if xins + zins <? yins + wins then
      let bPoint := 10%Z in
      let bScore := xins + zins in
      (bPoint, bScore)
    else
      let bPoint := 5%Z in
      let bScore := yins + wins in
      (bPoint, bScore) in
  let '(bPoint, bScore, aPoint, aScore) :=
    if xins + wins <? yins + zins then
      let score := xins + wins in
      let '(bPoint, bScore, aPoint, aScore) :=
        if (aScore <=? bScore) && (score <? bScore) then
          let bPoint := 6%Z in
          let bScore := score in
          (bPoint, bScore, aPoint, aScore)
        else if (aScore >? bScore) && (score <? aScore) then
          let aPoint := 6%Z in
          let aScore := score in
          (bPoint, bScore, aPoint, aScore)
        else (bPoint, bScore, aPoint, aScore) in
      (bPoint, bScore, aPoint, aScore)
    else
      let score := yins + zins in
      let '(bPoint, bScore, aPoint, aScore) :=
        if (aScore <=? bScore) && (score <? bScore) then
          let bPoint := 9%Z in
          let bScore := score in
          (bPoint, bScore, aPoint, aScore)
        else if (aScore >? bScore) && (score <? aScore) then
          let aPoint := 9%Z in
          let aScore := score in
          (bPoint, bScore, aPoint, aScore)
        else (bPoint, bScore, aPoint, aScore) in
      (bPoint, bScore, aPoint, aScore) in
  let p1 := #3 - inSum + xins in
  let '(bPoint, bScore, bIsBiggerSide, aPoint, aScore, aIsBiggerSide) :=
    if (aScore <=? bScore) && (p1 <? bScore) then
      let bPoint := 14%Z in
      let bScore := p1 in
      let bIsBiggerSide := false in
      (bPoint, bScore, bIsBiggerSide, aPoint, aScore, aIsBiggerSide)
    else if (aScore >? bScore) && (p1 <? aScore) then
      let aPoint := 14%Z in
      let aScore := p1 in
      let aIsBiggerSide := false in
      (bPoint, bScore, bIsBiggerSide, aPoint, aScore, aIsBiggerSide)
    else (bPoint, bScore, bIsBiggerSide, aPoint, aScore, aIsBiggerSide) in
  let p2 := #3 - inSum + yins in
  let '(bPoint, bScore, bIsBiggerSide, aPoint, aScore, aIsBiggerSide) :=
    if (aScore <=? bScore) && (p2 <? bScore) then
      let bPoint := 13%Z in
      let bScore := p2 in
      let bIsBiggerSide := false in
      (bPoint, bScore, bIsBiggerSide, aPoint, aScore, aIsBiggerSide)
    else if (aScore >? bScore) && (p2 <? aScore) then
      let aPoint := 13%Z in
      let aScore := p2 in
      let aIsBiggerSide := false in
      (bPoint, bScore, bIsBiggerSide, aPoint, aScore, aIsBiggerSide)
    else (bPoint, bScore, bIsBiggerSide, aPoint, aScore, aIsBiggerSide) in
  let p3 := #3 - inSum + zins in
  let '(bPoint, bScore, bIsBiggerSide, aPoint, aScore, aIsBiggerSide) :=
    if (aScore <=? bScore) && (p3 <? bScore) then
      let bPoint := 11%Z in
      let bScore := p3 in
      let bIsBiggerSide := false in
      (bPoint, bScore, bIsBiggerSide, aPoint, aScore, aIsBiggerSide)
    else if (aScore >? bScore) && (p3 <? aScore) then
      let aPoint := 11%Z in
      let aScore := p3 in
      let aIsBiggerSide := false in
      (bPoint, bScore, bIsBiggerSide, aPoint, aScore, aIsBiggerSide)
    else (bPoint, bScore, bIsBiggerSide, aPoint, aScore, aIsBiggerSide) in
  let p4 := #3 - inSum + wins in
  let '(bPoint, bIsBiggerSide, aPoint, aIsBiggerSide) :=
    if (aScore <=? bScore) && (p4 <? bScore) then
      let bPoint := 7%Z in
      let bScore := p4 in
      let bIsBiggerSide := false in
      (bPoint, bIsBiggerSide, aPoint, aIsBiggerSide)
    else if (aScore >? bScore) && (p4 <? aScore) then
      let aPoint := 7%Z in
      let aScore := p4 in
      let aIsBiggerSide := false in
      (bPoint, bIsBiggerSide, aPoint, aIsBiggerSide)
    else (bPoint, bIsBiggerSide, aPoint, aIsBiggerSide) in
  (aPoint, aIsBiggerSide, bPoint, bIsBiggerSide).

(** Second dispentachoron: the three extra vertices
    (lines 1931-2146 of the OSN header). *)
Definition dispenta1_ext (xsb ysb zsb wsb : Z) (dx0 dy0 dz0 dw0 : T)
    (aPoint : Z) (aIsBiggerSide : bool) (bPoint : Z) (bIsBiggerSide : bool) :
    Z * Z * Z * Z * Z * Z * Z * Z * Z * Z * Z * Z * T * T * T * T * T * T * T * T *
    T * T * T * T :=
  let '(xsv_ext0, xsv_ext1, ysv_ext0, ysv_ext1, zsv_ext0, zsv_ext1, wsv_ext0,
        wsv_ext1, dx_ext0, dy_ext0, dz_ext0, dw_ext0, dx_ext1, dy_ext1, dz_ext1,
        dw_ext1, xsv_ext2, ysv_ext2, zsv_ext2, wsv_ext2, dx_ext2, dy_ext2, dz_ext2,
        dw_ext2) :=
    if Bool.eqb aIsBiggerSide bIsBiggerSide then
      let '(xsv_ext0, xsv_ext1, ysv_ext0, ysv_ext1, zsv_ext0, zsv_ext1, wsv_ext0,
            wsv_ext1, dx_ext0, dy_ext0, dz_ext0, dw_ext0, dx_ext1, dy_ext1, dz_ext1,
            dw_ext1, xsv_ext2, ysv_ext2, zsv_ext2, wsv_ext2, dx_ext2, dy_ext2,
            dz_ext2, dw_ext2) :=
        if aIsBiggerSide then
          let c1 := (Z.land aPoint bPoint) in
          let c2 := (Z.lor aPoint bPoint) in
          let xsv_ext1 := xsb in
          let xsv_ext0 := xsv_ext1 in
          let ysv_ext1 := ysb in
          let ysv_ext0 := ysv_ext1 in
          let zsv_ext1 := zsb in
          let zsv_ext0 := zsv_ext1 in
          let wsv_ext1 := wsb in
          let wsv_ext0 := wsv_ext1 in
          let dx_ext0 := dx0 - SQUISH_CONSTANT in
          let dy_ext0 := dy0 - SQUISH_CONSTANT in
          let dz_ext0 := dz0 - SQUISH_CONSTANT in
          let dw_ext0 := dw0 - SQUISH_CONSTANT in
          let dx_ext1 := dx0 - SQUISH_CONSTANT * #2 in
          let dy_ext1 := dy0 - SQUISH_CONSTANT * #2 in
          let dz_ext1 := dz0 - SQUISH_CONSTANT * #2 in
          let dw_ext1 := dw0 - SQUISH_CONSTANT * #2 in
          let '(xsv_ext0, dx_ext0, xsv_ext1, dx_ext1, ysv_ext0, dy_ext0, ysv_ext1,
                dy_ext1, zsv_ext0, dz_ext0, zsv_ext1, dz_ext1, wsv_ext0, dw_ext0,
                wsv_ext1, dw_ext1) :=
            if truthy (Z.land c1 1) then
              let xsv_ext0 := (xsv_ext0 + 1)%Z in
              let dx_ext0 := dx_ext0 - #1 in
              let xsv_ext1 := (xsv_ext1 + 2)%Z in
              let dx_ext1 := dx_ext1 - #2 in
              (xsv_ext0, dx_ext0, xsv_ext1, dx_ext1, ysv_ext0, dy_ext0, ysv_ext1,
               dy_ext1, zsv_ext0, dz_ext0, zsv_ext1, dz_ext1, wsv_ext0, dw_ext0,
               wsv_ext1, dw_ext1)
            else if truthy (Z.land c1 2) then
              let ysv_ext0 := (ysv_ext0 + 1)%Z in
              let dy_ext0 := dy_ext0 - #1 in
              let ysv_ext1 := (ysv_ext1 + 2)%Z in
              let dy_ext1 := dy_ext1 - #2 in
              (xsv_ext0, dx_ext0, xsv_ext1, dx_ext1, ysv_ext0, dy_ext0, ysv_ext1,
               dy_ext1, zsv_ext0, dz_ext0, zsv_ext1, dz_ext1, wsv_ext0, dw_ext0,
               wsv_ext1, dw_ext1)
            else if truthy (Z.land c1 4) then
              let zsv_ext0 := (zsv_ext0 + 1)%Z in
              let dz_ext0 := dz_ext0 - #1 in
              let zsv_ext1 := (zsv_ext1 + 2)%Z in
              let dz_ext1 := dz_ext1 - #2 in
              (xsv_ext0, dx_ext0, xsv_ext1, dx_ext1, ysv_ext0, dy_ext0, ysv_ext1,
               dy_ext1, zsv_ext0, dz_ext0, zsv_ext1, dz_ext1, wsv_ext0, dw_ext0,
               wsv_ext1, dw_ext1)
            else
              let wsv_ext0 := (wsv_ext0 + 1)%Z in
              let dw_ext0 := dw_ext0 - #1 in
              let wsv_ext1 := (wsv_ext1 + 2)%Z in
              let dw_ext1 := dw_ext1 - #2 in
              (xsv_ext0, dx_ext0, xsv_ext1, dx_ext1, ysv_ext0, dy_ext0, ysv_ext1,
               dy_ext1, zsv_ext0, dz_ext0, zsv_ext1, dz_ext1, wsv_ext0, dw_ext0,
               wsv_ext1, dw_ext1) in
          let xsv_ext2 := (xsb + 1)%Z in
          let ysv_ext2 := (ysb + 1)%Z in
          let zsv_ext2 := (zsb + 1)%Z in
          let wsv_ext2 := (wsb + 1)%Z in
          let dx_ext2 := dx0 - #1 - SQUISH_CONSTANT * #2 in
          let dy_ext2 := dy0 - #1 - SQUISH_CONSTANT * #2 in
          let dz_ext2 := dz0 - #1 - SQUISH_CONSTANT * #2 in
          let dw_ext2 := dw0 - #1 - SQUISH_CONSTANT * #2 in
          let '(xsv_ext2, dx_ext2, ysv_ext2, dy_ext2, zsv_ext2, dz_ext2, wsv_ext2,
                dw_ext2) :=
            if negb (truthy (Z.land c2 1)) then
              let xsv_ext2 := (xsv_ext2 - 2)%Z in
              let dx_ext2 := dx_ext2 + #2 in
              (xsv_ext2, dx_ext2, ysv_ext2, dy_ext2, zsv_ext2, dz_ext2, wsv_ext2,
               dw_ext2)
            else if negb (truthy (Z.land c2 2)) then
              let ysv_ext2 := (ysv_ext2 - 2)%Z in
              let dy_ext2 := dy_ext2 + #2 in
              (xsv_ext2, dx_ext2, ysv_ext2, dy_ext2, zsv_ext2, dz_ext2, wsv_ext2,
               dw_ext2)
            else if negb (truthy (Z.land c2 4)) then
              let zsv_ext2 := (zsv_ext2 - 2)%Z in
              let dz_ext2 := dz_ext2 + #2 in
              (xsv_ext2, dx_ext2, ysv_ext2, dy_ext2, zsv_ext2, dz_ext2, wsv_ext2,
               dw_ext2)
            else
              let wsv_ext2 := (wsv_ext2 - 2)%Z in
              let dw_ext2 := dw_ext2 + #2 in
              (xsv_ext2, dx_ext2, ysv_ext2, dy_ext2, zsv_ext2, dz_ext2, wsv_ext2,
               dw_ext2) in
          (xsv_ext0, xsv_ext1, ysv_ext0, ysv_ext1, zsv_ext0, zsv_ext1, wsv_ext0,
           wsv_ext1, dx_ext0, dy_ext0, dz_ext0, dw_ext0, dx_ext1, dy_ext1, dz_ext1,
           dw_ext1, xsv_ext2, ysv_ext2, zsv_ext2, wsv_ext2, dx_ext2, dy_ext2, dz_ext2,
           dw_ext2)
        else
          let xsv_ext2 := (xsb + 1)%Z in
          let ysv_ext2 := (ysb + 1)%Z in
          let zsv_ext2 := (zsb + 1)%Z in
          let wsv_ext2 := (wsb + 1)%Z in
          let dx_ext2 := dx0 - #1 - SQUISH_CONSTANT * #4 in
          let dy_ext2 := dy0 - #1 - SQUISH_CONSTANT * #4 in
          let dz_ext2 := dz0 - #1 - SQUISH_CONSTANT * #4 in
          let dw_ext2 := dw0 - #1 - SQUISH_CONSTANT * #4 in
          let c := (Z.land aPoint bPoint) in
          let '(xsv_ext0, xsv_ext1, dx_ext0, dx_ext1) :=
            if truthy (Z.land c 1) then
              let xsv_ext0 := (xsb + 2)%Z in
              let xsv_ext1 := (xsb + 1)%Z in
              let dx_ext0 := dx0 - #2 - SQUISH_CONSTANT * #3 in
              let dx_ext1 := dx0 - #1 - SQUISH_CONSTANT * #3 in
              (xsv_ext0, xsv_ext1, dx_ext0, dx_ext1)
            else
              let xsv_ext1 := xsb in
              let xsv_ext0 := xsv_ext1 in
              let dx_ext1 := dx0 - SQUISH_CONSTANT * #3 in
              let dx_ext0 := dx_ext1 in
              (xsv_ext0, xsv_ext1, dx_ext0, dx_ext1) in
          let '(ysv_ext0, ysv_ext1, dy_ext0, dy_ext1) :=
            if truthy (Z.land c 2) then
              let ysv_ext1 := (ysb + 1)%Z in
              let ysv_ext0 := ysv_ext1 in
              let dy_ext1 := dy0 - #1 - SQUISH_CONSTANT * #3 in
              let dy_ext0 := dy_ext1 in
              let '(ysv_ext0, dy_ext0, ysv_ext1, dy_ext1) :=
                if negb (truthy (Z.land c 1)) then
                  let ysv_ext0 := (ysv_ext0 + 1)%Z in
                  let dy_ext0 := dy_ext0 - #1 in
                  (ysv_ext0, dy_ext0, ysv_ext1, dy_ext1)
                else
                  let ysv_ext1 := (ysv_ext1 + 1)%Z in
                  let dy_ext1 := dy_ext1 - #1 in
                  (ysv_ext0, dy_ext0, ysv_ext1, dy_ext1) in
              (ysv_ext0, ysv_ext1, dy_ext0, dy_ext1)
            else
              let ysv_ext1 := ysb in
              let ysv_ext0 := ysv_ext1 in
              let dy_ext1 := dy0 - SQUISH_CONSTANT * #3 in
              let dy_ext0 := dy_ext1 in
              (ysv_ext0, ysv_ext1, dy_ext0, dy_ext1) in
          let '(zsv_ext0, zsv_ext1, dz_ext0, dz_ext1) :=
            if truthy (Z.land c 4) then
              let zsv_ext1 := (zsb + 1)%Z in
              let zsv_ext0 := zsv_ext1 in
              let dz_ext1 := dz0 - #1 - SQUISH_CONSTANT * #3 in
              let dz_ext0 := dz_ext1 in
              let '(zsv_ext0, dz_ext0, zsv_ext1, dz_ext1) :=
                if negb (truthy (Z.land c 3)) then
                  let zsv_ext0 := (zsv_ext0 + 1)%Z in
                  let dz_ext0 := dz_ext0 - #1 in
                  (zsv_ext0, dz_ext0, zsv_ext1, dz_ext1)
                else
                  let zsv_ext1 := (zsv_ext1 + 1)%Z in
                  let dz_ext1 := dz_ext1 - #1 in
                  (zsv_ext0, dz_ext0, zsv_ext1, dz_ext1) in
              (zsv_ext0, zsv_ext1, dz_ext0, dz_ext1)
            else
              let zsv_ext1 := zsb in
              let zsv_ext0 := zsv_ext1 in
              let dz_ext1 := dz0 - SQUISH_CONSTANT * #3 in
              let dz_ext0 := dz_ext1 in
              (zsv_ext0, zsv_ext1, dz_ext0, dz_ext1) in
          let '(wsv_ext0, wsv_ext1, dw_ext0, dw_ext1) :=
            if truthy (Z.land c 8) then
              let wsv_ext0 := (wsb + 1)%Z in
              let wsv_ext1 := (wsb + 2)%Z in
              let dw_ext0 := dw0 - #1 - SQUISH_CONSTANT * #3 in
              let dw_ext1 := dw0 - #2 - SQUISH_CONSTANT * #3 in
              (wsv_ext0, wsv_ext1, dw_ext0, dw_ext1)
            else
              let wsv_ext1 := wsb in
              let wsv_ext0 := wsv_ext1 in
              let dw_ext1 := dw0 - SQUISH_CONSTANT * #3 in
              let dw_ext0 := dw_ext1 in
              (wsv_ext0, wsv_ext1, dw_ext0, dw_ext1) in
          (xsv_ext0, xsv_ext1, ysv_ext0, ysv_ext1, zsv_ext0, zsv_ext1, wsv_ext0,
           wsv_ext1, dx_ext0, dy_ext0, dz_ext0, dw_ext0, dx_ext1, dy_ext1, dz_ext1,
           dw_ext1, xsv_ext2, ysv_ext2, zsv_ext2, wsv_ext2, dx_ext2, dy_ext2, dz_ext2,
           dw_ext2) in
      (xsv_ext0, xsv_ext1, ysv_ext0, ysv_ext1, zsv_ext0, zsv_ext1, wsv_ext0, wsv_ext1,
       dx_ext0, dy_ext0, dz_ext0, dw_ext0, dx_ext1, dy_ext1, dz_ext1, dw_ext1,
       xsv_ext2, ysv_ext2, zsv_ext2, wsv_ext2, dx_ext2, dy_ext2, dz_ext2, dw_ext2)
    else
      let '(c1, c2) :=
        if aIsBiggerSide then
          let c1 := aPoint in
          let c2 := bPoint in
          (c1, c2)
        else
          let c1 := bPoint in
          let c2 := aPoint in
          (c1, c2) in
      let '(xsv_ext0, xsv_ext1, dx_ext0, dx_ext1) :=
        if truthy (Z.land c1 1) then
          let xsv_ext0 := (xsb + 2)%Z in
          let xsv_ext1 := (xsb + 1)%Z in
          let dx_ext0 := dx0 - #2 - SQUISH_CONSTANT * #3 in
          let dx_ext1 := dx0 - #1 - SQUISH_CONSTANT * #3 in
          (xsv_ext0, xsv_ext1, dx_ext0, dx_ext1)
        else
          let xsv_ext1 := xsb in
          let xsv_ext0 := xsv_ext1 in
          let dx_ext1 := dx0 - SQUISH_CONSTANT * #3 in
          let dx_ext0 := dx_ext1 in
          (xsv_ext0, xsv_ext1, dx_ext0, dx_ext1) in
      let '(ysv_ext0, ysv_ext1, dy_ext0, dy_ext1) :=
        if truthy (Z.land c1 2) then
          let ysv_ext1 := (ysb + 1)%Z in
          let ysv_ext0 := ysv_ext1 in
          let dy_ext1 := dy0 - #1 - SQUISH_CONSTANT * #3 in
          let dy_ext0 := dy_ext1 in
          let '(ysv_ext0, dy_ext0, ysv_ext1, dy_ext1) :=
            if negb (truthy (Z.land c1 1)) then
              let ysv_ext0 := (ysv_ext0 + 1)%Z in
              let dy_ext0 := dy_ext0 - #1 in
              (ysv_ext0, dy_ext0, ysv_ext1, dy_ext1)
            else
              let ysv_ext1 := (ysv_ext1 + 1)%Z in
              let dy_ext1 := dy_ext1 - #1 in
              (ysv_ext0, dy_ext0, ysv_ext1, dy_ext1) in
          (ysv_ext0, ysv_ext1, dy_ext0, dy_ext1)
        else
          let ysv_ext1 := ysb in
          let ysv_ext0 := ysv_ext1 in
          let dy_ext1 := dy0 - SQUISH_CONSTANT * #3 in
          let dy_ext0 := dy_ext1 in
          (ysv_ext0, ysv_ext1, dy_ext0, dy_ext1) in
      let '(zsv_ext0, zsv_ext1, dz_ext0, dz_ext1) :=
        if truthy (Z.land c1 4) then
          let zsv_ext1 := (zsb + 1)%Z in
          let zsv_ext0 := zsv_ext1 in
          let dz_ext1 := dz0 - #1 - SQUISH_CONSTANT * #3 in
          let dz_ext0 := dz_ext1 in
          let '(zsv_ext0, dz_ext0, zsv_ext1, dz_ext1) :=
            if negb (truthy (Z.land c1 3)) then
              let zsv_ext0 := (zsv_ext0 + 1)%Z in
              let dz_ext0 := dz_ext0 - #1 in
              (zsv_ext0, dz_ext0, zsv_ext1, dz_ext1)
            else
              let zsv_ext1 := (zsv_ext1 + 1)%Z in
              let dz_ext1 := dz_ext1 - #1 in
              (zsv_ext0, dz_ext0, zsv_ext1, dz_ext1) in
          (zsv_ext0, zsv_ext1, dz_ext0, dz_ext1)
        else
          let zsv_ext1 := zsb in
          let zsv_ext0 := zsv_ext1 in
          let dz_ext1 := dz0 - #3 * (SQUISH_CONSTANT * #3) in
          let dz_ext0 := dz_ext1 in
          (zsv_ext0, zsv_ext1, dz_ext0, dz_ext1) in
      let '(wsv_ext0, wsv_ext1, dw_ext0, dw_ext1) :=
        if truthy (Z.land c1 8) then
          let wsv_ext0 := (wsb + 1)%Z in
          let wsv_ext1 := (wsb + 2)%Z in
          let dw_ext0 := dw0 - #1 - SQUISH_CONSTANT * #3 in
          let dw_ext1 := dw0 - #2 - SQUISH_CONSTANT * #3 in
          (wsv_ext0, wsv_ext1, dw_ext0, dw_ext1)
        else
          let wsv_ext1 := wsb in
          let wsv_ext0 := wsv_ext1 in
          let dw_ext1 := dw0 - SQUISH_CONSTANT * #3 in
          let dw_ext0 := dw_ext1 in
          (wsv_ext0, wsv_ext1, dw_ext0, dw_ext1) in
      let xsv_ext2 := (xsb + 1)%Z in
      let ysv_ext2 := (ysb + 1)%Z in
      let zsv_ext2 := (zsb + 1)%Z in
      let wsv_ext2 := (wsb + 1)%Z in
      let dx_ext2 := dx0 - #1 - SQUISH_CONSTANT * #2 in
      let dy_ext2 := dy0 - #1 - SQUISH_CONSTANT * #2 in
      let dz_ext2 := dz0 - #1 - SQUISH_CONSTANT * #2 in
      let dw_ext2 := dw0 - #1 - SQUISH_CONSTANT * #2 in
      let '(xsv_ext2, dx_ext2, ysv_ext2, dy_ext2, zsv_ext2, dz_ext2, wsv_ext2,
            dw_ext2) :=
        if negb (truthy (Z.land c2 1)) then
          let xsv_ext2 := (xsv_ext2 - 2)%Z in
          let dx_ext2 := dx_ext2 + #2 in
          (xsv_ext2, dx_ext2, ysv_ext2, dy_ext2, zsv_ext2, dz_ext2, wsv_ext2, dw_ext2)
        else if negb (truthy (Z.land c2 2)) then
          let ysv_ext2 := (ysv_ext2 - 2)%Z in
          let dy_ext2 := dy_ext2 + #2 in
          (xsv_ext2, dx_ext2, ysv_ext2, dy_ext2, zsv_ext2, dz_ext2, wsv_ext2, dw_ext2)
        else if negb (truthy (Z.land c2 4)) then
          let zsv_ext2 := (zsv_ext2 - 2)%Z in
          let dz_ext2 := dz_ext2 + #2 in
          (xsv_ext2, dx_ext2, ysv_ext2, dy_ext2, zsv_ext2, dz_ext2, wsv_ext2, dw_ext2)
        else
          let wsv_ext2 := (wsv_ext2 - 2)%Z in
          let dw_ext2 := dw_ext2 + #2 in
          (xsv_ext2, dx_ext2, ysv_ext2, dy_ext2, zsv_ext2, dz_ext2, wsv_ext2,
           dw_ext2) in
      (xsv_ext0, xsv_ext1, ysv_ext0, ysv_ext1, zsv_ext0, zsv_ext1, wsv_ext0, wsv_ext1,
       dx_ext0, dy_ext0, dz_ext0, dw_ext0, dx_ext1, dy_ext1, dz_ext1, dw_ext1,
       xsv_ext2, ysv_ext2, zsv_ext2, wsv_ext2, dx_ext2, dy_ext2, dz_ext2, dw_ext2) in
  (xsv_ext0, ysv_ext0, zsv_ext0, wsv_ext0, xsv_ext1, ysv_ext1, zsv_ext1, wsv_ext1,
   xsv_ext2, ysv_ext2, zsv_ext2, wsv_ext2, dx_ext0, dy_ext0, dz_ext0, dw_ext0,
   dx_ext1, dy_ext1, dz_ext1, dw_ext1, dx_ext2, dy_ext2, dz_ext2, dw_ext2).

(** Second dispentachoron: the ten contributions
    (lines 2149-2242 of the OSN header). *)
Definition dispenta1_contrib (perm : list Z) (value : T) (xsb ysb zsb wsb : Z)
    (dx0 dy0 dz0 dw0 : T) :
    option T :=
  let dx4 := dx0 - #1 - SQUISH_CONSTANT * #3 in
  let dy4 := dy0 - #1 - SQUISH_CONSTANT * #3 in
  let dz4 := dz0 - #1 - SQUISH_CONSTANT * #3 in
  let dw4 := dw0 - SQUISH_CONSTANT * #3 in
  let attn4 := dx4 * dx4 + dy4 * dy4 + dz4 * dz4 + dw4 * dw4 in
  e ← extrapolate perm (xsb + 1) (ysb + 1) (zsb + 1) wsb dx4 dy4 dz4 dw4;
  let value := value + fpow (fmax (#2 - attn4) #0) 4 * e in
  let dx3 := dx4 in
  let dy3 := dy4 in
  let dz3 := dz0 - SQUISH_CONSTANT * #3 in
  let dw3 := dw0 - #1 - SQUISH_CONSTANT * #3 in
  let attn3 := dx3 * dx3 + dy3 * dy3 + dz3 * dz3 + dw3 * dw3 in
  e ← extrapolate perm (xsb + 1) (ysb + 1) zsb (wsb + 1) dx3 dy3 dz3 dw3;
  let value := value + fpow (fmax (#2 - attn3) #0) 4 * e in
  let dx2 := dx4 in
  let dy2 := dy0 - SQUISH_CONSTANT * #3 in
  let dz2 := dz4 in
  let dw2 := dw3 in
  let attn2 := dx2 * dx2 + dy2 * dy2 + dz2 * dz2 + dw2 * dw2 in
  e ← extrapolate perm (xsb + 1) ysb (zsb + 1) (wsb + 1) dx2 dy2 dz2 dw2;
  let value := value + fpow (fmax (#2 - attn2) #0) 4 * e in
  let dx1 := dx0 - SQUISH_CONSTANT * #3 in
  let dz1 := dz4 in
  let dy1 := dy4 in
  let dw1 := dw3 in
  let attn1 := dx1 * dx1 + dy1 * dy1 + dz1 * dz1 + dw1 * dw1 in
  e ← extrapolate perm xsb (ysb + 1) (zsb + 1) (wsb + 1) dx1 dy1 dz1 dw1;
  let value := value + fpow (fmax (#2 - attn1) #0) 4 * e in
  let dx5 := dx0 - #1 - SQUISH_CONSTANT * #2 in
  let dy5 := dy0 - #1 - SQUISH_CONSTANT * #2 in
  let dz5 := dz0 - SQUISH_CONSTANT * #2 in
  let dw5 := dw0 - SQUISH_CONSTANT * #2 in
  let attn5 := dx5 * dx5 + dy5 * dy5 + dz5 * dz5 + dw5 * dw5 in
  e ← extrapolate perm (xsb + 1) (ysb + 1) zsb wsb dx5 dy5 dz5 dw5;
  let value := value + fpow (fmax (#2 - attn5) #0) 4 * e in
  let dx6 := dx0 - #1 - SQUISH_CONSTANT * #2 in
  let dy6 := dy0 - SQUISH_CONSTANT * #2 in
  let dz6 := dz0 - #1 - SQUISH_CONSTANT * #2 in
  let dw6 := dw0 - SQUISH_CONSTANT * #2 in
  let attn6 := dx6 * dx6 + dy6 * dy6 + dz6 * dz6 + dw6 * dw6 in
  e ← extrapolate perm (xsb + 1) ysb (zsb + 1) wsb dx6 dy6 dz6 dw6;
  let value := value + fpow (fmax (#2 - attn6) #0) 4 * e in
  let dx7 := dx0 - #1 - SQUISH_CONSTANT * #2 in
  let dy7 := dy0 - SQUISH_CONSTANT * #2 in
  let dz7 := dz0 - SQUISH_CONSTANT * #2 in
  let dw7 := dw0 - #1 - SQUISH_CONSTANT * #2 in
  let attn7 := dx7 * dx7 + dy7 * dy7 + dz7 * dz7 + dw7 * dw7 in
  e ← extrapolate perm (xsb + 1) ysb zsb (wsb + 1) dx7 dy7 dz7 dw7;
  let value := value + fpow (fmax (#2 - attn7) #0) 4 * e in
  let dx8 := dx0 - SQUISH_CONSTANT * #2 in
  let dy8 := dy0 - #1 - SQUISH_CONSTANT * #2 in
  let dz8 := dz0 - #1 - SQUISH_CONSTANT * #2 in
  let dw8 := dw0 - SQUISH_CONSTANT * #2 in
  let attn8 := dx8 * dx8 + dy8 * dy8 + dz8 * dz8 + dw8 * dw8 in
  e ← extrapolate perm xsb (ysb + 1) (zsb + 1) wsb dx8 dy8 dz8 dw8;
  let value := value + fpow (fmax (#2 - attn8) #0) 4 * e in
  let dx9 := dx0 - SQUISH_CONSTANT * #2 in
  let dy9 := dy0 - #1 - SQUISH_CONSTANT * #2 in
  let dz9 := dz0 - SQUISH_CONSTANT * #2 in
  let dw9 := dw0 - #1 - SQUISH_CONSTANT * #2 in
  let attn9 := dx9 * dx9 + dy9 * dy9 + dz9 * dz9 + dw9 * dw9 in
  e ← extrapolate perm xsb (ysb + 1) zsb (wsb + 1) dx9 dy9 dz9 dw9;
  let value := value + fpow (fmax (#2 - attn9) #0) 4 * e in
  let dx10 := dx0 - SQUISH_CONSTANT * #2 in
  let dy10 := dy0 - SQUISH_CONSTANT * #2 in
  let dz10 := dz0 - #1 - SQUISH_CONSTANT * #2 in
  let dw10 := dw0 - #1 - SQUISH_CONSTANT * #2 in
  let attn10 := dx10 * dx10 + dy10 * dy10 + dz10 * dz10 + dw10 * dw10 in
  e ← extrapolate perm xsb ysb (zsb + 1) (wsb + 1) dx10 dy10 dz10 dw10;
  let value := value + fpow (fmax (#2 - attn10) #0) 4 * e in
  Some value.

(** The contributions of the three extra vertices
    (lines 2246-2255 of the OSN header). *)
Definition extra (perm : list Z) (value : T)
    (xsv_ext0 ysv_ext0 zsv_ext0 wsv_ext0 xsv_ext1 ysv_ext1 zsv_ext1 wsv_ext1 xsv_ext2 ysv_ext2 zsv_ext2 wsv_ext2 : Z)
    (dx_ext0 dy_ext0 dz_ext0 dw_ext0 dx_ext1 dy_ext1 dz_ext1 dw_ext1 dx_ext2 dy_ext2 dz_ext2 dw_ext2 : T) :
    option T :=
  let attn_ext0 := dx_ext0 * dx_ext0 + dy_ext0 * dy_ext0 + dz_ext0 * dz_ext0 + dw_ext0 * dw_ext0 in
  e ← extrapolate perm xsv_ext0 ysv_ext0 zsv_ext0 wsv_ext0 dx_ext0 dy_ext0 dz_ext0 dw_ext0;
  let value := value + fpow (fmax (#2 - attn_ext0) #0) 4 * e in
  let attn_ext1 := dx_ext1 * dx_ext1 + dy_ext1 * dy_ext1 + dz_ext1 * dz_ext1 + dw_ext1 * dw_ext1 in
  e ← extrapolate perm xsv_ext1 ysv_ext1 zsv_ext1 wsv_ext1 dx_ext1 dy_ext1 dz_ext1 dw_ext1;
  let value := value + fpow (fmax (#2 - attn_ext1) #0) 4 * e in
  let attn_ext2 := dx_ext2 * dx_ext2 + dy_ext2 * dy_ext2 + dz_ext2 * dz_ext2 + dw_ext2 * dw_ext2 in
  e ← extrapolate perm xsv_ext2 ysv_ext2 zsv_ext2 wsv_ext2 dx_ext2 dy_ext2 dz_ext2 dw_ext2;
  let value := value + fpow (fmax (#2 - attn_ext2) #0) 4 * e in
  Some value.

(** [T eval (T x, T y, T z, T w) const]. *)
Definition eval (perm : list Z) (x y z w : T) : option T :=
  let '(xsb, ysb, zsb, wsb, dx0, dy0, dz0, dw0, xins, yins, zins, wins) :=
    place x y z w in
  let value := #0 in
  let inSum := xins + yins + zins + wins in
  '(value, ext) ←
    (if inSum <=? #1 then
       let '(aPoint, aScore, bPoint, bScore) :=
         penta0_closest xins yins zins wins in
       let ext :=
         penta0_ext xsb ysb zsb wsb dx0 dy0 dz0 dw0 inSum
                    aPoint aScore bPoint bScore in
       value ← penta0_contrib perm xsb ysb zsb wsb dx0 dy0 dz0 dw0;
       Some (value, ext)
     else if inSum >=? #3 then
       let '(aPoint, aScore, bPoint, bScore) :=
         penta1_closest xins yins zins wins in
       let ext :=
         penta1_ext xsb ysb zsb wsb dx0 dy0 dz0 dw0 inSum
                    aPoint aScore bPoint bScore in
       value ← penta1_contrib perm xsb ysb zsb wsb dx0 dy0 dz0 dw0;
       Some (value, ext)
     else if inSum <=? #2 then
       let '(aPoint, aIsBiggerSide, bPoint, bIsBiggerSide) :=
         dispenta0_closest xins yins zins wins inSum in
       let ext :=
         dispenta0_ext xsb ysb zsb wsb dx0 dy0 dz0 dw0
                       aPoint aIsBiggerSide bPoint bIsBiggerSide in
       value ← dispenta0_contrib perm value xsb ysb zsb wsb dx0 dy0 dz0 dw0;
       Some (value, ext)
     else
       let '(aPoint, aIsBiggerSide, bPoint, bIsBiggerSide) :=
         dispenta1_closest xins yins zins wins inSum in
       let ext :=
         dispenta1_ext xsb ysb zsb wsb dx0 dy0 dz0 dw0
                       aPoint aIsBiggerSide bPoint bIsBiggerSide in
       value ← dispenta1_contrib perm value xsb ysb zsb wsb dx0 dy0 dz0 dw0;
       Some (value, ext));
  let '(xsv_ext0, ysv_ext0, zsv_ext0, wsv_ext0,
        xsv_ext1, ysv_ext1, zsv_ext1, wsv_ext1,
        xsv_ext2, ysv_ext2, zsv_ext2, wsv_ext2,
        dx_ext0, dy_ext0, dz_ext0, dw_ext0,
        dx_ext1, dy_ext1, dz_ext1, dw_ext1,
        dx_ext2, dy_ext2, dz_ext2, dw_ext2) := ext in
  value ← extra perm value
                 xsv_ext0 ysv_ext0 zsv_ext0 wsv_ext0
                 xsv_ext1 ysv_ext1 zsv_ext1 wsv_ext1
                 xsv_ext2 ysv_ext2 zsv_ext2 wsv_ext2
                 dx_ext0 dy_ext0 dz_ext0 dw_ext0
                 dx_ext1 dy_ext1 dz_ext1 dw_ext1
                 dx_ext2 dy_ext2 dz_ext2 dw_ext2;
  Some (value / NORM_CONSTANT).

End Eval.

End Noise4.

(** ** OpenSimplexNoise (the single-class header, 3D) *)

Module OpenSimplexNoise.

(** New gradient set 2014-09-19. *)
Definition gradients3D : list Z :=
  [
     0;  3;  2;  0;  2;  3;  3;  0;  2;  2;  0;  3;  3;  2;  0;  2;  3;  0;
     0; -3;  2;  0;  2; -3; -3;  0;  2;  2;  0; -3; -3;  2;  0;  2; -3;  0;
     0;  3; -2;  0; -2;  3;  3;  0; -2; -2;  0;  3;  3; -2;  0; -2;  3;  0;
     0; -3; -2;  0; -2; -3; -3;  0; -2; -2;  0; -3; -3; -2;  0; -2; -3;  0 ].

(** The standard permutation order of Ken Perlin's "Improved Noise". *)
Definition permDefault : list Z :=
  [
    151; 160; 137;  91;  90;  15; 131;  13; 201;  95;  96;  53; 194; 233;   7; 225;
    140;  36; 103;  30;  69; 142;   8;  99;  37; 240;  21;  10;  23; 190;   6; 148;
    247; 120; 234;  75;   0;  26; 197;  62;  94; 252; 219; 203; 117;  35;  11;  32;
     57; 177;  33;  88; 237; 149;  56;  87; 174;  20; 125; 136; 171; 168;  68; 175;
     74; 165;  71; 134; 139;  48;  27; 166;  77; 146; 158; 231;  83; 111; 229; 122;
     60; 211; 133; 230; 220; 105;  92;  41;  55;  46; 245;  40; 244; 102; 143;  54;
     65;  25;  63; 161;   1; 216;  80;  73; 209;  76; 132; 187; 208;  89;  18; 169;
    200; 196; 135; 130; 116; 188; 159;  86; 164; 100; 109; 198; 173; 186;   3;  64;
     52; 217; 226; 250; 124; 123;   5; 202;  38; 147; 118; 126; 255;  82;  85; 212;
    207; 206;  59; 227;  47;  16;  58;  17; 182; 189;  28;  42; 223; 183; 170; 213;
    119; 248; 152;   2;  44; 154; 163;  70; 221; 153; 101; 155; 167;  43; 172;   9;
    129;  22;  39; 253;  19;  98; 108; 110;  79; 113; 224; 232; 178; 185; 112; 104;
    218; 246;  97; 228; 251;  34; 242; 193; 238; 210; 144;  12; 191; 179; 162; 241;
     81;  51; 145; 235; 249;  14; 239; 107;  49; 192; 214;  31; 181; 199; 106; 157;
    184;  84; 204; 176; 115; 121;  50;  45; 127;   4; 150; 254; 138; 236; 205;  93;
    222; 114;  67;  29;  24;  72; 243; 141; 128; 195;  78;  66; 215;  61; 156; 180 ].

(** The two member arrays [perm] and [permGradIndex3D]. *)
Record noise := Noise {
  perm : list Z;
  permGradIndex3D : list Z
}.

(** [(int)((perm[i] % (72 / 3)) * 3)]. *)
Definition grad_index (p : Z) : Z := Z.rem p (Z.quot 72 3) * 3.

(** First loop of [OpenSimplexNoise (const int * p = permDefault)]. *)
Fixpoint copy_loop (k : nat) (i : Z) (p perm : list Z) : option (list Z) :=
  match k with
  | O => Some perm
  | S k' =>
      v ← load p i;
      perm ← store perm i v;
      copy_loop k' (i + 1)%Z p perm
  end.

(** Second loop: [permGradIndex3D[i] = (int)((perm[i] % (72 / 3)) * 3);]. *)
Fixpoint index_loop (k : nat) (i : Z) (perm pgi : list Z) : option (list Z) :=
  match k with
  | O => Some pgi
  | S k' =>
      pi ← load perm i;
      pgi ← store pgi i (grad_index pi);
      index_loop k' (i + 1)%Z perm pgi
  end.

(** [OpenSimplexNoise (const int * p = permDefault)]. *)
Definition of_table (p : list Z) (n0 : noise) : option noise :=
  perm ← copy_loop 256 0 p (perm n0);
  pgi ← index_loop 256 0 perm (permGradIndex3D n0);
  Some (Noise perm pgi).

(** The variables of the loop of [OpenSimplexNoise (int seed)].  The
    generator is the platform's: [st_rand] holds the values that the
    coming calls of [rand()] return after [srand(seed)]. *)
Record shuffle_state := ShuffleState {
  st_rand : list Z;
  st_source : list Z;
  st_noise : noise
}.

(** One iteration: [int r = (rand() % (i+1)); perm[i] = source[r];
    permGradIndex3D[i] = ...; source[r] = source[i];]. *)
Definition shuffle_step (i : Z) (st : shuffle_state) : option shuffle_state :=
  match st_rand st with
  | [] => None
  | x :: rand =>
      let r := Z.rem x (i + 1) in
      v ← load (st_source st) r;
      perm ← store (perm (st_noise st)) i v;
      pi ← load perm i;
      pgi ← store (permGradIndex3D (st_noise st)) i (grad_index pi);
      si ← load (st_source st) i;
      source ← store (st_source st) r si;
      Some (ShuffleState rand source (Noise perm pgi))
  end.

Fixpoint shuffle_loop (n : nat) (st : shuffle_state) : option shuffle_state :=
  match n with
  | O => Some st
  | S i => st' ← shuffle_step (Z.of_nat i) st; shuffle_loop i st'
  end.

(** [OpenSimplexNoise (int seed)], given the stream [rand] that the
    platform produces for the seed. *)
Definition of_rand (rand : list Z) (n0 : noise) : option noise :=
  st ← shuffle_loop 256 (ShuffleState rand (seqZ 0 256) n0);
  Some (st_noise st).

Section Eval.
Context {T : Type} {F : FloatOps T}.

(** [extrapolate (long xsb, long ysb, long zsb, double dx, double dy,
    double dz)]. *)
Definition extrapolate (n : noise) (xsb ysb zsb : Z) (dx dy dz : T) : option T :=
  h ← load (perm n) (Z.land xsb 0xFF);
  h ← load (perm n) (Z.land (h + ysb) 0xFF);
  i ← load (permGradIndex3D n) (Z.land (h + zsb) 0xFF);
  let index := u32 i in
  g0 ← load gradients3D index;
  g1 ← load gradients3D (u32 (index + 1));
  g2 ← load gradients3D (u32 (index + 2));
  Some (#g0 * dx + #g1 * dy + #g2 * dz).

Definition STRETCH_CONSTANT_3D : T := #(-1) / #6.
Definition SQUISH_CONSTANT_3D : T := #1 / #3.
(** [28.25] *)
Definition NORM_CONSTANT_3D : T := #113 / #4.

(** Octahedron: the six contributions (lines 336-387 of OpenSimplexNoise.hh). *)
Definition octa_contrib (n : noise) (value : T) (xsb ysb zsb : Z) (dx0 dy0 dz0 : T) :
    option T :=
  let dx1 := dx0 - #1 - SQUISH_CONSTANT_3D in
  let dy1 := dy0 - SQUISH_CONSTANT_3D in
  let dz1 := dz0 - SQUISH_CONSTANT_3D in
  let attn1 := dx1 * dx1 + dy1 * dy1 + dz1 * dz1 in
  value ←
    (if attn1 <? #2 then
      e ← extrapolate n (xsb + 1) ysb zsb dx1 dy1 dz1;
      let value := fpow (#2 - attn1) 4 * e in
      Some value
    else Some value);
  let dx2 := dx0 - SQUISH_CONSTANT_3D in
  let dy2 := dy0 - #1 - SQUISH_CONSTANT_3D in
  let dz2 := dz1 in
  let attn2 := dx2 * dx2 + dy2 * dy2 + dz2 * dz2 in
  value ←
    (if attn2 <? #2 then
      e ← extrapolate n xsb (ysb + 1) zsb dx2 dy2 dz2;
      let value := value + fpow (#2 - attn2) 4 * e in
      Some value
    else Some value);
  let dx3 := dx2 in
  let dy3 := dy1 in
  let dz3 := dz0 - #1 - SQUISH_CONSTANT_3D in
  let attn3 := dx3 * dx3 + dy3 * dy3 + dz3 * dz3 in
  value ←
    (if attn3 <? #2 then
      e ← extrapolate n xsb ysb (zsb + 1) dx3 dy3 dz3;
      let value := value + fpow (#2 - attn3) 4 * e in
      Some value
    else Some value);
  let dx4 := dx0 - #1 - SQUISH_CONSTANT_3D * #2 in
  let dy4 := dy0 - #1 - SQUISH_CONSTANT_3D * #2 in
  let dz4 := dz0 - SQUISH_CONSTANT_3D * #2 in
  let attn4 := dx4 * dx4 + dy4 * dy4 + dz4 * dz4 in
  value ←
    (if attn4 <? #2 then
      e ← extrapolate n (xsb + 1) (ysb + 1) (zsb + 0) dx4 dy4 dz4;
      let value := value + fpow (#2 - attn4) 4 * e in
      Some value
    else Some value);
  let dx5 := dx4 in
  let dy5 := dy0 - SQUISH_CONSTANT_3D * #2 in
  let dz5 := dz0 - #1 - SQUISH_CONSTANT_3D * #2 in
  let attn5 := dx5 * dx5 + dy5 * dy5 + dz5 * dz5 in
  value ←
    (if attn5 <? #2 then
      e ← extrapolate n (xsb + 1) ysb (zsb + 1) dx5 dy5 dz5;
      let value := value + fpow (#2 - attn5) 4 * e in
      Some value
    else Some value);
  let dx6 := dx0 - SQUISH_CONSTANT_3D * #2 in
  let dy6 := dy4 in
  let dz6 := dz5 in
  let attn6 := dx6 * dx6 + dy6 * dy6 + dz6 * dz6 in
  value ←
    (if attn6 <? #2 then
      e ← extrapolate n xsb (ysb + 1) (zsb + 1) dx6 dy6 dz6;
      let value := value + fpow (#2 - attn6) 4 * e in
      Some value
    else Some value);
  Some value.

(** Tetrahedron at (0,0,0): the four contributions
    (lines 488-518 of OpenSimplexNoise.hh). *)
Definition tetra0_contrib (n : noise) (value : T) (xsb ysb zsb : Z)
    (dx0 dy0 dz0 : T) :
    option T :=
  let attn0 := dx0 * dx0 + dy0 * dy0 + dz0 * dz0 in
  value ←
    (if attn0 <? #2 then
      e ← extrapolate n xsb ysb zsb dx0 dy0 dz0;
      let value := fpow (#2 - attn0) 4 * e in
      Some value
    else Some value);
  let dx1 := dx0 - #1 - SQUISH_CONSTANT_3D in
  let dy1 := dy0 - SQUISH_CONSTANT_3D in
  let dz1 := dz0 - SQUISH_CONSTANT_3D in
  let attn1 := dx1 * dx1 + dy1 * dy1 + dz1 * dz1 in
  value ←
    (if attn1 <? #2 then
      e ← extrapolate n (xsb + 1) ysb zsb dx1 dy1 dz1;
      let value := value + fpow (#2 - attn1) 4 * e in
      Some value
    else Some value);
  let dx2 := dx0 - SQUISH_CONSTANT_3D in
  let dy2 := dy0 - #1 - SQUISH_CONSTANT_3D in
  let dz2 := dz1 in
  let attn2 := dx2 * dx2 + dy2 * dy2 + dz2 * dz2 in
  value ←
    (if attn2 <? #2 then
      e ← extrapolate n xsb (ysb + 1) zsb dx2 dy2 dz2;
      let value := value + fpow (#2 - attn2) 4 * e in
      Some value
    else Some value);
  let dx3 := dx2 in
  let dy3 := dy1 in
  let dz3 := dz0 - #1 - SQUISH_CONSTANT_3D in
  let attn3 := dx3 * dx3 + dy3 * dy3 + dz3 * dz3 in
  value ←
    (if attn3 <? #2 then
      e ← extrapolate n xsb ysb (zsb + 1) dx3 dy3 dz3;
      let value := value + fpow (#2 - attn3) 4 * e in
      Some value
    else Some value);
  Some value.

(** Tetrahedron at (1,1,1): the four contributions
    (lines 620-653 of OpenSimplexNoise.hh). *)
Definition tetra1_contrib (n : noise) (value : T) (xsb ysb zsb : Z)
    (dx0 dy0 dz0 : T) :
    option T :=
  let dx3 := dx0 - #1 - SQUISH_CONSTANT_3D * #2 in
  let dy3 := dy0 - #1 - SQUISH_CONSTANT_3D * #2 in
  let dz3 := dz0 - SQUISH_CONSTANT_3D * #2 in
  let attn3 := dx3 * dx3 + dy3 * dy3 + dz3 * dz3 in
  value ←
    (if attn3 <? #2 then
      e ← extrapolate n (xsb + 1) (ysb + 1) zsb dx3 dy3 dz3;
      let value := fpow (#2 - attn3) 4 * e in
      Some value
    else Some value);
  let dx2 := dx3 in
  let dy2 := dy0 - SQUISH_CONSTANT_3D * #2 in
  let dz2 := dz0 - #1 - SQUISH_CONSTANT_3D * #2 in
  let attn2 := dx2 * dx2 + dy2 * dy2 + dz2 * dz2 in
  value ←
    (if attn2 <? #2 then
      e ← extrapolate n (xsb + 1) ysb (zsb + 1) dx2 dy2 dz2;
      let value := value + fpow (#2 - attn2) 4 * e in
      Some value
    else Some value);
  let dx1 := dx0 - SQUISH_CONSTANT_3D * #2 in
  let dy1 := dy3 in
  let dz1 := dz2 in
  let attn1 := dx1 * dx1 + dy1 * dy1 + dz1 * dz1 in
  value ←
    (if attn1 <? #2 then
      e ← extrapolate n xsb (ysb + 1) (zsb + 1) dx1 dy1 dz1;
      let value := value + fpow (#2 - attn1) 4 * e in
      Some value
    else Some value);
  let dx0 := dx0 - #1 - SQUISH_CONSTANT_3D * #3 in
  let dy0 := dy0 - #1 - SQUISH_CONSTANT_3D * #3 in
  let dz0 := dz0 - #1 - SQUISH_CONSTANT_3D * #3 in
  let attn0 := dx0 * dx0 + dy0 * dy0 + dz0 * dz0 in
  value ←
    (if attn0 <? #2 then
      e ← extrapolate n (xsb + 1) (ysb + 1) (zsb + 1) dx0 dy0 dz0;
      let value := value + fpow (#2 - attn0) 4 * e in
      Some value
    else Some value);
  Some value.

(** The contributions of the two extra vertices
    (lines 657-666 of OpenSimplexNoise.hh). *)
Definition extra (n : noise) (value : T)
    (xsv_ext0 ysv_ext0 zsv_ext0 xsv_ext1 ysv_ext1 zsv_ext1 : Z)
    (dx_ext0 dy_ext0 dz_ext0 dx_ext1 dy_ext1 dz_ext1 : T) :
    option T :=
  let attn_ext0 := dx_ext0 * dx_ext0 + dy_ext0 * dy_ext0 + dz_ext0 * dz_ext0 in
  value ←
    (if attn_ext0 <? #2 then
      e ← extrapolate n xsv_ext0 ysv_ext0 zsv_ext0 dx_ext0 dy_ext0 dz_ext0;
      let value := value + fpow (#2 - attn_ext0) 4 * e in
      Some value
    else Some value);
  let attn_ext1 := dx_ext1 * dx_ext1 + dy_ext1 * dy_ext1 + dz_ext1 * dz_ext1 in
  value ←
    (if attn_ext1 <? #2 then
      e ← extrapolate n xsv_ext1 ysv_ext1 zsv_ext1 dx_ext1 dy_ext1 dz_ext1;
      let value := value + fpow (#2 - attn_ext1) 4 * e in
      Some value
    else Some value);
  Some value.

(** [double eval (double x, double y, double z) const].  Up to the line
    that starts the contributions of each region, the text of the function
    is the one of [Noise<3,T>::eval] (lines 96-333, 392-485 and 524-617
    against lines 393-629, 677-770 and 802-895 of the OSN header, with the
    same values of the two constants), so [Noise3.place], [Noise3.octa_closest]
    and the definitions after them are used for it. *)
Definition eval (n : noise) (x y z : T) : option T :=
  let '(xsb, ysb, zsb, dx0, dy0, dz0, xins, yins, zins) := Noise3.place x y z in
  let inSum := xins + yins + zins in
  let value := #0 in
  '(value, ext) ←
    (if (inSum >? #1) && (inSum <? #2) then
       let '(aPoint, aIsFurtherSide, bPoint, bIsFurtherSide) :=
         Noise3.octa_closest xins yins zins in
       let ext :=
         Noise3.octa_ext xsb ysb zsb dx0 dy0 dz0
                         aPoint aIsFurtherSide bPoint bIsFurtherSide in
       value ← octa_contrib n value xsb ysb zsb dx0 dy0 dz0;
       Some (value, ext)
     else if inSum <=? #1 then
       let '(aPoint, aScore, bPoint, bScore) :=
         Noise3.tetra0_closest xins yins zins in
       let ext :=
         Noise3.tetra0_ext xsb ysb zsb dx0 dy0 dz0 inSum
                           aPoint aScore bPoint bScore in
       value ← tetra0_contrib n value xsb ysb zsb dx0 dy0 dz0;
       Some (value, ext)
     else
       let '(aPoint, aScore, bPoint, bScore) :=
         Noise3.tetra1_closest xins yins zins in
       let ext :=
         Noise3.tetra1_ext xsb ysb zsb dx0 dy0 dz0 inSum
                           aPoint aScore bPoint bScore in
       value ← tetra1_contrib n value xsb ysb zsb dx0 dy0 dz0;
       Some (value, ext));
  let '(xsv_ext0, ysv_ext0, zsv_ext0, xsv_ext1, ysv_ext1, zsv_ext1,
        dx_ext0, dy_ext0, dz_ext0, dx_ext1, dy_ext1, dz_ext1) := ext in
  value ← extra n value xsv_ext0 ysv_ext0 zsv_ext0 xsv_ext1 ysv_ext1 zsv_ext1
                 dx_ext0 dy_ext0 dz_ext0 dx_ext1 dy_ext1 dz_ext1;
  Some (value / NORM_CONSTANT_3D).

End Eval.

End OpenSimplexNoise.

(** ** IEEE binary64: [T = double] *)

Module Binary64.

(** Conversion of an integer of absolute value below [2^63]. *)
Definition of_Z (z : Z) : float :=
  if (z <? 0)%Z then PrimFloat.opp (PrimFloat.of_uint63 (Uint63.of_Z (- z)))
  else PrimFloat.of_uint63 (Uint63.of_Z z).

(** [std::floor]: the largest integral value not above [x]; zeros,
    infinities and NaN are returned as they are.  A finite [x] is
    [±m·2^e]; with [e >= 0] it is integral. *)
Definition floor (x : float) : float :=
  match Prim2SF x with
  | S754_finite s m e =>
      if (0 <=? e)%Z then x
      else of_Z ((if s then Z.neg m else Z.pos m) / 2 ^ (- e))%Z
  | _ => x
  end.

(** [std::pow] with an integer exponent, by repeated multiplication.  The
    library function may differ from it in the last place; what is used of
    it below is its value on NaN and on concrete arguments only. *)
Definition pow (x : float) (n : Z) : float :=
  match n with
  | Z0 => of_Z 1
  | Zpos p => Pos.iter_op PrimFloat.mul p x
  | Zneg p => PrimFloat.div (of_Z 1) (Pos.iter_op PrimFloat.mul p x)
  end.

(** The value that the x86-64 conversion instruction produces for NaN and
    for values outside the range of [long] (C++ leaves them undefined). *)
Definition INDEFINITE : Z := - 2 ^ 63.

(** The cast [(long)]: truncation towards zero. *)
Definition cast_long (x : float) : Z :=
  match Prim2SF x with
  | S754_zero _ => 0
  | S754_finite s m e =>
      let v := (if 0 <=? e then Z.pos m * 2 ^ e else Z.pos m / 2 ^ (- e))%Z in
      let v := (if s then - v else v)%Z in
      if ((- 2 ^ 63 <=? v) && (v <? 2 ^ 63))%Z then v else INDEFINITE
  | _ => INDEFINITE
  end.

#[global] Instance ops : FloatOps float := {|
  of_int := of_Z;
  fadd := PrimFloat.add;
  fsub := PrimFloat.sub;
  fmul := PrimFloat.mul;
  fdiv := PrimFloat.div;
  fsqrt := PrimFloat.sqrt;
  ffloor := floor;
  fpow := pow;
  flt := PrimFloat.ltb;
  fle := PrimFloat.leb;
  to_long := cast_long
|}.

End Binary64.

(** ** Exact arithmetic: [T] read as the real numbers *)

Module Exact.

Definition ltb (a b : R) : bool := if Rlt_dec a b then true else false.
Definition leb (a b : R) : bool := if Rle_dec a b then true else false.

(** Truncation towards zero. *)
Definition cast_long (x : R) : Z :=
  if Rle_dec 0 x then Int_part x else (- Int_part (- x))%Z.

#[global] Instance ops : FloatOps R := {|
  of_int := IZR;
  fadd := Rplus;
  fsub := Rminus;
  fmul := Rmult;
  fdiv := Rdiv;
  fsqrt := sqrt;
  ffloor := fun x => IZR (Int_part x);
  fpow := powerRZ;
  flt := ltb;
  fle := leb;
  to_long := cast_long
|}.

End Exact.

(** ** The specification's view *)

(** The definitions of this module follow the words of the specification;
    the theorems below compare them with the code. *)
Module Spec.

(** A permutation table as the data model has it: 256 integers in
    [0, 255]. *)
Definition valid_table (perm : list Z) : Prop :=
  length perm = 256%nat ∧ Forall (λ v, 0 ≤ v ≤ 255)%Z perm.

(** The generator after [n] steps. *)
Fixpoint lcg (n : nat) (seed : Z) : Z :=
  match n with
  | O => seed
  | S n => NoiseBase.LCG_STEP (lcg n seed)
  end.

(** The shuffle from index [n - 1] down to 0: at step [i] the generator
    advances once and gives [r] in [0, i]; [perm[i]] is [source[r]], then
    [source[r]] becomes [source[i]].  The result lists [perm[0 .. n-1]]. *)
Fixpoint shuffle (n : nat) (gen : Z) (source : list Z) : list Z :=
  match n with
  | O => []
  | S i =>
      let gen := NoiseBase.LCG_STEP gen in
      let r := Z.to_nat (wrap64 (gen + 31) mod (Z.of_nat i + 1)) in
      shuffle i gen (<[r := source !!! i]> source) ++ [source !!! r]
  end.

(** The table of a seed: the generator is advanced three times before its
    first use, the working array starts as the identity. *)
Definition table (seed : Z) : list Z := shuffle 256 (lcg 3 seed) (seqZ 0 256).

(** The same shuffle with the draws taken from a stream: at step [i] the
    next value [x] of the stream gives [r = x mod (i + 1)]. *)
Fixpoint shuffle_with (n : nat) (rand : list Z) (source : list Z) : list Z :=
  match n, rand with
  | S i, x :: rand =>
      let r := Z.to_nat (x mod (Z.of_nat i + 1)) in
      shuffle_with i rand (<[r := source !!! i]> source) ++ [source !!! r]
  | _, _ => []
  end.

(** The coordinates folded through the table, left to right. *)
Definition hash (perm : list Z) (coords : list Z) : Z :=
  fold_left (λ h c, perm !!! Z.to_nat (Z.land (h + c) 0xFF)) coords 0%Z.

(** Gradient number [k] of a set of [dim]-component vectors. *)
Definition gradient (gradients : list Z) (dim : nat) (k : Z) : list Z :=
  take dim (drop (Z.to_nat k * dim) gradients).

Section Kernel.
Context {T : Type} {F : FloatOps T}.

(** The dot product of an integer vector with an offset, summed from the
    left. *)
Definition dot (g : list Z) (d : list T) : T :=
  match g, d with
  | g0 :: g, d0 :: d => fold_left (λ a gx, a + #(gx.1) * gx.2) (zip g d) (#g0 * d0)
  | _, _ => #0
  end.

(** The squared length of an offset, summed from the left. *)
Definition norm2 (d : list T) : T :=
  match d with
  | d0 :: d => fold_left (λ a x, a + x * x) d (d0 * d0)
  | [] => #0
  end.

(** The kernel [max(2 - attn, 0)^4]. *)
Definition kernel (attn : T) : T := fpow (fmax (#2 - attn) #0) 4.

(** The offset of the point [p] from the lattice vertex [v], taken in
    unskewed space: the vertex lies at [v + squish * (v_1 + ... + v_N)]. *)
Definition displacement (squish : T) (p : list T) (v : list Z) : list T :=
  let s := fold_left Z.add v 0%Z in
  zip_with (λ x c, x - (#c + #s * squish)) p v.

(** A sum of kernel-weighted gradient contributions, accumulated from the
    left; [extr v d] is the extrapolation at the vertex [v] for the offset
    [d]. *)
Inductive kernel_sum (extr : list Z → list T → option T) : T → Prop :=
  | kernel_sum_zero : kernel_sum extr #0
  | kernel_sum_first v d e :
      extr v d = Some e → kernel_sum extr (kernel (norm2 d) * e)
  | kernel_sum_add value v d e :
      kernel_sum extr value → extr v d = Some e →
      kernel_sum extr (value + kernel (norm2 d) * e).

End Kernel.

(** The extrapolation functions on coordinate and offset lists. *)
Definition extr2 {T} {F : FloatOps T} (perm : list Z) (v : list Z) (d : list T) :
    option T :=
  match v, d with
  | [xsb; ysb], [dx; dy] => Noise2.extrapolate perm xsb ysb dx dy
  | _, _ => None
  end.

Definition extr3 {T} {F : FloatOps T} (n : Noise3.noise) (v : list Z) (d : list T) :
    option T :=
  match v, d with
  | [xsb; ysb; zsb], [dx; dy; dz] => Noise3.extrapolate n xsb ysb zsb dx dy dz
  | _, _ => None
  end.

Definition extr4 {T} {F : FloatOps T} (perm : list Z) (v : list Z) (d : list T) :
    option T :=
  match v, d with
  | [xsb; ysb; zsb; wsb], [dx; dy; dz; dw] =>
      Noise4.extrapolate perm xsb ysb zsb wsb dx dy dz dw
  | _, _ => None
  end.

(** An instance of [Noise<3,T>] as its constructors leave it: a table with
    the gradient offsets computed from it. *)
Definition built3 (n : Noise3.noise) : Prop :=
  length (Noise3.perm n) = 256%nat ∧
  Noise3.permGradIndex n = Noise3.grad_index <$> Noise3.perm n.

(** The same for the single-class header. *)
Definition built_legacy (n : OpenSimplexNoise.noise) : Prop :=
  length (OpenSimplexNoise.perm n) = 256%nat ∧
  OpenSimplexNoise.permGradIndex3D n =
    OpenSimplexNoise.grad_index <$> OpenSimplexNoise.perm n.

(** The extra vertices that [Noise<4,T>::eval] selects for a point, with
    the offsets it computes for them: the function up to the contributions,
    with the same tests on [inSum]. *)
Definition extras4 {T} {F : FloatOps T} (x y z w : T) : list (list Z * list T) :=
  let '(xsb, ysb, zsb, wsb, dx0, dy0, dz0, dw0, xins, yins, zins, wins) :=
    Noise4.place x y z w in
  let inSum := xins + yins + zins + wins in
  let ext :=
    if inSum <=? #1 then
      let '(aPoint, aScore, bPoint, bScore) :=
        Noise4.penta0_closest xins yins zins wins in
      Noise4.penta0_ext xsb ysb zsb wsb dx0 dy0 dz0 dw0 inSum
                        aPoint aScore bPoint bScore
    else if inSum >=? #3 then
      let '(aPoint, aScore, bPoint, bScore) :=
        Noise4.penta1_closest xins yins zins wins in
      Noise4.penta1_ext xsb ysb zsb wsb dx0 dy0 dz0 dw0 inSum
                        aPoint aScore bPoint bScore
    else if inSum <=? #2 then
      let '(aPoint, aIsBiggerSide, bPoint, bIsBiggerSide) :=
        Noise4.dispenta0_closest xins yins zins wins inSum in
      Noise4.dispenta0_ext xsb ysb zsb wsb dx0 dy0 dz0 dw0
                           aPoint aIsBiggerSide bPoint bIsBiggerSide
    else
      let '(aPoint, aIsBiggerSide, bPoint, bIsBiggerSide) :=
        Noise4.dispenta1_closest xins yins zins wins inSum in
      Noise4.dispenta1_ext xsb ysb zsb wsb dx0 dy0 dz0 dw0
                           aPoint aIsBiggerSide bPoint bIsBiggerSide in
  let '(xsv_ext0, ysv_ext0, zsv_ext0, wsv_ext0,
        xsv_ext1, ysv_ext1, zsv_ext1, wsv_ext1,
        xsv_ext2, ysv_ext2, zsv_ext2, wsv_ext2,
        dx_ext0, dy_ext0, dz_ext0, dw_ext0,
        dx_ext1, dy_ext1, dz_ext1, dw_ext1,
        dx_ext2, dy_ext2, dz_ext2, dw_ext2) := ext in
  [ ([xsv_ext0; ysv_ext0; zsv_ext0; wsv_ext0], [dx_ext0; dy_ext0; dz_ext0; dw_ext0]);
    ([xsv_ext1; ysv_ext1; zsv_ext1; wsv_ext1], [dx_ext1; dy_ext1; dz_ext1; dw_ext1]);
    ([xsv_ext2; ysv_ext2; zsv_ext2; wsv_ext2], [dx_ext2; dy_ext2; dz_ext2; dw_ext2]) ].

End Spec.

(** * Properties *)

Local Close Scope fl_scope.

(** * Properties *)

(** ** Machine integers and arrays *)

Lemma wrap64_range z : - 2 ^ 63 ≤ wrap64 z < 2 ^ 63.
Proof. unfold wrap64. pose proof (Z.mod_pos_bound (z + 2 ^ 63) (2 ^ 64)). lia. Qed.

Lemma wrap64_small z : - 2 ^ 63 ≤ z < 2 ^ 63 → wrap64 z = z.
Proof. intros Hz. unfold wrap64. rewrite Z.mod_small; lia. Qed.

(** The low eight bits of a [long] have period 256 and do not depend on its
    wrap-around. *)
Lemma land_255_period z k : Z.land (z + 256 * k) 0xFF = Z.land z 0xFF.
Proof.
  change 0xFF with (Z.ones 8). rewrite !Z.land_ones by lia.
  change (2 ^ 8) with 256. rewrite Z.mul_comm. apply Z_mod_plus_full.
Qed.

Lemma land_wrap64 z : Z.land (wrap64 z) 0xFF = Z.land z 0xFF.
Proof.
  unfold wrap64. rewrite Z.mod_eq by lia.
  rewrite <- (land_255_period z (- 2 ^ 56 * ((z + 2 ^ 63) / 2 ^ 64))).
  f_equal. lia.
Qed.

Lemma land_255_range z : 0 ≤ Z.land z 0xFF < 256.
Proof.
  change 0xFF with (Z.ones 8). rewrite Z.land_ones by lia.
  apply Z.mod_pos_bound. lia.
Qed.

Lemma load_Some {A} (a : list A) (i : Z) (x : A) :
  load a i = Some x ↔ 0 ≤ i ∧ a !! Z.to_nat i = Some x.
Proof.
  unfold load. destruct (decide (0 ≤ i < Z.of_nat (length a))) as [Hi | Hi].
  - split; [by intros ->; split; [lia|] | by intros [_ ->]].
  - split; [done|]. intros [Hi' Hx]. apply lookup_lt_Some in Hx. lia.
Qed.

Lemma load_nonneg {A} (a : list A) (i : Z) : 0 ≤ i → load a i = a !! Z.to_nat i.
Proof.
  intros Hi. unfold load.
  destruct (decide (0 ≤ i < Z.of_nat (length a))) as [Hb | Hb]; [done|].
  symmetry. apply lookup_ge_None. lia.
Qed.

Lemma load_lookup {A} (a : list A) (i : nat) : load a (Z.of_nat i) = a !! i.
Proof. rewrite load_nonneg by lia. by rewrite Nat2Z.id. Qed.

Lemma load_in_bounds {A} `{!Inhabited A} (a : list A) (i : Z) :
  0 ≤ i < Z.of_nat (length a) → load a i = Some (a !!! Z.to_nat i).
Proof.
  intros Hi. rewrite load_nonneg by lia.
  apply list_lookup_lookup_total_lt. lia.
Qed.

Lemma store_in_bounds {A} (a : list A) (i : Z) (v : A) :
  0 ≤ i < Z.of_nat (length a) → store a i v = Some (<[Z.to_nat i := v]> a).
Proof. intros Hi. unfold store. by rewrite decide_True. Qed.

Lemma store_nat {A} (a : list A) (i : nat) (v : A) :
  (i < length a)%nat → store a (Z.of_nat i) v = Some (<[i := v]> a).
Proof. intros Hi. rewrite store_in_bounds by lia. by rewrite Nat2Z.id. Qed.

(** ** The generator and the shuffle *)

(** The corrected remainder is the mathematical [mod]. *)
Lemma rem_corrected a b :
  0 < b → (if Z.rem a b <? 0 then Z.rem a b + b else Z.rem a b) = a mod b.
Proof.
  intros Hb.
  pose proof (Z.quot_rem' a b) as Hqr.
  assert (Hbound : - b < Z.rem a b < b).
  { destruct (Z.le_gt_cases 0 a) as [Ha | Ha].
    - pose proof (Z.rem_bound_pos a b Ha Hb). lia.
    - pose proof (Z.rem_bound_pos (- a) b ltac:(lia) Hb) as Hn.
      rewrite Z.rem_opp_l in Hn by lia. lia. }
  destruct (Z.ltb_spec (Z.rem a b) 0) as [Hneg | Hpos].
  - apply (Z.mod_unique_pos _ _ (Z.quot a b - 1)); lia.
  - apply (Z.mod_unique_pos _ _ (Z.quot a b)); lia.
Qed.

Lemma draw_mod seed i : 0 ≤ i → NoiseBase.draw seed i = wrap64 (seed + 31) mod (i + 1).
Proof. intros Hi. unfold NoiseBase.draw. apply rem_corrected. lia. Qed.

Lemma draw_range seed i : 0 ≤ i → 0 ≤ NoiseBase.draw seed i ≤ i.
Proof.
  intros Hi. rewrite draw_mod by done.
  pose proof (Z.mod_pos_bound (wrap64 (seed + 31)) (i + 1)). lia.
Qed.

Lemma length_spec_shuffle n gen source : length (Spec.shuffle n gen source) = n.
Proof.
  revert gen source. induction n as [|i IH]; intros gen source; [done|].
  cbn [Spec.shuffle]. rewrite length_app, IH. simpl. lia.
Qed.

(** One step of the loop, on arrays that are large enough. *)
Lemma shuffle_step_ok (i : nat) gen source perm :
  (i < length source)%nat → (i < length perm)%nat →
  ∃ r : nat,
    r = Z.to_nat (wrap64 (NoiseBase.LCG_STEP gen + 31) mod (Z.of_nat i + 1)) ∧
    (r ≤ i)%nat ∧
    NoiseBase.shuffle_step (Z.of_nat i) (NoiseBase.ShuffleState gen source perm) =
      Some (NoiseBase.ShuffleState (NoiseBase.LCG_STEP gen)
              (<[r := source !!! i]> source) (<[i := source !!! r]> perm)).
Proof.
  intros Hs Hp.
  unfold NoiseBase.shuffle_step.
  cbn [NoiseBase.st_seed NoiseBase.st_source NoiseBase.st_perm].
  generalize (NoiseBase.LCG_STEP gen). intros gen'.
  pose proof (draw_range gen' (Z.of_nat i) ltac:(lia)) as Hr.
  pose proof (draw_mod gen' (Z.of_nat i) ltac:(lia)) as Hd.
  exists (Z.to_nat (NoiseBase.draw gen' (Z.of_nat i))).
  split; [by rewrite Hd|]. split; [lia|].
  generalize dependent (NoiseBase.draw gen' (Z.of_nat i)). intros rz Hr _.
  rewrite (load_in_bounds source rz) by lia. cbn [mbind option_bind].
  rewrite store_nat by done. cbn [mbind option_bind].
  rewrite load_lookup, (list_lookup_lookup_total_lt source i) by done.
  cbn [mbind option_bind].
  rewrite store_in_bounds by lia. done.
Qed.

(** The loop writes [perm[0 .. n-1]] as the specification's shuffle lists
    them, and leaves the entries above untouched. *)
Lemma shuffle_loop_spec n gen source perm :
  (n ≤ length source)%nat → (n ≤ length perm)%nat →
  ∃ st, NoiseBase.shuffle_loop n (NoiseBase.ShuffleState gen source perm) = Some st ∧
        NoiseBase.st_perm st = Spec.shuffle n gen source ++ drop n perm.
Proof.
  revert gen source perm. induction n as [|i IH]; intros gen source perm Hs Hp.
  { eexists; split; [done|]. by rewrite drop_0. }
  destruct (shuffle_step_ok i gen source perm ltac:(lia) ltac:(lia))
    as (r & Hrdef & Hr & Hstep).
  cbn [NoiseBase.shuffle_loop]. rewrite Hstep. cbn [mbind option_bind].
  edestruct IH as (st & Hloop & Hperm); [| | exists st; split; [exact Hloop|]].
  { rewrite length_insert. lia. }
  { rewrite length_insert. lia. }
  rewrite Hperm. cbn [Spec.shuffle]. rewrite <- Hrdef, <- app_assoc. f_equal.
  rewrite insert_take_drop by lia.
  rewrite drop_app_length'; [done|]. rewrite length_take. lia.
Qed.

Lemma of_seed_table seed perm0 :
  length perm0 = 256%nat → NoiseBase.of_seed seed perm0 = Some (Spec.table seed).
Proof.
  intros Hlen.
  unfold NoiseBase.of_seed, NoiseBase.source_init, Spec.table.
  cbn [Spec.lcg]. set (gen := NoiseBase.LCG_STEP _).
  destruct (shuffle_loop_spec 256 gen (seqZ 0 256) perm0)
    as (st & Hloop & Hperm); [by rewrite length_seqZ | lia |].
  rewrite Hloop. cbn [mbind option_bind]. rewrite Hperm.
  rewrite drop_ge by lia. by rewrite app_nil_r.
Qed.

(** Writing [y] over [x] and keeping [x] aside permutes the elements. *)
Lemma insert_swap_perm (l : list Z) r x y :
  l !! r = Some x → <[r := y]> l ++ [x] ≡ₚ l ++ [y].
Proof.
  revert r. induction l as [|a l IH]; intros [|r] Hl; simplify_eq/=.
  - rewrite (Permutation_app_comm l [x]), (Permutation_app_comm l [y]). simpl.
    apply perm_swap.
  - by rewrite IH.
Qed.

(** The specification's shuffle permutes the first [n] entries of the
    working array. *)
Lemma spec_shuffle_perm n gen source :
  (n ≤ length source)%nat → Spec.shuffle n gen source ≡ₚ take n source.
Proof.
  revert gen source. induction n as [|i IH]; intros gen source Hn; [done|].
  cbn [Spec.shuffle].
  set (gen' := NoiseBase.LCG_STEP gen).
  set (r := Z.to_nat (wrap64 (gen' + 31) mod (Z.of_nat i + 1))).
  assert (Hr : (r ≤ i)%nat).
  { pose proof (Z.mod_pos_bound (wrap64 (gen' + 31)) (Z.of_nat i + 1)). unfold r. lia. }
  rewrite IH by (rewrite length_insert; lia).
  assert (Hi : source !! i = Some (source !!! i)) by (apply list_lookup_lookup_total_lt; lia).
  rewrite (take_S_r _ _ _ Hi).
  destruct (decide (r = i)) as [-> | Hne].
  - by rewrite list_insert_id.
  - rewrite take_insert_lt by lia.
    apply insert_swap_perm. rewrite lookup_take_lt by lia.
    apply list_lookup_lookup_total_lt. lia.
Qed.

Lemma table_perm seed : Spec.table seed ≡ₚ seqZ 0 256.
Proof. unfold Spec.table. rewrite spec_shuffle_perm by done. by rewrite take_ge. Qed.

Lemma table_length seed : length (Spec.table seed) = 256%nat.
Proof. exact (length_spec_shuffle 256 _ _). Qed.

(** A permutation of [0 .. 255] holds every byte value at exactly one
    index. *)
Lemma perm_bijection (perm : list Z) :
  perm ≡ₚ seqZ 0 256 →
  ∀ v, 0 ≤ v < 256 → ∃ i, perm !! i = Some v ∧ ∀ j, perm !! j = Some v → j = i.
Proof.
  intros Hp v Hv.
  assert (Hin : v ∈ perm).
  { rewrite Hp. apply elem_of_seqZ. lia. }
  apply list_elem_of_lookup_1 in Hin as [i Hi]. exists i. split; [done|].
  intros j Hj. eapply NoDup_lookup; [| exact Hj | exact Hi].
  rewrite Hp. apply NoDup_seqZ.
Qed.

Lemma perm_valid (perm : list Z) : perm ≡ₚ seqZ 0 256 → Spec.valid_table perm.
Proof.
  intros Hp. split.
  - by rewrite Hp.
  - rewrite Hp. apply Forall_forall. intros v Hv%elem_of_seqZ. lia.
Qed.

Lemma table_valid seed : Spec.valid_table (Spec.table seed).
Proof. apply perm_valid, table_perm. Qed.

(** ** The constructors of Noise<3,T> *)

Lemma noise3_shuffle_step_ok (i : nat) gen source perm pgi :
  (i < length source)%nat → (i < length perm)%nat → (i < length pgi)%nat →
  ∃ r : nat,
    r = Z.to_nat (wrap64 (NoiseBase.LCG_STEP gen + 31) mod (Z.of_nat i + 1)) ∧
    Noise3.shuffle_step (Z.of_nat i)
        (Noise3.ShuffleState gen source (Noise3.Noise perm pgi)) =
      Some (Noise3.ShuffleState (NoiseBase.LCG_STEP gen)
              (<[r := source !!! i]> source)
              (Noise3.Noise (<[i := source !!! r]> perm)
                 (<[i := Noise3.grad_index (source !!! r)]> pgi))).
Proof.
  intros Hs Hp Hg.
  unfold Noise3.shuffle_step.
  cbn [Noise3.st_seed Noise3.st_source Noise3.st_noise Noise3.perm Noise3.permGradIndex].
  generalize (NoiseBase.LCG_STEP gen). intros gen'.
  pose proof (draw_range gen' (Z.of_nat i) ltac:(lia)) as Hr.
  pose proof (draw_mod gen' (Z.of_nat i) ltac:(lia)) as Hd.
  exists (Z.to_nat (NoiseBase.draw gen' (Z.of_nat i))).
  split; [by rewrite Hd|].
  generalize dependent (NoiseBase.draw gen' (Z.of_nat i)). intros rz Hr _.
  rewrite (load_in_bounds source rz) by lia. cbn [mbind option_bind].
  rewrite store_nat by done. cbn [mbind option_bind].
  rewrite (load_lookup (<[i:=_]> perm)), list_lookup_insert_eq by done.
  cbn [mbind option_bind].
  rewrite store_nat by done. cbn [mbind option_bind].
  rewrite load_lookup, (list_lookup_lookup_total_lt source i) by done.
  cbn [mbind option_bind].
  rewrite store_in_bounds by lia. done.
Qed.

Lemma noise3_shuffle_loop_spec n gen source perm pgi :
  (n ≤ length source)%nat → (n ≤ length perm)%nat → (n ≤ length pgi)%nat →
  ∃ st, Noise3.shuffle_loop n
          (Noise3.ShuffleState gen source (Noise3.Noise perm pgi)) = Some st ∧
        Noise3.perm (Noise3.st_noise st) = Spec.shuffle n gen source ++ drop n perm ∧
        Noise3.permGradIndex (Noise3.st_noise st) =
          (Noise3.grad_index <$> Spec.shuffle n gen source) ++ drop n pgi.
Proof.
  revert gen source perm pgi.
  induction n as [|i IH]; intros gen source perm pgi Hs Hp Hg.
  { eexists; split; [done|]. by rewrite !drop_0. }
  destruct (noise3_shuffle_step_ok i gen source perm pgi ltac:(lia) ltac:(lia) ltac:(lia))
    as (r & Hrdef & Hstep).
  cbn [Noise3.shuffle_loop]. rewrite Hstep. cbn [mbind option_bind].
  edestruct IH as (st & Hloop & Hperm & Hpgi); [| | | exists st; split; [exact Hloop|]].
  1-3: rewrite length_insert; lia.
  rewrite Hperm, Hpgi. cbn [Spec.shuffle]. rewrite <- Hrdef.
  rewrite fmap_app, <- !app_assoc. split; f_equal.
  - rewrite insert_take_drop by lia.
    rewrite drop_app_length'; [done|]. rewrite length_take. lia.
  - rewrite insert_take_drop by lia.
    rewrite drop_app_length'; [done|]. rewrite length_take. lia.
Qed.

Lemma noise3_of_seed_table seed n0 :
  length (Noise3.perm n0) = 256%nat → length (Noise3.permGradIndex n0) = 256%nat →
  Noise3.of_seed seed n0 =
    Some (Noise3.Noise (Spec.table seed) (Noise3.grad_index <$> Spec.table seed)).
Proof.
  intros Hp Hg. destruct n0 as [perm0 pgi0]. simpl in Hp, Hg.
  unfold Noise3.of_seed, NoiseBase.source_init, Spec.table.
  cbn [Spec.lcg]. set (gen := NoiseBase.LCG_STEP _).
  destruct (noise3_shuffle_loop_spec 256 gen (seqZ 0 256) perm0 pgi0)
    as (st & Hloop & Hperm & Hpgi); [by rewrite length_seqZ | lia | lia |].
  rewrite Hloop. cbn [mbind option_bind].
  destruct st as [? ? [perm pgi]].
  cbn [Noise3.perm Noise3.permGradIndex Noise3.st_noise] in Hperm, Hpgi.
  subst perm pgi. cbn [Noise3.st_noise].
  rewrite !drop_ge by lia. by rewrite !app_nil_r.
Qed.

(** ** The constructors from a table *)

Lemma copy_loop_spec n (k : nat) (p perm : list Z) :
  (k + n ≤ length p)%nat → (k + n ≤ length perm)%nat →
  NoiseBase.copy_loop n (Z.of_nat k) p perm =
    Some (take k perm ++ take n (drop k p) ++ drop (k + n) perm).
Proof.
  revert k perm. induction n as [|n IH]; intros k perm Hp Hperm.
  { cbn. rewrite Nat.add_0_r, take_0. cbn [app fmap list_fmap]. by rewrite take_drop. }
  assert (Hk : p !! k = Some (p !!! k)) by (apply list_lookup_lookup_total_lt; lia).
  cbn [NoiseBase.copy_loop]. rewrite load_lookup, Hk. cbn [mbind option_bind].
  rewrite store_nat by lia. cbn [mbind option_bind].
  replace (Z.of_nat k + 1) with (Z.of_nat (S k)) by lia.
  rewrite IH by (rewrite ?length_insert; lia). f_equal.
  rewrite take_insert_lt, drop_insert_lt by lia.
  rewrite (take_S_r perm k (perm !!! k)) by (apply list_lookup_lookup_total_lt; lia).
  rewrite insert_app_r_alt by (rewrite length_take; lia).
  rewrite length_take, Nat.min_l, Nat.sub_diag by lia. cbn [list_insert insert].
  rewrite <- app_assoc. f_equal.
  rewrite (drop_S p (p !!! k) k Hk). cbn [take app].
  do 2 f_equal. f_equal. lia.
Qed.

Lemma of_table_copy (p perm0 : list Z) :
  (256 ≤ length p)%nat → length perm0 = 256%nat →
  NoiseBase.of_table p perm0 = Some (take 256 p).
Proof.
  intros Hp Hlen. unfold NoiseBase.of_table.
  pose proof (copy_loop_spec 256 0 p perm0 ltac:(lia) ltac:(lia)) as Hcopy.
  change (Z.of_nat 0) with 0 in Hcopy. rewrite Hcopy.
  rewrite drop_0, take_0, drop_ge by lia. cbn [app]. by rewrite app_nil_r.
Qed.

Lemma noise3_copy_loop_spec n (k : nat) (p perm pgi : list Z) :
  (k + n ≤ length p)%nat → (k + n ≤ length perm)%nat → (k + n ≤ length pgi)%nat →
  Noise3.copy_loop n (Z.of_nat k) p (Noise3.Noise perm pgi) =
    Some (Noise3.Noise
            (take k perm ++ take n (drop k p) ++ drop (k + n) perm)
            (take k pgi ++ (Noise3.grad_index <$> take n (drop k p)) ++ drop (k + n) pgi)).
Proof.
  revert k perm pgi. induction n as [|n IH]; intros k perm pgi Hp Hperm Hpgi.
  { cbn. rewrite Nat.add_0_r, take_0. cbn [app fmap list_fmap]. by rewrite !take_drop. }
  assert (Hk : p !! k = Some (p !!! k)) by (apply list_lookup_lookup_total_lt; lia).
  cbn [Noise3.copy_loop Noise3.perm Noise3.permGradIndex].
  rewrite load_lookup, Hk. cbn [mbind option_bind].
  rewrite store_nat by lia. cbn [mbind option_bind].
  rewrite (load_lookup (<[k:=_]> perm)), list_lookup_insert_eq by lia.
  cbn [mbind option_bind].
  rewrite store_nat by lia. cbn [mbind option_bind].
  replace (Z.of_nat k + 1) with (Z.of_nat (S k)) by lia.
  rewrite IH by (rewrite ?length_insert; lia). do 2 f_equal.
  - rewrite take_insert_lt, drop_insert_lt by lia.
    rewrite (take_S_r perm k (perm !!! k)) by (apply list_lookup_lookup_total_lt; lia).
    rewrite insert_app_r_alt by (rewrite length_take; lia).
    rewrite length_take, Nat.min_l, Nat.sub_diag by lia. cbn [list_insert insert].
    rewrite <- app_assoc. f_equal.
    rewrite (drop_S p (p !!! k) k Hk). cbn [take app].
    do 2 f_equal. f_equal. lia.
  - rewrite take_insert_lt, drop_insert_lt by lia.
    rewrite (take_S_r pgi k (pgi !!! k)) by (apply list_lookup_lookup_total_lt; lia).
    rewrite insert_app_r_alt by (rewrite length_take; lia).
    rewrite length_take, Nat.min_l, Nat.sub_diag by lia. cbn [list_insert insert].
    rewrite <- app_assoc. f_equal.
    rewrite (drop_S p (p !!! k) k Hk). cbn [take app fmap list_fmap].
    do 2 f_equal. f_equal. lia.
Qed.

Lemma noise3_of_table_copy (p : list Z) (n0 : Noise3.noise) :
  (256 ≤ length p)%nat →
  length (Noise3.perm n0) = 256%nat → length (Noise3.permGradIndex n0) = 256%nat →
  Noise3.of_table p n0 =
    Some (Noise3.Noise (take 256 p) (Noise3.grad_index <$> take 256 p)).
Proof.
  intros Hp Hlen Hlen'. destruct n0 as [perm0 pgi0]. simpl in Hlen, Hlen'.
  unfold Noise3.of_table.
  pose proof (noise3_copy_loop_spec 256 0 p perm0 pgi0
                ltac:(lia) ltac:(lia) ltac:(lia)) as Hcopy.
  change (Z.of_nat 0) with 0 in Hcopy. rewrite Hcopy.
  rewrite !drop_0, !take_0, !drop_ge by lia. cbn [app]. by rewrite !app_nil_r.
Qed.

Lemma legacy_copy_loop_spec n (k : nat) (p perm : list Z) :
  (k + n ≤ length p)%nat → (k + n ≤ length perm)%nat →
  OpenSimplexNoise.copy_loop n (Z.of_nat k) p perm =
    Some (take k perm ++ take n (drop k p) ++ drop (k + n) perm).
Proof.
  revert k perm. induction n as [|n IH]; intros k perm Hp Hperm.
  { cbn. rewrite Nat.add_0_r, take_0. cbn [app fmap list_fmap]. by rewrite take_drop. }
  assert (Hk : p !! k = Some (p !!! k)) by (apply list_lookup_lookup_total_lt; lia).
  cbn [OpenSimplexNoise.copy_loop]. rewrite load_lookup, Hk. cbn [mbind option_bind].
  rewrite store_nat by lia. cbn [mbind option_bind].
  replace (Z.of_nat k + 1) with (Z.of_nat (S k)) by lia.
  rewrite IH by (rewrite ?length_insert; lia). f_equal.
  rewrite take_insert_lt, drop_insert_lt by lia.
  rewrite (take_S_r perm k (perm !!! k)) by (apply list_lookup_lookup_total_lt; lia).
  rewrite insert_app_r_alt by (rewrite length_take; lia).
  rewrite length_take, Nat.min_l, Nat.sub_diag by lia. cbn [list_insert insert].
  rewrite <- app_assoc. f_equal.
  rewrite (drop_S p (p !!! k) k Hk). cbn [take app].
  do 2 f_equal. f_equal. lia.
Qed.

Lemma legacy_index_loop_spec n (k : nat) (perm pgi : list Z) :
  (k + n ≤ length perm)%nat → (k + n ≤ length pgi)%nat →
  OpenSimplexNoise.index_loop n (Z.of_nat k) perm pgi =
    Some (take k pgi ++ (OpenSimplexNoise.grad_index <$> take n (drop k perm))
            ++ drop (k + n) pgi).
Proof.
  revert k pgi. induction n as [|n IH]; intros k pgi Hp Hpgi.
  { cbn. rewrite Nat.add_0_r, take_0. cbn [app fmap list_fmap]. by rewrite take_drop. }
  assert (Hk : perm !! k = Some (perm !!! k)) by (apply list_lookup_lookup_total_lt; lia).
  cbn [OpenSimplexNoise.index_loop]. rewrite load_lookup, Hk. cbn [mbind option_bind].
  rewrite store_nat by lia. cbn [mbind option_bind].
  replace (Z.of_nat k + 1) with (Z.of_nat (S k)) by lia.
  rewrite IH by (rewrite ?length_insert; lia). f_equal.
  rewrite take_insert_lt, drop_insert_lt by lia.
  rewrite (take_S_r pgi k (pgi !!! k)) by (apply list_lookup_lookup_total_lt; lia).
  rewrite insert_app_r_alt by (rewrite length_take; lia).
  rewrite length_take, Nat.min_l, Nat.sub_diag by lia. cbn [list_insert insert].
  rewrite <- app_assoc. f_equal.
  rewrite (drop_S perm (perm !!! k) k Hk). cbn [take app fmap list_fmap].
  do 2 f_equal. f_equal. lia.
Qed.

Lemma legacy_of_table_copy (p : list Z) (n0 : OpenSimplexNoise.noise) :
  (256 ≤ length p)%nat →
  length (OpenSimplexNoise.perm n0) = 256%nat →
  length (OpenSimplexNoise.permGradIndex3D n0) = 256%nat →
  OpenSimplexNoise.of_table p n0 =
    Some (OpenSimplexNoise.Noise (take 256 p)
            (OpenSimplexNoise.grad_index <$> take 256 p)).
Proof.
  intros Hp Hlen Hlen'. destruct n0 as [perm0 pgi0]. simpl in Hlen, Hlen'.
  unfold OpenSimplexNoise.of_table. cbn [OpenSimplexNoise.perm OpenSimplexNoise.permGradIndex3D].
  pose proof (legacy_copy_loop_spec 256 0 p perm0 ltac:(lia) ltac:(lia)) as Hcopy.
  change (Z.of_nat 0) with 0 in Hcopy. rewrite Hcopy.
  rewrite drop_0, take_0, (drop_ge perm0) by lia. cbn [mbind option_bind app].
  rewrite app_nil_r.
  pose proof (legacy_index_loop_spec 256 0 (take 256 p) pgi0) as Hindex.
  change (Z.of_nat 0) with 0 in Hindex.
  rewrite Hindex by (rewrite ?length_take; lia).
  rewrite drop_0, take_0, (drop_ge pgi0) by lia. cbn [mbind option_bind app].
  rewrite app_nil_r, take_take. done.
Qed.

(** ** Extrapolation *)

(** Reading [n] consecutive entries. *)
Lemma take_drop_lookup_total (l : list Z) (n i : nat) :
  (i + n ≤ length l)%nat →
  take n (drop i l) = (λ j, l !!! (i + j)%nat) <$> seq 0 n.
Proof.
  intros Hlen. apply list_eq. intros j.
  rewrite list_lookup_fmap.
  destruct (decide (j < n)%nat) as [Hj | Hj].
  - rewrite lookup_take_lt, lookup_drop by done.
    rewrite lookup_seq_lt by done. cbn.
    apply list_lookup_lookup_total_lt. lia.
  - rewrite lookup_take_ge by lia. rewrite lookup_seq_ge by lia. done.
Qed.

(** What the two bit masks leave of a byte. *)
Lemma mask_0E_bytes :
  forallb (λ c, (0 <=? Z.land c 0x0E) && (Z.land c 0x0E <=? 14) &&
                (Z.land c 0x0E =? 2 * (Z.land c 0x0E / 2))) (seqZ 0 256) = true.
Proof. vm_compute. reflexivity. Qed.

Lemma mask_FC_bytes :
  forallb (λ c, (0 <=? Z.land c 0xFC) && (Z.land c 0xFC <=? 252) &&
                (Z.land c 0xFC =? 4 * (Z.land c 0xFC / 4))) (seqZ 0 256) = true.
Proof. vm_compute. reflexivity. Qed.

Lemma land_byte h m : 0 ≤ m < 256 → Z.land h m = Z.land (Z.land h 0xFF) m.
Proof.
  intros Hm. rewrite <- Z.land_assoc. f_equal.
  change 0xFF with (Z.ones 8). rewrite Z.land_comm, Z.land_ones by lia.
  symmetry. apply Z.mod_small. lia.
Qed.

Lemma mask_0E h :
  0 ≤ Z.land h 0x0E ≤ 14 ∧ Z.land h 0x0E = 2 * (Z.land h 0x0E / 2).
Proof.
  rewrite (land_byte h 0x0E) by lia.
  pose proof (land_255_range h) as Hr.
  pose proof mask_0E_bytes as Hall. rewrite forallb_forall in Hall.
  specialize (Hall (Z.land h 0xFF)).
  rewrite <- list_elem_of_In, elem_of_seqZ in Hall. specialize (Hall ltac:(lia)).
  rewrite !andb_true_iff in Hall. lia.
Qed.

Lemma mask_FC h :
  0 ≤ Z.land h 0xFC ≤ 252 ∧ Z.land h 0xFC = 4 * (Z.land h 0xFC / 4).
Proof.
  rewrite (land_byte h 0xFC) by lia.
  pose proof (land_255_range h) as Hr.
  pose proof mask_FC_bytes as Hall. rewrite forallb_forall in Hall.
  specialize (Hall (Z.land h 0xFF)).
  rewrite <- list_elem_of_In, elem_of_seqZ in Hall. specialize (Hall ltac:(lia)).
  rewrite !andb_true_iff in Hall. lia.
Qed.

Lemma u32_small z : 0 ≤ z < 2 ^ 32 → u32 z = z.
Proof. intros Hz. unfold u32. apply Z.mod_small. lia. Qed.

(** A table of 256 entries is read in bounds at every masked index. *)
Lemma load_masked (perm : list Z) z :
  length perm = 256%nat →
  load perm (Z.land z 0xFF) = Some (perm !!! Z.to_nat (Z.land z 0xFF)).
Proof.
  intros Hlen. apply load_in_bounds. pose proof (land_255_range z). lia.
Qed.

Lemma load_gradient (g : list Z) (i j : Z) :
  0 ≤ i → 0 ≤ j → (Z.to_nat i + Z.to_nat j < length g)%nat →
  Z.of_nat (length g) ≤ 2 ^ 32 →
  load g (u32 (i + j)) = Some (g !!! (Z.to_nat i + Z.to_nat j)%nat).
Proof.
  intros Hi Hj Hlen Hg. rewrite u32_small by lia. rewrite load_in_bounds by lia.
  do 2 f_equal. lia.
Qed.

Lemma load_gradient_0 (g : list Z) (i : Z) :
  0 ≤ i → (Z.to_nat i < length g)%nat →
  load g i = Some (g !!! (Z.to_nat i + 0)%nat).
Proof. intros Hi Hlen. rewrite load_in_bounds by lia. do 2 f_equal. lia. Qed.

Section Extrapolate.
Context {T : Type} {F : FloatOps T}.

Lemma noise2_extrapolate_spec (perm : list Z) xsb ysb (dx dy : T) :
  length perm = 256%nat →
  Noise2.extrapolate perm xsb ysb dx dy =
    Some (Spec.dot
            (Spec.gradient Noise2.gradients 2
               (Z.land (Spec.hash perm [xsb; ysb]) 0x0E / 2))
            [dx; dy]).
Proof.
  intros Hlen. unfold Noise2.extrapolate, Spec.hash. cbn [fold_left Z.add].
  rewrite !load_masked by done. cbn [mbind option_bind].
  rewrite !load_masked by done. cbn [mbind option_bind].
  set (h := perm !!! Z.to_nat (Z.land (_ + ysb) 0xFF)).
  destruct (mask_0E h) as [Hb Hd]. rewrite (u32_small (Z.land h 0x0E)) by lia.
  set (i := Z.land h 0x0E) in *.
  rewrite (load_gradient_0 Noise2.gradients i) by (cbn; lia). cbn [mbind option_bind].
  rewrite (load_gradient Noise2.gradients i 1) by (cbn; lia). cbn [mbind option_bind].
  unfold Spec.gradient.
  replace (Z.to_nat (i / 2) * 2)%nat with (Z.to_nat i) by lia.
  rewrite take_drop_lookup_total by (cbn; lia). reflexivity.
Qed.

Lemma noise4_extrapolate_spec (perm : list Z) xsb ysb zsb wsb (dx dy dz dw : T) :
  length perm = 256%nat →
  Noise4.extrapolate perm xsb ysb zsb wsb dx dy dz dw =
    Some (Spec.dot
            (Spec.gradient Noise4.gradients 4
               (Z.land (Spec.hash perm [xsb; ysb; zsb; wsb]) 0xFC / 4))
            [dx; dy; dz; dw]).
Proof.
  intros Hlen. unfold Noise4.extrapolate, Spec.hash. cbn [fold_left Z.add].
  rewrite !load_masked by done. cbn [mbind option_bind].
  rewrite !load_masked by done. cbn [mbind option_bind].
  rewrite !load_masked by done. cbn [mbind option_bind].
  rewrite !load_masked by done. cbn [mbind option_bind].
  set (h := perm !!! Z.to_nat (Z.land (_ + wsb) 0xFF)).
  destruct (mask_FC h) as [Hb Hd]. rewrite (u32_small (Z.land h 0xFC)) by lia.
  set (i := Z.land h 0xFC) in *.
  assert (Hg : length Noise4.gradients = 256%nat) by reflexivity.
  rewrite (load_gradient_0 Noise4.gradients i) by (rewrite ?Hg; lia). cbn [mbind option_bind].
  rewrite (load_gradient Noise4.gradients i 1) by (rewrite ?Hg; lia).
  cbn [mbind option_bind].
  rewrite (load_gradient Noise4.gradients i 2) by (rewrite ?Hg; lia).
  cbn [mbind option_bind].
  rewrite (load_gradient Noise4.gradients i 3) by (rewrite ?Hg; lia).
  cbn [mbind option_bind].
  unfold Spec.gradient.
  replace (Z.to_nat (i / 4) * 4)%nat with (Z.to_nat i) by lia.
  rewrite take_drop_lookup_total by (rewrite ?Hg; lia). reflexivity.
Qed.

(** The precomputed offset of a non-negative table entry. *)
Lemma grad_index_nonneg p :
  0 ≤ p → Noise3.grad_index p = 3 * (p mod 24) ∧ 0 ≤ p mod 24 < 24.
Proof.
  intros Hp. unfold Noise3.grad_index. change (Z.quot 72 3) with 24.
  rewrite Z.rem_mod_nonneg by lia.
  pose proof (Z.mod_pos_bound p 24). lia.
Qed.

Lemma noise3_extrapolate_spec (n : Noise3.noise) xsb ysb zsb (dx dy dz : T) :
  Spec.built3 n → Forall (λ v, 0 ≤ v) (Noise3.perm n) →
  Noise3.extrapolate n xsb ysb zsb dx dy dz =
    Some (Spec.dot
            (Spec.gradient Noise3.gradients 3
               (Spec.hash (Noise3.perm n) [xsb; ysb; zsb] mod 24))
            [dx; dy; dz]).
Proof.
  intros [Hlen Hpgi] Hpos. unfold Noise3.extrapolate, Spec.hash.
  cbn [fold_left Z.add].
  rewrite !load_masked by done. cbn [mbind option_bind].
  rewrite !load_masked by done. cbn [mbind option_bind].
  set (j := Z.land (_ + zsb) 0xFF).
  pose proof (land_255_range (Noise3.perm n !!! Z.to_nat (Z.land
    (Noise3.perm n !!! Z.to_nat (Z.land xsb 0xFF) + ysb) 0xFF) + zsb)) as Hj.
  fold j in Hj.
  assert (Hlook : Noise3.perm n !! Z.to_nat j = Some (Noise3.perm n !!! Z.to_nat j)).
  { apply list_lookup_lookup_total_lt. lia. }
  set (h := Noise3.perm n !!! Z.to_nat j) in *.
  assert (Hh : 0 ≤ h).
  { eapply (Forall_lookup_1 _ _ _ _ Hpos Hlook). }
  rewrite (load_nonneg _ j) by lia.
  rewrite Hpgi, list_lookup_fmap, Hlook. cbn [fmap option_fmap option_map mbind option_bind].
  destruct (grad_index_nonneg h Hh) as [-> Hm].
  rewrite (u32_small (3 * (h mod 24))) by lia.
  set (i := 3 * (h mod 24)) in *.
  assert (Hg : length Noise3.gradients = 72%nat) by reflexivity.
  rewrite (load_gradient_0 Noise3.gradients i) by (rewrite ?Hg; lia). cbn [mbind option_bind].
  rewrite (load_gradient Noise3.gradients i 1) by (rewrite ?Hg; lia).
  cbn [mbind option_bind].
  rewrite (load_gradient Noise3.gradients i 2) by (rewrite ?Hg; lia).
  cbn [mbind option_bind].
  unfold Spec.gradient.
  replace (Z.to_nat (h mod 24) * 3)%nat with (Z.to_nat i) by lia.
  rewrite take_drop_lookup_total by (rewrite ?Hg; lia). reflexivity.
Qed.

Lemma legacy_extrapolate_spec (n : OpenSimplexNoise.noise) xsb ysb zsb (dx dy dz : T) :
  Spec.built_legacy n → Forall (λ v, 0 ≤ v) (OpenSimplexNoise.perm n) →
  OpenSimplexNoise.extrapolate n xsb ysb zsb dx dy dz =
    Some (Spec.dot
            (Spec.gradient OpenSimplexNoise.gradients3D 3
               (Spec.hash (OpenSimplexNoise.perm n) [xsb; ysb; zsb] mod 24))
            [dx; dy; dz]).
Proof.
  intros [Hlen Hpgi] Hpos. unfold OpenSimplexNoise.extrapolate, Spec.hash.
  cbn [fold_left Z.add].
  rewrite !load_masked by done. cbn [mbind option_bind].
  rewrite !load_masked by done. cbn [mbind option_bind].
  set (j := Z.land (_ + zsb) 0xFF).
  pose proof (land_255_range (OpenSimplexNoise.perm n !!! Z.to_nat (Z.land
    (OpenSimplexNoise.perm n !!! Z.to_nat (Z.land xsb 0xFF) + ysb) 0xFF) + zsb)) as Hj.
  fold j in Hj.
  assert (Hlook : OpenSimplexNoise.perm n !! Z.to_nat j =
                  Some (OpenSimplexNoise.perm n !!! Z.to_nat j)).
  { apply list_lookup_lookup_total_lt. lia. }
  set (h := OpenSimplexNoise.perm n !!! Z.to_nat j) in *.
  assert (Hh : 0 ≤ h).
  { eapply (Forall_lookup_1 _ _ _ _ Hpos Hlook). }
  rewrite (load_nonneg _ j) by lia.
  rewrite Hpgi, list_lookup_fmap, Hlook. cbn [fmap option_fmap option_map mbind option_bind].
  change OpenSimplexNoise.grad_index with Noise3.grad_index.
  destruct (grad_index_nonneg h Hh) as [-> Hm].
  rewrite (u32_small (3 * (h mod 24))) by lia.
  set (i := 3 * (h mod 24)) in *.
  assert (Hg : length OpenSimplexNoise.gradients3D = 72%nat) by reflexivity.
  rewrite (load_gradient_0 OpenSimplexNoise.gradients3D i) by (rewrite ?Hg; lia). cbn [mbind option_bind].
  rewrite (load_gradient OpenSimplexNoise.gradients3D i 1) by (rewrite ?Hg; lia).
  cbn [mbind option_bind].
  rewrite (load_gradient OpenSimplexNoise.gradients3D i 2) by (rewrite ?Hg; lia).
  cbn [mbind option_bind].
  unfold Spec.gradient.
  replace (Z.to_nat (h mod 24) * 3)%nat with (Z.to_nat i) by lia.
  rewrite take_drop_lookup_total by (rewrite ?Hg; lia). reflexivity.
Qed.

(** The hash of a valid table is a byte. *)
Lemma hash_range (perm : list Z) (c : Z) (coords : list Z) :
  Spec.valid_table perm → 0 ≤ Spec.hash perm (coords ++ [c]) ≤ 255.
Proof.
  intros [Hlen Hall]. unfold Spec.hash. rewrite fold_left_app. cbn [fold_left].
  set (h := fold_left _ coords 0).
  pose proof (land_255_range (h + c)) as Hr.
  assert (Hlook : perm !! Z.to_nat (Z.land (h + c) 0xFF) =
                  Some (perm !!! Z.to_nat (Z.land (h + c) 0xFF))).
  { apply list_lookup_lookup_total_lt. lia. }
  apply (Forall_lookup_1 _ _ _ _ Hall Hlook).
Qed.

End Extrapolate.

(** ** The evaluators: accumulation and normalisation *)

Section Accumulate.
Context {T : Type} {F : FloatOps T}.

Local Open Scope fl_scope.

(** Resolve the next call of [extrapolate], keeping its equation. *)
Ltac next_extr2 Hlen :=
  match goal with
  | |- context [Noise2.extrapolate ?perm ?a ?b ?dx ?dy] =>
      let E := fresh "E" in
      destruct (Noise2.extrapolate perm a b dx dy) as [?|] eqn:E;
      [| by rewrite noise2_extrapolate_spec in E by exact Hlen];
      cbn [mbind option_bind]
  end.

Ltac next_extr3 Hb Hpos :=
  match goal with
  | |- context [Noise3.extrapolate ?n ?a ?b ?c ?dx ?dy ?dz] =>
      let E := fresh "E" in
      destruct (Noise3.extrapolate n a b c dx dy dz) as [?|] eqn:E;
      [| by rewrite (noise3_extrapolate_spec _ _ _ _ _ _ _ Hb Hpos) in E];
      cbn [mbind option_bind]
  end.

Ltac next_extr4 Hlen :=
  match goal with
  | |- context [Noise4.extrapolate ?perm ?a ?b ?c ?d ?dx ?dy ?dz ?dw] =>
      let E := fresh "E" in
      destruct (Noise4.extrapolate perm a b c d dx dy dz dw) as [?|] eqn:E;
      [| by rewrite noise4_extrapolate_spec in E by exact Hlen];
      cbn [mbind option_bind]
  end.

(** Build the derivation of [kernel_sum] from the equations kept. *)
Ltac sum_terms :=
  repeat match goal with
  | H : Spec.kernel_sum _ ?v |- Spec.kernel_sum _ ?v => exact H
  | |- Spec.kernel_sum _ (of_int 0) => apply Spec.kernel_sum_zero
  | E : Noise2.extrapolate _ ?a ?b ?dx ?dy = Some ?e
    |- Spec.kernel_sum _ (fadd _ (fmul _ ?e)) =>
      apply (Spec.kernel_sum_add _ _ [a; b] [dx; dy] e); [| exact E]
  | E : Noise3.extrapolate _ ?a ?b ?c ?dx ?dy ?dz = Some ?e
    |- Spec.kernel_sum _ (fadd _ (fmul _ ?e)) =>
      apply (Spec.kernel_sum_add _ _ [a; b; c] [dx; dy; dz] e); [| exact E]
  | E : Noise3.extrapolate _ ?a ?b ?c ?dx ?dy ?dz = Some ?e
    |- Spec.kernel_sum _ (fmul _ ?e) =>
      apply (Spec.kernel_sum_first _ [a; b; c] [dx; dy; dz] e); exact E
  | E : Noise4.extrapolate _ ?a ?b ?c ?d ?dx ?dy ?dz ?dw = Some ?e
    |- Spec.kernel_sum _ (fadd _ (fmul _ ?e)) =>
      apply (Spec.kernel_sum_add _ _ [a; b; c; d] [dx; dy; dz; dw] e); [| exact E]
  | E : Noise4.extrapolate _ ?a ?b ?c ?d ?dx ?dy ?dz ?dw = Some ?e
    |- Spec.kernel_sum _ (fmul _ ?e) =>
      apply (Spec.kernel_sum_first _ [a; b; c; d] [dx; dy; dz; dw] e); exact E
  end.

Lemma noise2_eval_sum (perm : list Z) (x y : T) :
  length perm = 256%nat →
  ∃ value, Noise2.eval perm x y = Some (value / #47) ∧
           Spec.kernel_sum (Spec.extr2 perm) value.
Proof.
  intros Hlen. unfold Noise2.eval.
  destruct (Noise2.place x y) as [[[[[xsb ysb] dx0] dy0] xins] yins].
  cbv zeta. do 2 next_extr2 Hlen.
  destruct (Noise2.region _ _ _ _ _ _) as [[[[[[[xsb' ysb'] dx0'] dy0'] xe] ye] dxe] dye].
  do 2 next_extr2 Hlen.
  eexists. split; [reflexivity|].
  cbn [Noise2.sum_loop]. sum_terms.
Qed.

(** *** Noise<3,T> *)

Section Noise3.
Context (n : Noise3.noise) (Hb : Spec.built3 n)
        (Hpos : Forall (λ v, (0 ≤ v)%Z) (Noise3.perm n)).

Lemma noise3_octa_contrib_sum xsb ysb zsb (dx0 dy0 dz0 : T) :
  ∃ value, Noise3.octa_contrib n xsb ysb zsb dx0 dy0 dz0 = Some value ∧
           Spec.kernel_sum (Spec.extr3 n) value.
Proof.
  unfold Noise3.octa_contrib. cbv zeta. do 6 next_extr3 Hb Hpos.
  eexists. split; [reflexivity|]. sum_terms.
Qed.

Lemma noise3_tetra0_contrib_sum xsb ysb zsb (dx0 dy0 dz0 : T) :
  ∃ value, Noise3.tetra0_contrib n xsb ysb zsb dx0 dy0 dz0 = Some value ∧
           Spec.kernel_sum (Spec.extr3 n) value.
Proof.
  unfold Noise3.tetra0_contrib. cbv zeta. do 4 next_extr3 Hb Hpos.
  eexists. split; [reflexivity|]. sum_terms.
Qed.

Lemma noise3_tetra1_contrib_sum xsb ysb zsb (dx0 dy0 dz0 : T) :
  ∃ value, Noise3.tetra1_contrib n xsb ysb zsb dx0 dy0 dz0 = Some value ∧
           Spec.kernel_sum (Spec.extr3 n) value.
Proof.
  unfold Noise3.tetra1_contrib. cbv zeta. do 4 next_extr3 Hb Hpos.
  eexists. split; [reflexivity|]. sum_terms.
Qed.

Lemma noise3_extra_sum value a0 b0 c0 a1 b1 c1 (dx0 dy0 dz0 dx1 dy1 dz1 : T) :
  Spec.kernel_sum (Spec.extr3 n) value →
  ∃ value', Noise3.extra n value a0 b0 c0 a1 b1 c1 dx0 dy0 dz0 dx1 dy1 dz1 =
              Some value' ∧
            Spec.kernel_sum (Spec.extr3 n) value'.
Proof.
  intros Hv. unfold Noise3.extra. cbv zeta. do 2 next_extr3 Hb Hpos.
  eexists. split; [reflexivity|]. sum_terms.
Qed.

Lemma noise3_eval_sum (x y z : T) :
  ∃ value, Noise3.eval n x y z = Some (value / #103) ∧
           Spec.kernel_sum (Spec.extr3 n) value.
Proof.
  unfold Noise3.eval.
  destruct (Noise3.place x y z) as [[[[[[[[xsb ysb] zsb] dx0] dy0] dz0] xins] yins] zins].
  cbv zeta.
  destruct (_ && _); [| destruct (_ <=? _)].
  - destruct (Noise3.octa_closest _ _ _) as [[[? ?] ?] ?].
    destruct (noise3_octa_contrib_sum xsb ysb zsb dx0 dy0 dz0) as (v & -> & Hv).
    cbn [mbind option_bind].
    destruct (Noise3.octa_ext _ _ _ _ _ _ _ _ _ _)
      as [[[[[[[[[[[xv0 yv0] zv0] xv1] yv1] zv1] ex0] ey0] ez0] ex1] ey1] ez1].
    destruct (noise3_extra_sum v xv0 yv0 zv0 xv1 yv1 zv1 ex0 ey0 ez0 ex1 ey1 ez1 Hv)
      as (v' & -> & Hv').
    cbn [mbind option_bind]. eauto.
  - destruct (Noise3.tetra0_closest _ _ _) as [[[? ?] ?] ?].
    destruct (noise3_tetra0_contrib_sum xsb ysb zsb dx0 dy0 dz0) as (v & -> & Hv).
    cbn [mbind option_bind].
    destruct (Noise3.tetra0_ext _ _ _ _ _ _ _ _ _ _ _)
      as [[[[[[[[[[[xv0 yv0] zv0] xv1] yv1] zv1] ex0] ey0] ez0] ex1] ey1] ez1].
    destruct (noise3_extra_sum v xv0 yv0 zv0 xv1 yv1 zv1 ex0 ey0 ez0 ex1 ey1 ez1 Hv)
      as (v' & -> & Hv').
    cbn [mbind option_bind]. eauto.
  - destruct (Noise3.tetra1_closest _ _ _) as [[[? ?] ?] ?].
    destruct (noise3_tetra1_contrib_sum xsb ysb zsb dx0 dy0 dz0) as (v & -> & Hv).
    cbn [mbind option_bind].
    destruct (Noise3.tetra1_ext _ _ _ _ _ _ _ _ _ _ _)
      as [[[[[[[[[[[xv0 yv0] zv0] xv1] yv1] zv1] ex0] ey0] ez0] ex1] ey1] ez1].
    destruct (noise3_extra_sum v xv0 yv0 zv0 xv1 yv1 zv1 ex0 ey0 ez0 ex1 ey1 ez1 Hv)
      as (v' & -> & Hv').
    cbn [mbind option_bind]. eauto.
Qed.

End Noise3.

(** *** Noise<4,T> *)

Section Noise4.
Context (perm : list Z) (Hlen : length perm = 256%nat).

Lemma noise4_penta0_contrib_sum xsb ysb zsb wsb (dx0 dy0 dz0 dw0 : T) :
  ∃ value, Noise4.penta0_contrib perm xsb ysb zsb wsb dx0 dy0 dz0 dw0 = Some value ∧
           Spec.kernel_sum (Spec.extr4 perm) value.
Proof.
  unfold Noise4.penta0_contrib. cbv zeta. do 5 next_extr4 Hlen.
  eexists. split; [reflexivity|]. sum_terms.
Qed.

Lemma noise4_penta1_contrib_sum xsb ysb zsb wsb (dx0 dy0 dz0 dw0 : T) :
  ∃ value, Noise4.penta1_contrib perm xsb ysb zsb wsb dx0 dy0 dz0 dw0 = Some value ∧
           Spec.kernel_sum (Spec.extr4 perm) value.
Proof.
  unfold Noise4.penta1_contrib. cbv zeta. do 5 next_extr4 Hlen.
  eexists. split; [reflexivity|]. sum_terms.
Qed.

Lemma noise4_dispenta0_contrib_sum value xsb ysb zsb wsb (dx0 dy0 dz0 dw0 : T) :
  Spec.kernel_sum (Spec.extr4 perm) value →
  ∃ value', Noise4.dispenta0_contrib perm value xsb ysb zsb wsb dx0 dy0 dz0 dw0 =
              Some value' ∧
            Spec.kernel_sum (Spec.extr4 perm) value'.
Proof.
  intros Hv. unfold Noise4.dispenta0_contrib. cbv zeta. do 10 next_extr4 Hlen.
  eexists. split; [reflexivity|]. sum_terms.
Qed.

Lemma noise4_dispenta1_contrib_sum value xsb ysb zsb wsb (dx0 dy0 dz0 dw0 : T) :
  Spec.kernel_sum (Spec.extr4 perm) value →
  ∃ value', Noise4.dispenta1_contrib perm value xsb ysb zsb wsb dx0 dy0 dz0 dw0 =
              Some value' ∧
            Spec.kernel_sum (Spec.extr4 perm) value'.
Proof.
  intros Hv. unfold Noise4.dispenta1_contrib. cbv zeta. do 10 next_extr4 Hlen.
  eexists. split; [reflexivity|]. sum_terms.
Qed.

Lemma noise4_extra_sum value a0 b0 c0 d0 a1 b1 c1 d1 a2 b2 c2 d2
    (ex0 ey0 ez0 ew0 ex1 ey1 ez1 ew1 ex2 ey2 ez2 ew2 : T) :
  Spec.kernel_sum (Spec.extr4 perm) value →
  ∃ value', Noise4.extra perm value a0 b0 c0 d0 a1 b1 c1 d1 a2 b2 c2 d2
              ex0 ey0 ez0 ew0 ex1 ey1 ez1 ew1 ex2 ey2 ez2 ew2 = Some value' ∧
            Spec.kernel_sum (Spec.extr4 perm) value'.
Proof.
  intros Hv. unfold Noise4.extra. cbv zeta. do 3 next_extr4 Hlen.
  eexists. split; [reflexivity|]. sum_terms.
Qed.

(** The part of [eval] after the contributions of the region. *)
Ltac finish4 v Hv :=
  cbn [mbind option_bind];
  match goal with
  | |- context [let '(_, _) := ?e in _] =>
      destruct e as [[[[[[[[[[[[[[[[[[[[[[[? ?] ?] ?] ?] ?] ?] ?] ?] ?] ?] ?]
                       ?] ?] ?] ?] ?] ?] ?] ?] ?] ?] ?] ?]
  end;
  let v' := fresh "v" in
  let Heq := fresh "Heq" in
  let Hv' := fresh "Hv" in
  edestruct (noise4_extra_sum v) as (v' & Heq & Hv'); [exact Hv|];
  rewrite Heq; cbn [mbind option_bind]; eauto.

Lemma noise4_eval_sum (x y z w : T) :
  ∃ value, Noise4.eval perm x y z w = Some (value / #30) ∧
           Spec.kernel_sum (Spec.extr4 perm) value.
Proof.
  unfold Noise4.eval.
  destruct (Noise4.place x y z w)
    as [[[[[[[[[[[xsb ysb] zsb] wsb] dx0] dy0] dz0] dw0] xins] yins] zins] wins].
  cbv zeta.
  destruct (_ <=? #1); [| destruct (#3 <=? _); [| destruct (_ <=? #2)]].
  - destruct (Noise4.penta0_closest _ _ _ _) as [[[? ?] ?] ?].
    destruct (noise4_penta0_contrib_sum xsb ysb zsb wsb dx0 dy0 dz0 dw0)
      as (v & -> & Hv).
    finish4 v Hv.
  - destruct (Noise4.penta1_closest _ _ _ _) as [[[? ?] ?] ?].
    destruct (noise4_penta1_contrib_sum xsb ysb zsb wsb dx0 dy0 dz0 dw0)
      as (v & -> & Hv).
    finish4 v Hv.
  - destruct (Noise4.dispenta0_closest _ _ _ _ _) as [[[? ?] ?] ?].
    destruct (noise4_dispenta0_contrib_sum #0 xsb ysb zsb wsb dx0 dy0 dz0 dw0
                (Spec.kernel_sum_zero _)) as (v & -> & Hv).
    finish4 v Hv.
  - destruct (Noise4.dispenta1_closest _ _ _ _ _) as [[[? ?] ?] ?].
    destruct (noise4_dispenta1_contrib_sum #0 xsb ysb zsb wsb dx0 dy0 dz0 dw0
                (Spec.kernel_sum_zero _)) as (v & -> & Hv).
    finish4 v Hv.
Qed.

End Noise4.

End Accumulate.

(** ** The single-class evaluator runs to completion *)

Section Legacy.
Context {T : Type} {F : FloatOps T}.
Context (n : OpenSimplexNoise.noise) (Hb : Spec.built_legacy n)
        (Hpos : Forall (λ v, (0 ≤ v)%Z) (OpenSimplexNoise.perm n)).

Local Open Scope fl_scope.

(** Resolve the guarded contributions of a block. *)
Ltac guarded :=
  cbv zeta;
  rewrite ?(legacy_extrapolate_spec _ _ _ _ _ _ _ Hb Hpos);
  cbn [mbind option_bind];
  repeat (match goal with
          | |- context [if ?c then _ else _] => destruct c
          end; cbn [mbind option_bind]);
  eauto.

Lemma legacy_octa_contrib_some value xsb ysb zsb (dx0 dy0 dz0 : T) :
  is_Some (OpenSimplexNoise.octa_contrib n value xsb ysb zsb dx0 dy0 dz0).
Proof. unfold OpenSimplexNoise.octa_contrib. guarded. Qed.

Lemma legacy_tetra0_contrib_some value xsb ysb zsb (dx0 dy0 dz0 : T) :
  is_Some (OpenSimplexNoise.tetra0_contrib n value xsb ysb zsb dx0 dy0 dz0).
Proof. unfold OpenSimplexNoise.tetra0_contrib. guarded. Qed.

Lemma legacy_tetra1_contrib_some value xsb ysb zsb (dx0 dy0 dz0 : T) :
  is_Some (OpenSimplexNoise.tetra1_contrib n value xsb ysb zsb dx0 dy0 dz0).
Proof. unfold OpenSimplexNoise.tetra1_contrib. guarded. Qed.

Lemma legacy_extra_some value xv0 yv0 zv0 xv1 yv1 zv1 (ex0 ey0 ez0 ex1 ey1 ez1 : T) :
  is_Some (OpenSimplexNoise.extra n value xv0 yv0 zv0 xv1 yv1 zv1
             ex0 ey0 ez0 ex1 ey1 ez1).
Proof. unfold OpenSimplexNoise.extra. guarded. Qed.

Ltac finish_legacy :=
  cbn [mbind option_bind];
  match goal with
  | |- context [let '(_, _) := ?e in _] =>
      destruct e as [[[[[[[[[[[? ?] ?] ?] ?] ?] ?] ?] ?] ?] ?] ?]
  end;
  match goal with
  | |- context [OpenSimplexNoise.extra n ?v ?a ?b ?c ?d ?e ?f ?g ?h ?i ?j ?k ?l] =>
      destruct (legacy_extra_some v a b c d e f g h i j k l) as [? ->]
  end;
  cbn [mbind option_bind]; eauto.

Lemma legacy_eval_some (x y z : T) : is_Some (OpenSimplexNoise.eval n x y z).
Proof.
  unfold OpenSimplexNoise.eval.
  destruct (Noise3.place x y z) as [[[[[[[[xsb ysb] zsb] dx0] dy0] dz0] xins] yins] zins].
  cbv zeta.
  destruct (_ && _); [| destruct (_ <=? _)].
  - destruct (Noise3.octa_closest _ _ _) as [[[? ?] ?] ?].
    destruct (legacy_octa_contrib_some #0 xsb ysb zsb dx0 dy0 dz0) as [v ->].
    finish_legacy.
  - destruct (Noise3.tetra0_closest _ _ _) as [[[? ?] ?] ?].
    destruct (legacy_tetra0_contrib_some #0 xsb ysb zsb dx0 dy0 dz0) as [v ->].
    finish_legacy.
  - destruct (Noise3.tetra1_closest _ _ _) as [[[? ?] ?] ?].
    destruct (legacy_tetra1_contrib_some #0 xsb ysb zsb dx0 dy0 dz0) as [v ->].
    finish_legacy.
Qed.

End Legacy.

(** ** Periodicity of the extrapolation *)

Section Period.
Context {T : Type} {F : FloatOps T}.

Lemma load_period (perm : list Z) (h c k : Z) :
  load perm (Z.land (h + (c + 256 * k)) 0xFF) = load perm (Z.land (h + c) 0xFF).
Proof. by rewrite Z.add_assoc, land_255_period. Qed.

Lemma noise2_period_x perm xsb ysb (dx dy : T) k :
  Noise2.extrapolate perm (xsb + 256 * k) ysb dx dy =
  Noise2.extrapolate perm xsb ysb dx dy.
Proof. unfold Noise2.extrapolate. by rewrite land_255_period. Qed.

Lemma noise2_period_y perm xsb ysb (dx dy : T) k :
  Noise2.extrapolate perm xsb (ysb + 256 * k) dx dy =
  Noise2.extrapolate perm xsb ysb dx dy.
Proof.
  unfold Noise2.extrapolate.
  destruct (load perm (Z.land xsb 0xFF)) as [h|]; [|done].
  cbn [mbind option_bind]. by rewrite load_period.
Qed.

Lemma noise3_period_x n xsb ysb zsb (dx dy dz : T) k :
  Noise3.extrapolate n (xsb + 256 * k) ysb zsb dx dy dz =
  Noise3.extrapolate n xsb ysb zsb dx dy dz.
Proof. unfold Noise3.extrapolate. by rewrite land_255_period. Qed.

Lemma noise3_period_y n xsb ysb zsb (dx dy dz : T) k :
  Noise3.extrapolate n xsb (ysb + 256 * k) zsb dx dy dz =
  Noise3.extrapolate n xsb ysb zsb dx dy dz.
Proof.
  unfold Noise3.extrapolate.
  destruct (load (Noise3.perm n) (Z.land xsb 0xFF)) as [h|]; [|done].
  cbn [mbind option_bind]. by rewrite load_period.
Qed.

Lemma noise3_period_z n xsb ysb zsb (dx dy dz : T) k :
  Noise3.extrapolate n xsb ysb (zsb + 256 * k) dx dy dz =
  Noise3.extrapolate n xsb ysb zsb dx dy dz.
Proof.
  unfold Noise3.extrapolate.
  destruct (load (Noise3.perm n) (Z.land xsb 0xFF)) as [h|]; [|done].
  cbn [mbind option_bind].
  destruct (load (Noise3.perm n) (Z.land (h + ysb) 0xFF)) as [h'|]; [|done].
  cbn [mbind option_bind]. by rewrite load_period.
Qed.

Lemma noise4_period_x perm xsb ysb zsb wsb (dx dy dz dw : T) k :
  Noise4.extrapolate perm (xsb + 256 * k) ysb zsb wsb dx dy dz dw =
  Noise4.extrapolate perm xsb ysb zsb wsb dx dy dz dw.
Proof. unfold Noise4.extrapolate. by rewrite land_255_period. Qed.

Lemma noise4_period_y perm xsb ysb zsb wsb (dx dy dz dw : T) k :
  Noise4.extrapolate perm xsb (ysb + 256 * k) zsb wsb dx dy dz dw =
  Noise4.extrapolate perm xsb ysb zsb wsb dx dy dz dw.
Proof.
  unfold Noise4.extrapolate.
  destruct (load perm (Z.land xsb 0xFF)) as [h|]; [|done].
  cbn [mbind option_bind]. by rewrite load_period.
Qed.

Lemma noise4_period_z perm xsb ysb zsb wsb (dx dy dz dw : T) k :
  Noise4.extrapolate perm xsb ysb (zsb + 256 * k) wsb dx dy dz dw =
  Noise4.extrapolate perm xsb ysb zsb wsb dx dy dz dw.
Proof.
  unfold Noise4.extrapolate.
  destruct (load perm (Z.land xsb 0xFF)) as [h|]; [|done].
  cbn [mbind option_bind].
  destruct (load perm (Z.land (h + ysb) 0xFF)) as [h'|]; [|done].
  cbn [mbind option_bind]. by rewrite load_period.
Qed.

Lemma noise4_period_w perm xsb ysb zsb wsb (dx dy dz dw : T) k :
  Noise4.extrapolate perm xsb ysb zsb (wsb + 256 * k) dx dy dz dw =
  Noise4.extrapolate perm xsb ysb zsb wsb dx dy dz dw.
Proof.
  unfold Noise4.extrapolate.
  destruct (load perm (Z.land xsb 0xFF)) as [h|]; [|done].
  cbn [mbind option_bind].
  destruct (load perm (Z.land (h + ysb) 0xFF)) as [h'|]; [|done].
  cbn [mbind option_bind].
  destruct (load perm (Z.land (h' + zsb) 0xFF)) as [h''|]; [|done].
  cbn [mbind option_bind]. by rewrite load_period.
Qed.

End Period.

(** ** NaN in binary64 *)

Section NaN.

Local Open Scope fl_scope.

Lemma prim_nan (x : float) : Prim2SF x = S754_nan → x = nan.
Proof. intros H. rewrite <- (SF2Prim_Prim2SF x), H. reflexivity. Qed.

Lemma add_nan_l (y : float) : nan + y = nan.
Proof.
  apply prim_nan. change (Prim2SF (PrimFloat.add nan y) = S754_nan).
  rewrite add_spec. reflexivity.
Qed.

Lemma add_nan_r (x : float) : x + nan = nan.
Proof.
  apply prim_nan. change (Prim2SF (PrimFloat.add x nan) = S754_nan).
  rewrite add_spec. by destruct (Prim2SF x).
Qed.

Lemma sub_nan_l (y : float) : nan - y = nan.
Proof.
  apply prim_nan. change (Prim2SF (PrimFloat.sub nan y) = S754_nan).
  rewrite sub_spec. reflexivity.
Qed.

Lemma prim_sub_nan_r (x : float) : PrimFloat.sub x nan = nan.
Proof. apply prim_nan. rewrite sub_spec. by destruct (Prim2SF x). Qed.

Lemma sub_nan_r (x : float) : x - nan = nan.
Proof. apply prim_sub_nan_r. Qed.

Lemma mul_nan_l (y : float) : nan * y = nan.
Proof.
  apply prim_nan. change (Prim2SF (PrimFloat.mul nan y) = S754_nan).
  rewrite mul_spec. reflexivity.
Qed.

Lemma mul_nan_r (x : float) : x * nan = nan.
Proof.
  apply prim_nan. change (Prim2SF (PrimFloat.mul x nan) = S754_nan).
  rewrite mul_spec. by destruct (Prim2SF x).
Qed.

(** A sum with a NaN term. *)
Lemma sum2_nan (x y : float) : x = nan ∨ y = nan → x + y = nan.
Proof. intros [-> | ->]; [apply add_nan_l | apply add_nan_r]. Qed.

Lemma noise2_place_nan (x y : float) :
  x = nan ∨ y = nan →
  Noise2.place x y =
    (Binary64.INDEFINITE, Binary64.INDEFINITE, nan, nan, nan, nan).
Proof.
  intros H. unfold Noise2.place. cbv zeta.
  rewrite (sum2_nan x y H), mul_nan_l, !add_nan_r.
  vm_compute. by rewrite !prim_sub_nan_r.
Qed.

Lemma noise3_place_nan (x y z : float) :
  x = nan ∨ y = nan ∨ z = nan →
  Noise3.place x y z =
    (Binary64.INDEFINITE, Binary64.INDEFINITE, Binary64.INDEFINITE,
     nan, nan, nan, nan, nan, nan).
Proof.
  intros H. unfold Noise3.place. cbv zeta.
  assert (x + y + z = nan) as ->.
  { destruct H as [-> | [-> | ->]];
      by rewrite ?add_nan_l, ?add_nan_r, ?add_nan_l. }
  rewrite mul_nan_l, !add_nan_r.
  vm_compute. by rewrite !prim_sub_nan_r.
Qed.

Lemma noise4_place_nan (x y z w : float) :
  x = nan ∨ y = nan ∨ z = nan ∨ w = nan →
  Noise4.place x y z w =
    (Binary64.INDEFINITE, Binary64.INDEFINITE, Binary64.INDEFINITE,
     Binary64.INDEFINITE, nan, nan, nan, nan, nan, nan, nan, nan).
Proof.
  intros H. unfold Noise4.place. cbv zeta.
  assert (x + y + z + w = nan) as ->.
  { destruct H as [-> | [-> | [-> | ->]]];
      by rewrite ?add_nan_l, ?add_nan_r, ?add_nan_l. }
  rewrite mul_nan_l, !add_nan_r.
  vm_compute. by rewrite !prim_sub_nan_r.
Qed.

(** The dot product with an all-NaN offset. *)
Ltac loads :=
  repeat (match goal with
          | |- context [load ?a ?i] => destruct (load a i)
          end; cbn [mbind option_bind]);
  try discriminate.

Lemma noise2_extrapolate_nan (perm : list Z) xsb ysb :
  length perm = 256%nat → Noise2.extrapolate perm xsb ysb nan nan = Some nan.
Proof.
  intros Hlen.
  destruct (Noise2.extrapolate perm xsb ysb nan nan) as [e|] eqn:He.
  - revert He. unfold Noise2.extrapolate. loads. cbv zeta. loads.
    intros [= <-]. by rewrite !mul_nan_r.
  - by rewrite noise2_extrapolate_spec in He.
Qed.

Lemma noise3_extrapolate_nan (n : Noise3.noise) xsb ysb zsb :
  Spec.built3 n → Forall (λ v, (0 ≤ v)%Z) (Noise3.perm n) →
  Noise3.extrapolate n xsb ysb zsb nan nan nan = Some nan.
Proof.
  intros Hb Hpos.
  destruct (Noise3.extrapolate n xsb ysb zsb nan nan nan) as [e|] eqn:He.
  - revert He. unfold Noise3.extrapolate. loads. cbv zeta. loads.
    intros [= <-]. by rewrite !mul_nan_r.
  - by rewrite noise3_extrapolate_spec in He.
Qed.

Lemma noise4_extrapolate_nan (perm : list Z) xsb ysb zsb wsb :
  length perm = 256%nat →
  Noise4.extrapolate perm xsb ysb zsb wsb nan nan nan nan = Some nan.
Proof.
  intros Hlen.
  destruct (Noise4.extrapolate perm xsb ysb zsb wsb nan nan nan nan)
    as [e|] eqn:He.
  - revert He. unfold Noise4.extrapolate. loads. cbv zeta. loads.
    intros [= <-]. by rewrite !mul_nan_r.
  - by rewrite noise4_extrapolate_spec in He.
Qed.

(** Evaluate up to the next extrapolation, which yields NaN. *)
Ltac nan_steps ex Hex :=
  repeat (vm_compute; rewrite Hex); vm_compute; reflexivity.

Lemma noise2_eval_nan (perm : list Z) (x y : float) :
  length perm = 256%nat → x = nan ∨ y = nan → Noise2.eval perm x y = Some nan.
Proof.
  intros Hlen H. unfold Noise2.eval. rewrite (noise2_place_nan x y H).
  pose proof (λ a b, noise2_extrapolate_nan perm a b Hlen) as Hex.
  revert Hex. generalize (Noise2.extrapolate (T:=float) perm). intros ex Hex.
  nan_steps ex Hex.
Qed.

Lemma noise3_eval_nan (n : Noise3.noise) (x y z : float) :
  Spec.built3 n → Forall (λ v, (0 ≤ v)%Z) (Noise3.perm n) →
  x = nan ∨ y = nan ∨ z = nan → Noise3.eval n x y z = Some nan.
Proof.
  intros Hb Hpos H. unfold Noise3.eval. rewrite (noise3_place_nan x y z H).
  unfold Noise3.octa_contrib, Noise3.tetra0_contrib, Noise3.tetra1_contrib,
    Noise3.extra.
  pose proof (λ a b c, noise3_extrapolate_nan n a b c Hb Hpos) as Hex.
  revert Hex. generalize (Noise3.extrapolate (T:=float) n). intros ex Hex.
  nan_steps ex Hex.
Qed.

Lemma noise4_eval_nan (perm : list Z) (x y z w : float) :
  length perm = 256%nat → x = nan ∨ y = nan ∨ z = nan ∨ w = nan →
  Noise4.eval perm x y z w = Some nan.
Proof.
  intros Hlen H. unfold Noise4.eval. rewrite (noise4_place_nan x y z w H).
  unfold Noise4.penta0_contrib, Noise4.penta1_contrib,
    Noise4.dispenta0_contrib, Noise4.dispenta1_contrib, Noise4.extra.
  pose proof (λ a b c d, noise4_extrapolate_nan perm a b c d Hlen) as Hex.
  revert Hex. generalize (Noise4.extrapolate (T:=float) perm). intros ex Hex.
  nan_steps ex Hex.
Qed.

End NaN.

(** ** The constructors that draw with [rand()] *)

Lemma length_shuffle_with n rand source :
  (n ≤ length rand)%nat → length (Spec.shuffle_with n rand source) = n.
Proof.
  revert rand source. induction n as [|i IH]; intros [|x rand] source Hn;
    cbn [Spec.shuffle_with length] in *; try lia.
  rewrite length_app, IH by lia. cbn [length]. lia.
Qed.

Lemma shuffle_with_perm n rand source :
  (n ≤ length rand)%nat → (n ≤ length source)%nat →
  Spec.shuffle_with n rand source ≡ₚ take n source.
Proof.
  revert rand source. induction n as [|i IH]; intros [|x rand] source Hr Hn;
    cbn [length] in *; try done; try lia.
  cbn [Spec.shuffle_with].
  set (r := Z.to_nat (x mod (Z.of_nat i + 1))).
  assert (Hri : (r ≤ i)%nat).
  { pose proof (Z.mod_pos_bound x (Z.of_nat i + 1)). unfold r. lia. }
  rewrite IH by (rewrite ?length_insert; lia).
  assert (Hi : source !! i = Some (source !!! i))
    by (apply list_lookup_lookup_total_lt; lia).
  rewrite (take_S_r _ _ _ Hi).
  destruct (decide (r = i)) as [-> | Hne].
  - by rewrite list_insert_id.
  - rewrite take_insert_lt by lia.
    apply insert_swap_perm. rewrite lookup_take_lt by lia.
    apply list_lookup_lookup_total_lt. lia.
Qed.

(** A draw [rand() % (i + 1)] of a non-negative value. *)
Lemma rand_draw x (i : nat) :
  0 ≤ x →
  Z.rem x (Z.of_nat i + 1) = x mod (Z.of_nat i + 1) ∧
  0 ≤ Z.rem x (Z.of_nat i + 1) ≤ Z.of_nat i.
Proof.
  intros Hx. rewrite Z.rem_mod_nonneg by lia.
  pose proof (Z.mod_pos_bound x (Z.of_nat i + 1)). lia.
Qed.

Lemma rand_step_ok (i : nat) x rand source perm :
  0 ≤ x → (i < length source)%nat → (i < length perm)%nat →
  ∃ r : nat,
    r = Z.to_nat (x mod (Z.of_nat i + 1)) ∧
    NoiseBase.rand_step (Z.of_nat i) (NoiseBase.RandState (x :: rand) source perm) =
      Some (NoiseBase.RandState rand
              (<[r := source !!! i]> source) (<[i := source !!! r]> perm)).
Proof.
  intros Hx Hs Hp. unfold NoiseBase.rand_step.
  cbn [NoiseBase.rs_rand NoiseBase.rs_source NoiseBase.rs_perm].
  destruct (rand_draw x i Hx) as [Hd Hr]. rewrite <- Hd.
  exists (Z.to_nat (Z.rem x (Z.of_nat i + 1))). split; [done|].
  generalize dependent (Z.rem x (Z.of_nat i + 1)). intros rz _ Hr.
  rewrite (load_in_bounds source rz) by lia. cbn [mbind option_bind].
  rewrite store_nat by done. cbn [mbind option_bind].
  rewrite load_lookup, (list_lookup_lookup_total_lt source i) by done.
  cbn [mbind option_bind].
  rewrite store_in_bounds by lia. done.
Qed.

Lemma rand_loop_spec n rand source perm :
  Forall (λ x, 0 ≤ x) rand → (n ≤ length rand)%nat →
  (n ≤ length source)%nat → (n ≤ length perm)%nat →
  ∃ st, NoiseBase.rand_loop n (NoiseBase.RandState rand source perm) = Some st ∧
        NoiseBase.rs_perm st = Spec.shuffle_with n rand source ++ drop n perm.
Proof.
  revert rand source perm.
  induction n as [|i IH]; intros rand source perm Hpos Hr Hs Hp.
  { eexists; split; [done|]. destruct rand; by rewrite drop_0. }
  destruct rand as [|x rand]; [cbn [length] in Hr; lia|].
  apply Forall_cons in Hpos as [Hx Hpos]. cbn [length] in Hr.
  destruct (rand_step_ok i x rand source perm Hx ltac:(lia) ltac:(lia))
    as (r & Hrdef & Hstep).
  cbn [NoiseBase.rand_loop]. rewrite Hstep. cbn [mbind option_bind].
  edestruct (IH rand) as (st & Hloop & Hperm);
    [exact Hpos | | | | exists st; split; [exact Hloop|]].
  1-3: rewrite ?length_insert; lia.
  rewrite Hperm. cbn [Spec.shuffle_with]. rewrite <- Hrdef.
  rewrite <- !app_assoc. f_equal.
  rewrite insert_take_drop by lia.
  rewrite drop_app_length'; [done|]. rewrite length_take. lia.
Qed.

Lemma of_rand_table rand perm0 :
  Forall (λ x, 0 ≤ x) rand → (256 ≤ length rand)%nat → length perm0 = 256%nat →
  NoiseBase.of_rand rand perm0 = Some (Spec.shuffle_with 256 rand (seqZ 0 256)).
Proof.
  intros Hpos Hr Hp. unfold NoiseBase.of_rand, NoiseBase.source_init.
  destruct (rand_loop_spec 256 rand (seqZ 0 256) perm0)
    as (st & Hloop & Hperm); [done | done | by rewrite length_seqZ | lia |].
  rewrite Hloop. cbn [mbind option_bind]. rewrite Hperm.
  rewrite drop_ge by lia. by rewrite app_nil_r.
Qed.

Lemma shuffle_with_table_perm rand :
  (256 ≤ length rand)%nat → Spec.shuffle_with 256 rand (seqZ 0 256) ≡ₚ seqZ 0 256.
Proof.
  intros Hr. rewrite shuffle_with_perm by (rewrite ?length_seqZ; lia).
  by rewrite take_ge.
Qed.

Lemma legacy_shuffle_step_ok (i : nat) x rand source perm pgi :
  0 ≤ x → (i < length source)%nat → (i < length perm)%nat → (i < length pgi)%nat →
  ∃ r : nat,
    r = Z.to_nat (x mod (Z.of_nat i + 1)) ∧
    OpenSimplexNoise.shuffle_step (Z.of_nat i)
        (OpenSimplexNoise.ShuffleState (x :: rand) source
           (OpenSimplexNoise.Noise perm pgi)) =
      Some (OpenSimplexNoise.ShuffleState rand
              (<[r := source !!! i]> source)
              (OpenSimplexNoise.Noise (<[i := source !!! r]> perm)
                 (<[i := OpenSimplexNoise.grad_index (source !!! r)]> pgi))).
Proof.
  intros Hx Hs Hp Hg. unfold OpenSimplexNoise.shuffle_step.
  cbn [OpenSimplexNoise.st_rand OpenSimplexNoise.st_source
       OpenSimplexNoise.st_noise OpenSimplexNoise.perm
       OpenSimplexNoise.permGradIndex3D].
  destruct (rand_draw x i Hx) as [Hd Hr]. rewrite <- Hd.
  exists (Z.to_nat (Z.rem x (Z.of_nat i + 1))). split; [done|].
  generalize dependent (Z.rem x (Z.of_nat i + 1)). intros rz _ Hr.
  rewrite (load_in_bounds source rz) by lia. cbn [mbind option_bind].
  rewrite store_nat by done. cbn [mbind option_bind].
  rewrite (load_lookup (<[i:=_]> perm)), list_lookup_insert_eq by done.
  cbn [mbind option_bind].
  rewrite store_nat by done. cbn [mbind option_bind].
  rewrite load_lookup, (list_lookup_lookup_total_lt source i) by done.
  cbn [mbind option_bind].
  rewrite store_in_bounds by lia. done.
Qed.

Lemma legacy_shuffle_loop_spec n rand source perm pgi :
  Forall (λ x, 0 ≤ x) rand → (n ≤ length rand)%nat →
  (n ≤ length source)%nat → (n ≤ length perm)%nat → (n ≤ length pgi)%nat →
  ∃ st, OpenSimplexNoise.shuffle_loop n
          (OpenSimplexNoise.ShuffleState rand source
             (OpenSimplexNoise.Noise perm pgi)) = Some st ∧
        OpenSimplexNoise.perm (OpenSimplexNoise.st_noise st) =
          Spec.shuffle_with n rand source ++ drop n perm ∧
        OpenSimplexNoise.permGradIndex3D (OpenSimplexNoise.st_noise st) =
          (OpenSimplexNoise.grad_index <$> Spec.shuffle_with n rand source)
            ++ drop n pgi.
Proof.
  revert rand source perm pgi.
  induction n as [|i IH]; intros rand source perm pgi Hpos Hr Hs Hp Hg.
  { eexists; split; [done|]. destruct rand; by rewrite !drop_0. }
  destruct rand as [|x rand]; [cbn [length] in Hr; lia|].
  apply Forall_cons in Hpos as [Hx Hpos]. cbn [length] in Hr.
  destruct (legacy_shuffle_step_ok i x rand source perm pgi Hx
              ltac:(lia) ltac:(lia) ltac:(lia)) as (r & Hrdef & Hstep).
  cbn [OpenSimplexNoise.shuffle_loop]. rewrite Hstep. cbn [mbind option_bind].
  edestruct (IH rand) as (st & Hloop & Hperm & Hpgi);
    [exact Hpos | | | | | exists st; split; [exact Hloop|]].
  1-4: rewrite ?length_insert; lia.
  rewrite Hperm, Hpgi. cbn [Spec.shuffle_with]. rewrite <- Hrdef.
  rewrite fmap_app, <- !app_assoc. split; f_equal.
  - rewrite insert_take_drop by lia.
    rewrite drop_app_length'; [done|]. rewrite length_take. lia.
  - rewrite insert_take_drop by lia.
    rewrite drop_app_length'; [done|]. rewrite length_take. lia.
Qed.

Lemma legacy_of_rand_table rand n0 :
  Forall (λ x, 0 ≤ x) rand → (256 ≤ length rand)%nat →
  length (OpenSimplexNoise.perm n0) = 256%nat →
  length (OpenSimplexNoise.permGradIndex3D n0) = 256%nat →
  OpenSimplexNoise.of_rand rand n0 =
    Some (OpenSimplexNoise.Noise
            (Spec.shuffle_with 256 rand (seqZ 0 256))
            (OpenSimplexNoise.grad_index <$> Spec.shuffle_with 256 rand (seqZ 0 256))).
Proof.
  intros Hpos Hr Hp Hg. destruct n0 as [perm0 pgi0]. simpl in Hp, Hg.
  unfold OpenSimplexNoise.of_rand.
  destruct (legacy_shuffle_loop_spec 256 rand (seqZ 0 256) perm0 pgi0)
    as (st & Hloop & Hperm & Hpgi);
    [done | done | by rewrite length_seqZ | lia | lia |].
  rewrite Hloop. cbn [mbind option_bind].
  destruct st as [? ? [perm pgi]].
  cbn [OpenSimplexNoise.perm OpenSimplexNoise.permGradIndex3D
       OpenSimplexNoise.st_noise] in Hperm, Hpgi.
  subst perm pgi. cbn [OpenSimplexNoise.st_noise].
  rewrite !drop_ge by lia. by rewrite !app_nil_r.
Qed.

(** ** The generator *)

Lemma wrap64_add_l a b : wrap64 (wrap64 a + b) = wrap64 (a + b).
Proof.
  unfold wrap64. f_equal.
  replace ((a + 2 ^ 63) mod 2 ^ 64 - 2 ^ 63 + b + 2 ^ 63)
    with ((a + 2 ^ 63) mod 2 ^ 64 + b) by lia.
  rewrite Zplus_mod_idemp_l. f_equal. lia.
Qed.

Lemma lcg_step_wrap x :
  NoiseBase.LCG_STEP x =
    wrap64 (x * 6364136223846793005 + 1442695040888963407).
Proof. unfold NoiseBase.LCG_STEP. apply wrap64_add_l. Qed.

(** ** Tables with out-of-range entries *)

Lemma take_256_length (p : list Z) : (256 ≤ length p)%nat → length (take 256 p) = 256%nat.
Proof. intros. rewrite length_take. lia. Qed.

Lemma built3_of_table (p : list Z) :
  (256 ≤ length p)%nat →
  Spec.built3 (Noise3.Noise (take 256 p) (Noise3.grad_index <$> take 256 p)).
Proof. intros Hp. split; [by apply take_256_length | done]. Qed.

Lemma built_legacy_of_table (p : list Z) :
  (256 ≤ length p)%nat →
  Spec.built_legacy
    (OpenSimplexNoise.Noise (take 256 p)
       (OpenSimplexNoise.grad_index <$> take 256 p)).
Proof. intros Hp. split; [by apply take_256_length | done]. Qed.

Lemma perm_nonneg (perm : list Z) : perm ≡ₚ seqZ 0 256 → Forall (λ v, 0 ≤ v) perm.
Proof.
  intros Hp. rewrite Hp. apply Forall_forall. intros v Hv.
  apply elem_of_seqZ in Hv. lia.
Qed.

Lemma perm_length (perm : list Z) : perm ≡ₚ seqZ 0 256 → length perm = 256%nat.
Proof. intros ->. by rewrite length_seqZ. Qed.

Lemma built3_table seed :
  Spec.built3
    (Noise3.Noise (Spec.table seed) (Noise3.grad_index <$> Spec.table seed)).
Proof.
  unfold Spec.built3. cbn [Noise3.perm Noise3.permGradIndex].
  split; [exact (table_length seed) | exact eq_refl].
Qed.

Lemma table_nonneg seed :
  Forall (λ v, 0 ≤ v)
    (Noise3.perm
       (Noise3.Noise (Spec.table seed) (Noise3.grad_index <$> Spec.table seed))).
Proof. cbn [Noise3.perm]. exact (perm_nonneg _ (table_perm seed)). Qed.

(** * The claims of the specification *)

(** C1: the seeded constructor [NoiseBase (long long seed)] fills the
    working array with the identity and runs the shuffle of the
    specification from index 255 down to 0: the linear congruential
    generator (multiplier 6364136223846793005, increment
    1442695040888963407, one wrap of the 64-bit product and sum) is advanced
    three times before its first use and once per index, the draw is the
    mathematical remainder of [seed + 31] by [i + 1] (the negative remainder
    of the C++ [%] is corrected) and lies in [0, i], and the table built is
    [Spec.table seed], whatever the array held before: it depends on the
    seed only. *)
Theorem seeded_constructor_shuffle (seed : Z) (perm0 : list Z) :
  length perm0 = 256%nat →
  NoiseBase.of_seed seed perm0 = Some (Spec.table seed) ∧
  (∀ x, NoiseBase.LCG_STEP x =
          wrap64 (x * 6364136223846793005 + 1442695040888963407)) ∧
  (∀ gen i, 0 ≤ i →
     NoiseBase.draw gen i = wrap64 (gen + 31) mod (i + 1) ∧
     0 ≤ NoiseBase.draw gen i ≤ i).
Proof.
  intros Hlen. split; [by apply of_seed_table|]. split; [apply lcg_step_wrap|].
  intros gen i Hi. split; [by apply draw_mod | by apply draw_range].
Qed.

Lemma seeded_constructor_shuffle_witness :
  length (replicate 256 0) = 256%nat ∧
  NoiseBase.of_seed 42 (replicate 256 0) = Some (Spec.table 42).
Proof.
  split; [reflexivity|].
  destruct (seeded_constructor_shuffle 42 (replicate 256 0)) as [H _].
  - reflexivity.
  - exact H.
Defined.

(** C2: for every seed the table that the seeded constructor produces is a
    bijection on 0..255: it is a rearrangement of 0, 1, ..., 255, and each
    byte value sits at exactly one index.  The same holds for the
    constructor [OpenSimplexNoise (int seed)] of the single-class header,
    whatever non-negative values [rand()] returns after [srand(seed)]. *)
Theorem seeded_table_bijection (seed : Z) (perm0 rand : list Z)
    (n0 : OpenSimplexNoise.noise) :
  length perm0 = 256%nat →
  Forall (λ x, 0 ≤ x) rand → (256 ≤ length rand)%nat →
  length (OpenSimplexNoise.perm n0) = 256%nat →
  length (OpenSimplexNoise.permGradIndex3D n0) = 256%nat →
  (∃ perm, NoiseBase.of_seed seed perm0 = Some perm ∧
     perm ≡ₚ seqZ 0 256 ∧
     ∀ v, 0 ≤ v < 256 →
       ∃ i, perm !! i = Some v ∧ ∀ j, perm !! j = Some v → j = i) ∧
  (∃ n, OpenSimplexNoise.of_rand rand n0 = Some n ∧
     OpenSimplexNoise.perm n ≡ₚ seqZ 0 256 ∧
     ∀ v, 0 ≤ v < 256 →
       ∃ i, OpenSimplexNoise.perm n !! i = Some v ∧
            ∀ j, OpenSimplexNoise.perm n !! j = Some v → j = i).
Proof.
  intros Hlen Hpos Hrand Hp Hg. split.
  - exists (Spec.table seed). split; [by apply of_seed_table|].
    split; [apply table_perm|]. apply perm_bijection, table_perm.
  - eexists. split; [by apply legacy_of_rand_table|].
    cbn [OpenSimplexNoise.perm].
    split; [by apply shuffle_with_table_perm|].
    by apply perm_bijection, shuffle_with_table_perm.
Qed.

Lemma seeded_table_bijection_witness :
  ∃ perm, NoiseBase.of_seed 7 (replicate 256 0) = Some perm ∧
          perm ≡ₚ seqZ 0 256.
Proof.
  destruct (seeded_table_bijection 7 (replicate 256 0) (seqZ 0 256)
              (OpenSimplexNoise.Noise (replicate 256 0) (replicate 256 0)))
    as [(perm & Hperm & Hp & _) _].
  - reflexivity.
  - apply (bool_decide_unpack _). vm_compute. reflexivity.
  - vm_compute. lia.
  - reflexivity.
  - reflexivity.
  - exists perm. split; [exact Hperm | exact Hp].
Defined.

(** C3: [extrapolate] folds the lattice coordinates through the table from
    the left, which gives a hash in [0, 255] for a table of bytes; the
    gradient is the one selected by the hash masked with 0x0E in 2D (eight
    gradients of two components) and with 0xFC in 4D (sixty-four of four
    components), and in 3D by the offset table, [permGradIndex[i] =
    (perm[i] mod 24) * 3], that is gradient number [hash mod 24]; the
    result is the dot product of that gradient with the offset. *)
Theorem extrapolate_hash_gradient_dot {T : Type} {F : FloatOps T}
    (perm : list Z) (n : Noise3.noise) (xsb ysb zsb wsb : Z) (dx dy dz dw : T) :
  Spec.valid_table perm →
  Spec.built3 n → Forall (λ v, 0 ≤ v) (Noise3.perm n) →
  Noise2.extrapolate perm xsb ysb dx dy =
    Some (Spec.dot
            (Spec.gradient Noise2.gradients 2
               (Z.land (Spec.hash perm [xsb; ysb]) 0x0E / 2))
            [dx; dy]) ∧
  Noise3.extrapolate n xsb ysb zsb dx dy dz =
    Some (Spec.dot
            (Spec.gradient Noise3.gradients 3
               (Spec.hash (Noise3.perm n) [xsb; ysb; zsb] mod 24))
            [dx; dy; dz]) ∧
  Noise4.extrapolate perm xsb ysb zsb wsb dx dy dz dw =
    Some (Spec.dot
            (Spec.gradient Noise4.gradients 4
               (Z.land (Spec.hash perm [xsb; ysb; zsb; wsb]) 0xFC / 4))
            [dx; dy; dz; dw]) ∧
  0 ≤ Spec.hash perm [xsb; ysb] ≤ 255 ∧
  0 ≤ Spec.hash perm [xsb; ysb; zsb; wsb] ≤ 255 ∧
  Noise3.permGradIndex n = (λ p, (p mod 24) * 3) <$> Noise3.perm n.
Proof.
  intros Hv Hb Hpos. pose proof Hv as [Hlen _].
  split; [by apply noise2_extrapolate_spec|].
  split; [by apply noise3_extrapolate_spec|].
  split; [by apply noise4_extrapolate_spec|].
  split; [by apply (hash_range perm ysb [xsb])|].
  split; [by apply (hash_range perm wsb [xsb; ysb; zsb])|].
  destruct Hb as [_ ->]. apply Forall_fmap_ext_1.
  eapply Forall_impl; [exact Hpos|]. intros p Hp. cbn beta.
  destruct (grad_index_nonneg p Hp) as [-> _]. lia.
Qed.

Lemma extrapolate_hash_gradient_dot_witness :
  Noise2.extrapolate (seqZ 0 256) 5 (-3) 0.5%float 0.25%float =
    Some (Spec.dot
            (Spec.gradient Noise2.gradients 2
               (Z.land (Spec.hash (seqZ 0 256) [5; -3]) 0x0E / 2))
            [0.5%float; 0.25%float]).
Proof.
  destruct (extrapolate_hash_gradient_dot (seqZ 0 256)
              (Noise3.Noise (seqZ 0 256) (Noise3.grad_index <$> seqZ 0 256))
              5 (-3) 2 1 0.5%float 0.25%float 0.125%float 1%float)
    as [H _].
  - split; [reflexivity|]. apply (bool_decide_unpack _). vm_compute. reflexivity.
  - split; reflexivity.
  - apply (bool_decide_unpack _). vm_compute. reflexivity.
  - exact H.
Defined.

(** C4 (the 4D evaluator departs from the claim): at the point
    (0.8125, 1.8125, 2.21875, 1.046875) [Noise<4,T>::eval] takes the
    lattice vertex (1, 1, 1, 0) as its first extra vertex.  The squared
    distance of the point from that vertex is below 2, so the kernel of the
    true offset is positive; but the offset that the code computes for it
    has its z component off by eight times the squish constant, its squared
    length is above 2, and the kernel is zero: the vertex contributes
    nothing, although its gradient term is not zero. *)
Theorem noise4_extra_vertex_dropped :
  ∃ d rest e,
    Spec.extras4 0.8125%float 1.8125%float 2.21875%float 1.046875%float =
      ([1; 1; 1; 0], d) :: rest ∧
    flt (Spec.norm2
           (Spec.displacement Noise4.SQUISH_CONSTANT
              [0.8125; 1.8125; 2.21875; 1.046875]%float [1; 1; 1; 0]))
        (of_int 2) = true ∧
    flt (of_int 0)
        (Spec.kernel
           (Spec.norm2
              (Spec.displacement Noise4.SQUISH_CONSTANT
                 [0.8125; 1.8125; 2.21875; 1.046875]%float [1; 1; 1; 0]))) = true ∧
    flt (of_int 2) (Spec.norm2 d) = true ∧
    Spec.kernel (Spec.norm2 d) = of_int 0 ∧
    Spec.extr4 (seqZ 0 256) [1; 1; 1; 0]
      (Spec.displacement Noise4.SQUISH_CONSTANT
         [0.8125; 1.8125; 2.21875; 1.046875]%float [1; 1; 1; 0]) = Some e ∧
    flt e (of_int 0) = true.
Proof.
  eexists _, _, _.
  split; [vm_compute; reflexivity|].
  split; [vm_compute; reflexivity|].
  split; [vm_compute; reflexivity|].
  split; [vm_compute; reflexivity|].
  split; [vm_compute; reflexivity|].
  split; vm_compute; reflexivity.
Qed.

(** C5 (counterexample): the evaluator of the single-class header, built on
    the default table, returns 0 and not NaN at the point (NaN, 0.25, 0.5):
    its guards [attn < 2.0] are false for a NaN and skip every
    contribution. *)
Lemma legacy_eval_nan_zero :
  ∃ n,
    OpenSimplexNoise.of_table OpenSimplexNoise.permDefault
      (OpenSimplexNoise.Noise (replicate 256 0) (replicate 256 0)) = Some n ∧
    OpenSimplexNoise.eval n nan 0.25%float 0.5%float = Some 0%float ∧
    PrimFloat.is_nan 0%float = false.
Proof.
  eexists. split; [vm_compute; reflexivity|].
  split; vm_compute; reflexivity.
Qed.

(** C5 (amended): the evaluators of the OSN header, [Noise<2,T>::eval],
    [Noise<3,T>::eval] and [Noise<4,T>::eval] with [T = double], return NaN
    when any coordinate is NaN. *)
Theorem eval_nan_propagates (perm : list Z) (n : Noise3.noise)
    (x y z w : float) :
  length perm = 256%nat →
  Spec.built3 n → Forall (λ v, 0 ≤ v) (Noise3.perm n) →
  (x = nan ∨ y = nan → Noise2.eval perm x y = Some nan) ∧
  (x = nan ∨ y = nan ∨ z = nan → Noise3.eval n x y z = Some nan) ∧
  (x = nan ∨ y = nan ∨ z = nan ∨ w = nan →
     Noise4.eval perm x y z w = Some nan).
Proof.
  intros Hlen Hb Hpos. split; [|split].
  - by apply noise2_eval_nan.
  - by apply noise3_eval_nan.
  - by apply noise4_eval_nan.
Qed.

Lemma eval_nan_propagates_witness :
  Noise2.eval (seqZ 0 256) nan 0.5%float = Some nan ∧
  Noise3.eval (Noise3.Noise (seqZ 0 256) (Noise3.grad_index <$> seqZ 0 256))
    nan 0.5%float 0.25%float = Some nan ∧
  Noise4.eval (seqZ 0 256) nan 0.5%float 0.25%float 2%float = Some nan.
Proof.
  destruct (eval_nan_propagates (seqZ 0 256)
              (Noise3.Noise (seqZ 0 256) (Noise3.grad_index <$> seqZ 0 256))
              nan 0.5%float 0.25%float 2%float)
    as (H2 & H3 & H4).
  - reflexivity.
  - split; reflexivity.
  - apply (bool_decide_unpack _). vm_compute. reflexivity.
  - split; [|split].
    + apply H2. left. reflexivity.
    + apply H3. left. reflexivity.
    + apply H4. left. reflexivity.
Defined.



(** C7: the constructors from a table, [NoiseBase (const int * p)] and
    [OpenSimplexNoise (const int * p)], copy the 256 entries of the caller
    as they are: afterwards [perm[i]] is [p[i]] for every [i] in 0..255.
    Nothing about the values is checked, and the construction succeeds for
    every input of 256 entries, a bijection or not. *)
Theorem table_constructor_copies (p perm0 : list Z)
    (n0 : OpenSimplexNoise.noise) :
  (256 ≤ length p)%nat → length perm0 = 256%nat →
  length (OpenSimplexNoise.perm n0) = 256%nat →
  length (OpenSimplexNoise.permGradIndex3D n0) = 256%nat →
  (∃ perm, NoiseBase.of_table p perm0 = Some perm ∧
     length perm = 256%nat ∧
     ∀ i, (i < 256)%nat → perm !! i = p !! i) ∧
  (∃ n, OpenSimplexNoise.of_table p n0 = Some n ∧
     length (OpenSimplexNoise.perm n) = 256%nat ∧
     ∀ i, (i < 256)%nat → OpenSimplexNoise.perm n !! i = p !! i).
Proof.
  intros Hp Hlen Hl1 Hl2. split.
  - exists (take 256 p). split; [by apply of_table_copy|].
    split; [by apply take_256_length|].
    intros i Hi. by apply lookup_take_lt.
  - eexists. split; [by apply legacy_of_table_copy|].
    cbn [OpenSimplexNoise.perm]. split; [by apply take_256_length|].
    intros i Hi. by apply lookup_take_lt.
Qed.

Lemma table_constructor_copies_witness :
  ∃ perm, NoiseBase.of_table (replicate 256 7) (replicate 256 0) = Some perm ∧
          length perm = 256%nat ∧
          ∀ i, (i < 256)%nat → perm !! i = replicate 256 7 !! i.
Proof.
  destruct (table_constructor_copies (replicate 256 7) (replicate 256 0)
              (OpenSimplexNoise.Noise (replicate 256 0) (replicate 256 0)))
    as [H _].
  - vm_compute. lia.
  - reflexivity.
  - reflexivity.
  - reflexivity.
  - exact H.
Defined.

(** C8 (counterexample): [Noise<3,T>] built from the table whose 256
    entries are -1 has [permGradIndex[i] = -3]; [extrapolate] converts it
    to the [unsigned int] 4294967293 and reads [gradients] there, outside
    the 72 entries of the array: the evaluation does not complete. *)
Lemma tampered_table_out_of_bounds :
  ∃ n,
    Noise3.of_table (replicate 256 (-1))
      (Noise3.Noise (replicate 256 0) (replicate 256 0)) = Some n ∧
    Noise3.permGradIndex n = replicate 256 (-3) ∧
    u32 (-3) = 4294967293 ∧
    Noise3.eval n 0.5%float 0.25%float 0.125%float = None.
Proof.
  eexists. split; [vm_compute; reflexivity|].
  split; [vm_compute; reflexivity|].
  split; vm_compute; reflexivity.
Qed.

(** C8 (amended): on an instance constructed from a caller-supplied table
    of 256 entries, a bijection or not, every array access of the
    constructor and of [extrapolate] and [eval] stays within [perm] and
    [gradients] in 2D and 4D, whatever the entries are; in 3D (both
    headers) the same holds for [perm], [permGradIndex] and [gradients]
    when no entry of the table is negative.  The evaluation then runs to
    completion and returns a value. *)
Theorem eval_in_bounds {T : Type} {F : FloatOps T} (p perm0 : list Z)
    (n0 : Noise3.noise) (m0 : OpenSimplexNoise.noise) (x y z w : T) :
  (256 ≤ length p)%nat → length perm0 = 256%nat →
  length (Noise3.perm n0) = 256%nat →
  length (Noise3.permGradIndex n0) = 256%nat →
  length (OpenSimplexNoise.perm m0) = 256%nat →
  length (OpenSimplexNoise.permGradIndex3D m0) = 256%nat →
  (∃ perm, NoiseBase.of_table p perm0 = Some perm ∧
     is_Some (Noise2.eval perm x y) ∧ is_Some (Noise4.eval perm x y z w)) ∧
  (Forall (λ v, 0 ≤ v) (take 256 p) →
     (∃ n, Noise3.of_table p n0 = Some n ∧ is_Some (Noise3.eval n x y z)) ∧
     (∃ m, OpenSimplexNoise.of_table p m0 = Some m ∧
           is_Some (OpenSimplexNoise.eval m x y z))).
Proof.
  intros Hp Hlen Hn1 Hn2 Hm1 Hm2.
  pose proof (take_256_length p Hp) as Ht. split.
  - exists (take 256 p). split; [by apply of_table_copy|]. split.
    + destruct (noise2_eval_sum (take 256 p) x y Ht) as (v & -> & _). eauto.
    + destruct (noise4_eval_sum (take 256 p) Ht x y z w) as (v & -> & _). eauto.
  - intros Hpos. split.
    + eexists. split; [by apply noise3_of_table_copy|].
      edestruct (noise3_eval_sum _ (built3_of_table p Hp) Hpos x y z)
        as (v & -> & _). eauto.
    + eexists. split; [by apply legacy_of_table_copy|].
      by apply legacy_eval_some; [apply built_legacy_of_table|].
Qed.

Lemma eval_in_bounds_witness :
  ∃ perm, NoiseBase.of_table (replicate 256 7) (replicate 256 0) = Some perm ∧
          is_Some (Noise2.eval perm 0.5%float 0.25%float) ∧
          is_Some (Noise4.eval perm 0.5%float 0.25%float 2%float 1%float).
Proof.
  destruct (eval_in_bounds (replicate 256 7) (replicate 256 0)
              (Noise3.Noise (replicate 256 0) (replicate 256 0))
              (OpenSimplexNoise.Noise (replicate 256 0) (replicate 256 0))
              0.5%float 0.25%float 2%float 1%float)
    as [H _].
  - vm_compute. lia.
  - reflexivity.
  - reflexivity.
  - reflexivity.
  - reflexivity.
  - reflexivity.
  - exact H.
Defined.

(** C9: two instances constructed independently with the same seed hold
    the same tables, whatever their arrays held before, and [eval] returns
    for them the same value at every point: the result is a function of the
    table contents and of the coordinates only. *)
Theorem seeded_eval_reproducible {T : Type} {F : FloatOps T} (seed : Z)
    (m1 m2 : Noise3.noise) (x y z : T) :
  length (Noise3.perm m1) = 256%nat →
  length (Noise3.permGradIndex m1) = 256%nat →
  length (Noise3.perm m2) = 256%nat →
  length (Noise3.permGradIndex m2) = 256%nat →
  ∃ n1 n2 v,
    Noise3.of_seed seed m1 = Some n1 ∧ Noise3.of_seed seed m2 = Some n2 ∧
    n1 = n2 ∧
    Noise3.eval n1 x y z = Some v ∧ Noise3.eval n2 x y z = Some v.
Proof.
  intros H1 H2 H3 H4.
  destruct (noise3_eval_sum _ (built3_table seed) (table_nonneg seed) x y z)
    as (v & Hv & _).
  eexists _, _, _.
  split; [apply noise3_of_seed_table; assumption|].
  split; [apply noise3_of_seed_table; assumption|].
  split; [reflexivity|]. split; exact Hv.
Qed.

Lemma seeded_eval_reproducible_witness :
  ∃ n1 n2 (v : float),
    Noise3.of_seed 42 (Noise3.Noise (replicate 256 0) (replicate 256 0)) = Some n1 ∧
    Noise3.of_seed 42 (Noise3.Noise (replicate 256 9) (replicate 256 5)) = Some n2 ∧
    n1 = n2 ∧
    Noise3.eval n1 0.5%float 0.25%float 0.125%float = Some v ∧
    Noise3.eval n2 0.5%float 0.25%float 0.125%float = Some v.
Proof.
  exact (seeded_eval_reproducible 42
           (Noise3.Noise (replicate 256 0) (replicate 256 0))
           (Noise3.Noise (replicate 256 9) (replicate 256 5))
           0.5%float 0.25%float 0.125%float
           eq_refl eq_refl eq_refl eq_refl).
Defined.

(** C10: for every table, [extrapolate] has period 256 in each lattice
    coordinate: a multiple of 256 added to one coordinate, the offset kept,
    changes neither the gradient selected nor the result, in 2D, 3D and
    4D. *)
Theorem extrapolate_periodic {T : Type} {F : FloatOps T} (perm : list Z)
    (n : Noise3.noise) (xsb ysb zsb wsb k : Z) (dx dy dz dw : T) :
  Noise2.extrapolate perm (xsb + 256 * k) ysb dx dy =
    Noise2.extrapolate perm xsb ysb dx dy ∧
  Noise2.extrapolate perm xsb (ysb + 256 * k) dx dy =
    Noise2.extrapolate perm xsb ysb dx dy ∧
  Noise3.extrapolate n (xsb + 256 * k) ysb zsb dx dy dz =
    Noise3.extrapolate n xsb ysb zsb dx dy dz ∧
  Noise3.extrapolate n xsb (ysb + 256 * k) zsb dx dy dz =
    Noise3.extrapolate n xsb ysb zsb dx dy dz ∧
  Noise3.extrapolate n xsb ysb (zsb + 256 * k) dx dy dz =
    Noise3.extrapolate n xsb ysb zsb dx dy dz ∧
  Noise4.extrapolate perm (xsb + 256 * k) ysb zsb wsb dx dy dz dw =
    Noise4.extrapolate perm xsb ysb zsb wsb dx dy dz dw ∧
  Noise4.extrapolate perm xsb (ysb + 256 * k) zsb wsb dx dy dz dw =
    Noise4.extrapolate perm xsb ysb zsb wsb dx dy dz dw ∧
  Noise4.extrapolate perm xsb ysb (zsb + 256 * k) wsb dx dy dz dw =
    Noise4.extrapolate perm xsb ysb zsb wsb dx dy dz dw ∧
  Noise4.extrapolate perm xsb ysb zsb (wsb + 256 * k) dx dy dz dw =
    Noise4.extrapolate perm xsb ysb zsb wsb dx dy dz dw.
Proof.
  repeat split.
  - apply noise2_period_x.
  - apply noise2_period_y.
  - apply noise3_period_x.
  - apply noise3_period_y.
  - apply noise3_period_z.
  - apply noise4_period_x.
  - apply noise4_period_y.
  - apply noise4_period_z.
  - apply noise4_period_w.
Qed.
